(** * Reconcilers of the Harbor collection: retention policy, scan-all
    schedule and tag-immutability rules

    A shallow embedding of the three Ansible modules
    [plugins/modules/harbor_retention.py],
    [plugins/modules/harbor_scan_all_schedule.py] and
    [plugins/modules/harbor_tag_immutability.py].

    Each module is one [__init__] that talks to the registry over HTTP and
    ends in [exit_json] or [fail_json].  The embedding is a small monad over
    the registry state and the list of requests issued so far; a run stops
    with the result handed to [exit_json], with a failure message, or with
    an uncaught Python exception. *)

From stdpp Require Import gmap strings list fin_maps.

Set Default Proof Using "Type".
Set Warnings "-register-all".
Open Scope Z_scope.

(** ** JSON values, as Python holds them after [response.json()]

    Dictionaries are finite maps, so Leibniz equality on [json] is Python's
    deep [==]: independent of key order.  Python's [bool] is a subclass of
    [int] ([True == 1], [False == 0]); the two are identified here, so that
    [=] stays Python's [==].  Numbers are integers. *)

Inductive json : Type :=
  | JNull
  | JNum (n : Z)
  | JStr (s : string)
  | JList (l : list json)
  | JDict (d : gmap string json).

Abbreviation JFalse := (JNum 0).
Abbreviation JTrue := (JNum 1).

Global Instance json_eq_dec : EqDecision json.
Proof.
  refine (fix go (x y : json) {struct x} : Decision (x = y) :=
    match x, y with
    | JNull, JNull => left _
    | JNum a, JNum b => cast_if (decide (a = b))
    | JStr a, JStr b => cast_if (decide (a = b))
    | JList a, JList b => cast_if (@decide (a = b) (@list_eq_dec _ go a b))
    | JDict a, JDict b =>
        cast_if (@decide (a = b) (@gmap_eq_dec _ _ _ _ go a b))
    | _, _ => right _
    end); clear go; abstract congruence.
Defined.

Global Instance json_inhabited : Inhabited json := populate JNull.

(** A dictionary literal [{k1: v1, ...}] whose keys are distinct. *)
Definition dict (kvs : list (string * json)) : json :=
  JDict (list_to_map kvs).

(** ** The Python operations the modules apply to JSON values *)

Module Py.

Inductive Exn : Type :=
  | KeyError (k : string)
  | KeyErrorInt (i : nat)
  | IndexError
  | TypeError
  | AttributeError (attr : string)
  | JSONDecodeError.

Global Instance Exn_eq_dec : EqDecision Exn.
Proof. solve_decision. Defined.

(** [bool(v)], the test behind [if not v]. *)
Definition truthy (v : json) : bool :=
  match v with
  | JNull => false
  | JNum n => negb (Z.eqb n 0)
  | JStr s => negb (Nat.eqb (String.length s) 0%nat)
  | JList l => negb (Nat.eqb (length l) 0%nat)
  | JDict d => negb (Nat.eqb (size d) 0%nat)
  end.

(** [v[k]] for a string key. *)
Definition getitem (v : json) (k : string) : Exn + json :=
  match v with
  | JDict d => match d !! k with Some x => inr x | None => inl (KeyError k) end
  | _ => inl TypeError
  end.

(** [len(v)]. *)
Definition len (v : json) : Exn + nat :=
  match v with
  | JList l => inr (length l)
  | JDict d => inr (size d)
  | JStr s => inr (String.length s)
  | _ => inl TypeError
  end.

(** [v[i]] for an integer index in [range(len(v))].  The keys of a parsed
    JSON object are strings, so an integer key is never found. *)
Definition getitem_int (v : json) (i : nat) : Exn + json :=
  match v with
  | JList l => match l !! i with Some x => inr x | None => inl IndexError end
  | JDict _ => inl (KeyErrorInt i)
  | JStr s =>
      match String.get i s with
      | Some c => inr (JStr (String c EmptyString))
      | None => inl IndexError
      end
  | _ => inl TypeError
  end.

(** [v[i] = x] for an integer index; only lists are written this way. *)
Definition setitem_int (v : json) (i : nat) (x : json) : Exn + json :=
  match v with
  | JList l => if decide (i < length l)%nat then inr (JList (<[i:=x]> l))
               else inl IndexError
  | JDict d => inl TypeError
  | _ => inl TypeError
  end.

(** [v.pop(k)]: the value and the object without the key. *)
Definition pop (v : json) (k : string) : Exn + (json * json) :=
  match v with
  | JDict d =>
      match d !! k with
      | Some x => inr (x, JDict (delete k d))
      | None => inl (KeyError k)
      end
  | JList _ => inl TypeError
  | _ => inl (AttributeError "pop")
  end.

(** [v[k] = x] for a string key. *)
Definition setitem (v : json) (k : string) (x : json) : Exn + json :=
  match v with
  | JDict d => inr (JDict (<[k:=x]> d))
  | _ => inl TypeError
  end.

(** [x in v].  A list is searched with [==]; a dict is searched by key, which
    hashes [x] first and so raises on a list or a dict; a string accepts only
    a string on the left and looks for a substring. *)
Definition contains (x v : json) : Exn + bool :=
  match v with
  | JList l => inr (bool_decide (x ∈ l))
  | JDict d =>
      match x with
      | JStr k => inr (bool_decide (is_Some (d !! k)))
      | JNull | JNum _ => inr false
      | JList _ | JDict _ => inl TypeError
      end
  | JStr s =>
      match x with
      | JStr k => inr (bool_decide (is_Some (String.index 0%nat k s)))
      | _ => inl TypeError
      end
  | _ => inl TypeError
  end.

End Py.

(** ** HTTP: what the [requests] library sends and returns *)

(** The paths under [api_url] the modules address.  An identifier
    interpolated into a path is kept as the JSON value it was read as. *)
Inductive Endpoint : Type :=
  | ProjectsByName (name : string)
      (* /projects?name={name} *)
  | Retentions
      (* /retentions *)
  | Retention (retention_id : json)
      (* /retentions/{project_retention_id} *)
  | ScanAllSchedule
      (* /system/scanAll/schedule *)
  | ImmutableTagRules (project_id : json)
      (* /projects/{project_id}/immutabletagrules *)
  | ImmutableTagRule (project_id : json) (rule_id : json).
      (* /projects/{project_id}/immutabletagrules/{tag_immutability_id} *)

Inductive Request : Type :=
  | GET (e : Endpoint)
  | POST (e : Endpoint) (payload : json)
  | PUT (e : Endpoint) (payload : json)
  | DELETE (e : Endpoint).

Global Instance Endpoint_eq_dec : EqDecision Endpoint.
Proof. solve_decision. Defined.
Global Instance Request_eq_dec : EqDecision Request.
Proof. solve_decision. Defined.

(** POST, PUT and DELETE are the mutating calls. *)
Definition mutating (q : Request) : bool :=
  match q with GET _ => false | _ => true end.

(** A response: [status_code], [headers["content-length"]] when the header
    is present, the decoded body when [json()] succeeds, and [text]. *)
Record Response : Type := mkResponse {
  status_code : Z;
  content_length : option string;
  body : option json;
  text : string }.

(** ** The run result and how a run stops *)

(** [self.result], the dictionary handed to [exit_json]. *)
Record Result : Type := mkResult {
  changed : bool;
  diff : option (json * json);          (* {"before": _, "after": _} *)
  retention_policy : option json }.

Definition set_changed (b : bool) (r : Result) : Result :=
  {| changed := b; diff := diff r; retention_policy := retention_policy r |}.

Definition set_retention_policy (v : json) (r : Result) : Result :=
  {| changed := changed r; diff := diff r; retention_policy := Some v |}.

(** [self.result = dict(changed=False)]. *)
Definition initial_result : Result :=
  {| changed := false; diff := None; retention_policy := None |}.

(** The [msg] of a [fail_json]. *)
Inductive Msg : Type :=
  | MsgText (s : string)
  | MsgParsed (s : string)                       (* self.requestParse(request) *)
  | MsgUnknownStatus (code : Z) (body_text : string).

(** How a run ends: [exit_json] with the result, [fail_json] with a message
    (and the result, where the call passes it), or an exception nobody
    catches. *)
Inductive Stop : Type :=
  | Exit (r : Result)
  | Fail (m : Msg) (r : option Result)
  | Crash (e : Py.Exn).

Global Instance Response_eq_dec : EqDecision Response.
Proof. solve_decision. Defined.
Global Instance Result_eq_dec : EqDecision Result.
Proof. solve_decision. Defined.
Global Instance Msg_eq_dec : EqDecision Msg.
Proof. solve_decision. Defined.
Global Instance Stop_eq_dec : EqDecision Stop.
Proof. solve_decision. Defined.

(** Modelled from the spec: [HarborBaseModule.setChanges] is defined in
    [plugins/module_utils/base.py], which is not part of the sources at
    hand.  The spec has it record the [before]/[after] pair into the result
    and mark the run as changed. *)
Definition setChanges (before after : json) (r : Result) : Result :=
  {| changed := true; diff := Some (before, after);
     retention_policy := retention_policy r |}.

(** ** The environment of a run

    The registry behind the HTTP API, and the helpers of [HarborBaseModule]
    whose code is not at hand: they are parameters of the development. *)
Class Env : Type := mkEnv {
  Registry : Type;
  (** the registry answers a request and moves to a new state *)
  handle : Request → Registry → Response * Registry;
  (** [self.requestParse(request)] *)
  requestParse : Response → string;
  (** what [getProjectByName] makes of the answer to
      [GET /projects?name=]: the project, a falsy value, or a stop *)
  selectProject : string → Response → Stop + json;
  (** [self.errorHandlingHttpRequest(request)]: [None] when it returns *)
  errorHandlingHttpRequest : Response → Result → option Stop }.

(** ** The monad of a run *)

Record World `{Env} : Type := mkWorld {
  registry : Registry;
  trace : list Request }.

Global Instance World_eq_dec `{Env} `{EqDecision Registry} :
  EqDecision World.
Proof. solve_decision. Defined.

Definition M `{Env} (A : Type) : Type := World → (Stop + A) * World.

Definition ret `{Env} {A} (a : A) : M A := λ w, (inr a, w).

Definition bind `{Env} {A B} (m : M A) (k : A → M B) : M B :=
  λ w, match m w with
       | (inl s, w') => (inl s, w')
       | (inr a, w') => k a w'
       end.

Global Instance M_ret `{Env} : MRet M := @ret _.
Global Instance M_bind `{Env} : MBind M := λ A B k m, bind m k.

Definition stop `{Env} {A} (s : Stop) : M A := λ w, (inl s, w).
Definition exit_json `{Env} {A} (r : Result) : M A := stop (Exit r).
Definition fail_json `{Env} {A} (m : Msg) (r : option Result) : M A :=
  stop (Fail m r).
Definition raise `{Env} {A} (e : Py.Exn) : M A := stop (Crash e).

(** A Python operation inside a run: its exception ends the run. *)
Definition py `{Env} {A} (x : Py.Exn + A) : M A :=
  match x with inl e => raise e | inr a => ret a end.

(** One HTTP round trip, appended to the trace. *)
Definition request `{Env} (q : Request) : M Response :=
  λ w, let '(resp, s') := handle q (registry w) in
       (inr resp, {| registry := s'; trace := trace w ++ [q] |}).

(** [response.json()]. *)
Definition json_of `{Env} (resp : Response) : M json :=
  match body resp with Some v => ret v | None => raise Py.JSONDecodeError end.

(** Modelled from the spec: [HarborBaseModule.getProjectByName] is not part
    of the sources at hand.  The spec lists [GET /projects?name=] as the call
    that resolves a project to its id and metadata. *)
Definition getProjectByName `{Env} (name : string) : M json :=
  resp ← request (GET (ProjectsByName name));
  match selectProject name resp with
  | inl s => stop s
  | inr v => ret v
  end.

(** The whole run: the way it stops, the registry it leaves and the
    requests it issued. *)
Definition run `{Env} (m : M Empty_set) (s : Registry) : Stop * World :=
  match m {| registry := s; trace := [] |} with
  | (inl st, w) => (st, w)
  | (inr e, _) => match e with end
  end.

(** A helper that may stop the run ([None]: it returned). *)
Definition check `{Env} (o : option Stop) : M unit :=
  match o with None => ret () | Some s => stop s end.

(** Python operations chain: the first exception wins. *)
Global Instance Exn_ret : MRet (sum Py.Exn) := λ A a, inr a.
Global Instance Exn_bind : MBind (sum Py.Exn) :=
  λ A B k m, match m with inl e => inl e | inr a => k a end.
Global Instance Exn_fmap : FMap (sum Py.Exn) :=
  λ A B f m, match m with inl e => inl e | inr a => inr (f a) end.

(** [[x for x in l if f(x)]] *)
Fixpoint filterM {A} (f : A → Py.Exn + bool) (l : list A) : Py.Exn + list A :=
  match l with
  | [] => inr []
  | x :: l' =>
      b ← f x;
      r ← filterM f l';
      inr (if b : bool then x :: r else r)
  end.

(** [[f(x) for x in l]] *)
Fixpoint mapM {A B} (f : A → Py.Exn + B) (l : list A) : Py.Exn + list B :=
  match l with
  | [] => inr []
  | x :: l' => y ← f x; r ← mapM f l'; inr (y :: r)
  end.

(** [for x in l: st = f(st, x)] *)
Fixpoint foldM {A B} (f : B → A → Py.Exn + B) (l : list A) (st : B)
  : Py.Exn + B :=
  match l with
  | [] => inr st
  | x :: l' => st' ← f st x; foldM f l' st'
  end.

(** Modelled from the spec: the attributes [HarborBaseModule] gives an
    instance are not at hand; these are the names the three modules use
    from it ([COMMON_ARG_SPEC], the connection settings and the helpers). *)
Definition base_attributes : list string :=
  ["COMMON_ARG_SPEC"; "api_url"; "auth"; "api_verify"; "getProjectByName";
   "setChanges"; "requestParse"; "errorHandlingHttpRequest"].

(** [self.name]: an attribute that the instance lacks raises. *)
Definition getattr (attributes : list string) (name : string)
  : Py.Exn + unit :=
  if bool_decide (name ∈ attributes) then inr ()
  else inl (Py.AttributeError name).

(** ** harbor_retention.py *)

Module Retention.

(** [self.module.params] and [self.module.check_mode]. *)
Record Params : Type := mkParams {
  project : string;
  rules : list json;
  schedule_cron : string;
  force : bool;
  check_mode : bool }.

(** What a [HarborRetentionModule] instance has: the attributes set in
    [__init__], the members of the class, and those of its base. *)
Definition attributes : list string :=
  ["module"; "result"; "argspec"; "createDesiredRetentionPolicy";
   "getRetentionPolicy"; "errorHandlingPostOrPutRequest"] ++ base_attributes.

Definition createDesiredRetentionPolicy (p : Params) (project_id : json)
  : json :=
  dict [("algorithm", JStr "or");
        ("rules", JList (rules p));
        ("scope", dict [("level", JStr "project"); ("ref", project_id)]);
        ("trigger", dict [("kind", JStr "Schedule");
                          ("settings",
                           dict [("cron", JStr (schedule_cron p))])])].

Section WithEnv.
Context `{Env}.

Definition getRetentionPolicy (project_retention_id : json) : M Response :=
  request_ ← request (GET (Retention project_retention_id));
  if bool_decide (status_code request_ = 200) then mret request_
  else fail_json (MsgParsed (requestParse request_)) None.

Definition errorHandlingPostOrPutRequest (request_ : Response)
    (result : Result) : M unit :=
  let code := status_code request_ in
  if bool_decide (code = 200 ∨ code = 201) then mret ()
  else if bool_decide (code = 401) then
    fail_json (MsgText "User need to log in first.") (Some result)
  else if bool_decide (code = 403) then
    fail_json (MsgText "User does not have permission of admin role.")
              (Some result)
  else if bool_decide (code = 500) then
    fail_json (MsgText "Unexpected internal errors.") (Some result)
  else fail_json (MsgUnknownStatus code (text request_)) None.

(** Lines 171-184: apply the change and look at the policy again. *)
Definition apply_change (project_retention_id before desired : json)
    (result : Result) : M Empty_set :=
  set_request ← request (PUT (Retention project_retention_id) desired);
  errorHandlingPostOrPutRequest set_request result;;
  after_request ← getRetentionPolicy project_retention_id;
  after ← json_of after_request;
  if bool_decide (before ≠ after)
  then exit_json (setChanges before after result)
  else exit_json result.

(** Lines 159-184: compare, then preview or apply. *)
Definition compare (p : Params) (project_retention_id desired : json)
    (result : Result) : M Empty_set :=
  before_request ← getRetentionPolicy project_retention_id;
  before ← json_of before_request;
  if negb (force p) && bool_decide (before = desired)
  then exit_json (set_changed false result)
  else if check_mode p
  then exit_json (setChanges before desired result)
  else apply_change project_retention_id before desired result.

(** Lines 186-205: the project has no policy yet. *)
Definition create (p : Params) (desired : json) (result : Result)
  : M Empty_set :=
  if check_mode p
  then exit_json (set_changed true (set_retention_policy desired result))
  else
    create_retentions_request ← request (POST Retentions desired);
    errorHandlingPostOrPutRequest create_retentions_request result;;
    project' ← getProjectByName (project p);
    metadata ← py (Py.getitem project' "metadata");
    project_retention_id ← py (Py.getitem metadata "retention_id");
    after_request ← getRetentionPolicy project_retention_id;
    after ← json_of after_request;
    exit_json (set_changed true (set_retention_policy after result)).

(** [HarborRetentionModule.__init__]. *)
Definition main (p : Params) : M Empty_set :=
  let result := initial_result in
  project_ ← getProjectByName (project p);
  if negb (Py.truthy project_)
  then (py (getattr attributes "self");;
        fail_json (MsgText "Project not found") (Some result))
  else
    project_id ← py (Py.getitem project_ "project_id");
    let desired := createDesiredRetentionPolicy p project_id in
    metadata ← py (Py.getitem project_ "metadata");
    has ← py (Py.contains (JStr "retention_id") metadata);
    if has : bool
    then
      project_retention_id ← py (Py.getitem metadata "retention_id");
      compare p project_retention_id desired result
    else create p desired result.

(** *** The run, cut at the comparison

    [fetch] is [__init__] up to the point where the current policy is at
    hand (lines 147-160), [decide] is what follows; [main_fetch_decide]
    below shows that [main] is one after the other. *)

(** The desired policy, and the identifier and body of the current one
    when the project's metadata names one. *)
Record Fetched : Type := mkFetched {
  desired : json;
  current : option (json * json) }.

Definition fetch (p : Params) : M Fetched :=
  project_ ← getProjectByName (project p);
  if negb (Py.truthy project_)
  then (py (getattr attributes "self");;
        fail_json (MsgText "Project not found") (Some initial_result))
  else
    project_id ← py (Py.getitem project_ "project_id");
    let desired := createDesiredRetentionPolicy p project_id in
    metadata ← py (Py.getitem project_ "metadata");
    has ← py (Py.contains (JStr "retention_id") metadata);
    if has : bool
    then
      project_retention_id ← py (Py.getitem metadata "retention_id");
      before_request ← getRetentionPolicy project_retention_id;
      before ← json_of before_request;
      mret {| desired := desired;
              current := Some (project_retention_id, before) |}
    else mret {| desired := desired; current := None |}.

Definition decide (p : Params) (x : Fetched) : M Empty_set :=
  match current x with
  | Some (project_retention_id, before) =>
      if negb (force p) && bool_decide (before = desired x)
      then exit_json (set_changed false initial_result)
      else if check_mode p
      then exit_json (setChanges before (desired x) initial_result)
      else apply_change project_retention_id before (desired x)
                        initial_result
  | None => create p (desired x) initial_result
  end.

(** The delta of §3: the comparison of desired against current fails, a
    forced comparison counting as failed; a project without a policy has
    nothing that could compare equal. *)
Definition delta (p : Params) (x : Fetched) : bool :=
  match current x with
  | Some (_, before) => force p || bool_decide (before ≠ desired x)
  | None => true
  end.

End WithEnv.
End Retention.

(** ** harbor_scan_all_schedule.py *)

Module ScanAll.

(** The task arguments: [type] may be left out. *)
Record Params : Type := mkParams {
  schedule_cron : string;
  type_arg : option string;
  check_mode : bool }.

(** [self.module.params["type"]]: the argument spec fills in
    [default='Custom']. *)
Definition param_type (p : Params) : string := default "Custom" (type_arg p).

Definition constructDesired (schedule_cron type : string) : json :=
  dict [("schedule", dict [("cron", JStr schedule_cron);
                           ("type", JStr type)])].

Section WithEnv.
Context `{Env}.

Definition getSchedule : M json :=
  schedule_request ← request (GET ScanAllSchedule);
  empty ←
    (if bool_decide (status_code schedule_request = 200)
     then match content_length schedule_request with
          | Some l => mret (bool_decide (l = "0"))
          | None => raise (Py.KeyError "content-length")
          end
     else mret false);
  if empty : bool then mret (dict [])
  else
    schedule ← json_of schedule_request;
    s ← py (Py.getitem schedule "schedule");
    mret (dict [("schedule", s)]).

Definition putSchedule (payload : json) : M unit :=
  put_schedule_request ← request (PUT ScanAllSchedule payload);
  if bool_decide (status_code put_schedule_request = 200) then mret ()
  else fail_json (MsgParsed (requestParse put_schedule_request)) None.

(** Lines 92-104: compare, then preview or apply. *)
Definition compare (p : Params) (desired before : json) (result : Result)
  : M Empty_set :=
  if bool_decide (desired ≠ before)
  then
    if check_mode p
    then exit_json (setChanges before desired result)
    else
      putSchedule desired;;
      after ← getSchedule;
      exit_json (setChanges before after result)
  else exit_json result.

(** [HarborScanAllScheduleModule.__init__]. *)
Definition main (p : Params) : M Empty_set :=
  let result := initial_result in
  let desired := constructDesired (schedule_cron p) (param_type p) in
  before ← getSchedule;
  compare p desired before result.

(** The delta of §4.5 for a singleton resource. *)
Definition delta (p : Params) (before : json) : bool :=
  bool_decide (constructDesired (schedule_cron p) (param_type p) ≠ before).

End WithEnv.
End ScanAll.

(** ** harbor_tag_immutability.py *)

Module TagImmutability.

Record Params : Type := mkParams {
  project : string;
  tag_immutability_list : list json;
  check_mode : bool }.

Definition attributes : list string :=
  ["module"; "result"; "argspec"; "createDesiredTagImmutabilityList";
   "createDesiredTagImmutability"; "getTagImmutabilityList";
   "formatGetTagImmutabilityList"; "createTagImmutabilities";
   "deleteTagImmutabilities"] ++ base_attributes.

(** [tag_immutability_object[a][b]] *)
Definition field (tag_immutability_object : json) (a b : string)
  : Py.Exn + json :=
  x ← Py.getitem tag_immutability_object a; Py.getitem x b.

Definition createDesiredTagImmutability (tag_immutability_object : json)
    (project_id : json) : Py.Exn + json :=
  repo_kind ← field tag_immutability_object "repository" "kind";
  repo_pattern ← field tag_immutability_object "repository" "pattern";
  tag_kind ← field tag_immutability_object "tag" "kind";
  tag_pattern ← field tag_immutability_object "tag" "pattern";
  mret (dict
    [("disabled", JFalse);
     ("action", JStr "immutable");
     ("scope_selectors",
      dict [("repository",
             JList [dict [("kind", JStr "doublestar");
                          ("decoration", repo_kind);
                          ("pattern", repo_pattern)]])]);
     ("tag_selectors",
      JList [dict [("kind", JStr "doublestar");
                   ("decoration", tag_kind);
                   ("pattern", tag_pattern)]]);
     ("project_id", project_id);
     ("priority", JNum 0);
     ("template", JStr "immutable_template")]).

Definition createDesiredTagImmutabilityList (p : Params) (project_id : json)
  : Py.Exn + list json :=
  mapM (λ o, createDesiredTagImmutability o project_id)
       (tag_immutability_list p).

(** One turn of the loop of [formatGetTagImmutabilityList].  The source
    changes the item in place; here the changed item is written back to
    its position.  The identifier is stored into the list of identifiers
    by index, which raises [IndexError] beyond its end. *)
Definition formatStep (project_id : json) (st : json * list json)
    (key : nat) : Py.Exn + (json * list json) :=
  let '(tag_immutability_list, ids) := st in
  item ← Py.getitem_int tag_immutability_list key;
  popped ← Py.pop item "id";
  ids ← (if decide (key < length ids)%nat
         then inr (<[key := popped.1]> ids)
         else inl Py.IndexError);
  item ← Py.setitem popped.2 "project_id" project_id;
  item ← Py.setitem item "priority" (JNum 0);
  item ← Py.setitem item "disabled" JFalse;
  tag_immutability_list ← Py.setitem_int tag_immutability_list key item;
  mret (tag_immutability_list, ids).

Definition formatGetTagImmutabilityList (tag_immutability_list : json)
    (project_id : json) (tag_immutability_list_project_ids : list json)
  : Py.Exn + (json * list json) :=
  n ← Py.len tag_immutability_list;
  foldM (formatStep project_id) (seq 0 n)
        (tag_immutability_list, tag_immutability_list_project_ids).

(** [json()] of the rule list, then the id slots and the formatting
    (lines 204-207 and 231-234). *)
Definition canonical (body : json) (project_id : json)
  : Py.Exn + (json * list json) :=
  n ← Py.len body;
  formatGetTagImmutabilityList body project_id (replicate n JNull).

(** [[x for x in desired if x not in before]] *)
Definition to_add (desired : list json) (before : json)
  : Py.Exn + list json :=
  filterM (λ x, negb <$> Py.contains x before) desired.

(** [[x for x in range(len(before)) if before[x] not in desired]] *)
Definition to_delete_keys (desired : list json) (before : json)
  : Py.Exn + list nat :=
  n ← Py.len before;
  filterM (λ x, item ← Py.getitem_int before x;
                negb <$> Py.contains item (JList desired))
          (seq 0 n).

(** [[before_tag_immutability_ids[x] for x in keys]] *)
Definition to_delete_ids (ids : list json) (keys : list nat)
  : Py.Exn + list json :=
  mapM (λ x, match ids !! x with
             | Some i => inr i
             | None => inl Py.IndexError
             end) keys.

Section WithEnv.
Context `{Env}.

Definition getTagImmutabilityList (project_id : json) : M Response :=
  request_ ← request (GET (ImmutableTagRules project_id));
  if bool_decide (status_code request_ = 200) then mret request_
  else fail_json (MsgParsed (requestParse request_)) None.

Fixpoint createTagImmutabilities (tag_immutability_list : list json)
    (project_id : json) (result : Result) : M unit :=
  match tag_immutability_list with
  | [] => mret ()
  | tag_immutability :: rest =>
      set_request ←
        request (POST (ImmutableTagRules project_id) tag_immutability);
      check (errorHandlingHttpRequest set_request result);;
      createTagImmutabilities rest project_id result
  end.

Fixpoint deleteTagImmutabilities (tag_immutability_ids : list json)
    (project_id : json) (result : Result) : M unit :=
  match tag_immutability_ids with
  | [] => mret ()
  | tag_immutability_id :: rest =>
      set_request ←
        request (DELETE (ImmutableTagRule project_id tag_immutability_id));
      check (errorHandlingHttpRequest set_request result);;
      deleteTagImmutabilities rest project_id result
  end.

(** Lines 203-207 and 230-234: fetch the rules and format them. *)
Definition fetch (project_id : json) : M (json * list json) :=
  request_ ← getTagImmutabilityList project_id;
  body ← json_of request_;
  py (canonical body project_id).

(** Lines 220-239: create, delete, and look at the rules again. *)
Definition apply_change (desired : list json) (before : json)
    (before_ids : list json) (project_id : json) (result : Result)
  : M Empty_set :=
  tag_immutabilities_to_add ← py (to_add desired before);
  createTagImmutabilities tag_immutabilities_to_add project_id result;;
  keys ← py (to_delete_keys desired before);
  ids ← py (to_delete_ids before_ids keys);
  deleteTagImmutabilities ids project_id result;;
  after ← fetch project_id;
  if bool_decide (before ≠ after.1)
  then exit_json (setChanges before after.1 result)
  else exit_json (set_changed false result).

(** Lines 209-241: compare, then preview or apply. *)
Definition compare (p : Params) (desired : list json) (before : json)
    (before_ids : list json) (project_id : json) (result : Result)
  : M Empty_set :=
  if bool_decide (before = JList desired)
  then exit_json (set_changed false result)
  else if check_mode p
  then exit_json (setChanges before (JList desired) result)
  else apply_change desired before before_ids project_id result.

(** [HarborTagImmutabilityModule.__init__]. *)
Definition main (p : Params) : M Empty_set :=
  let result := initial_result in
  project_ ← getProjectByName (project p);
  if negb (Py.truthy project_)
  then (py (getattr attributes "self");;
        fail_json (MsgText "Project not found") (Some result))
  else
    project_id ← py (Py.getitem project_ "project_id");
    desired ← py (createDesiredTagImmutabilityList p project_id);
    before ← fetch project_id;
    compare p desired before.1 before.2 project_id result.

(** *** The run, cut at the comparison

    [fetch_all] is [__init__] up to line 207, [decide] is what follows. *)

Record Fetched : Type := mkFetched {
  project_id : json;
  desired : list json;
  before : json;
  before_ids : list json }.

Definition fetch_all (p : Params) : M Fetched :=
  project_ ← getProjectByName (project p);
  if negb (Py.truthy project_)
  then (py (getattr attributes "self");;
        fail_json (MsgText "Project not found") (Some initial_result))
  else
    project_id ← py (Py.getitem project_ "project_id");
    desired ← py (createDesiredTagImmutabilityList p project_id);
    before ← fetch project_id;
    mret {| project_id := project_id; desired := desired;
            before := before.1; before_ids := before.2 |}.

Definition decide (p : Params) (x : Fetched) : M Empty_set :=
  compare p (desired x) (before x) (before_ids x) (project_id x)
          initial_result.

(** The comparison that guards every write (line 209). *)
Definition delta (x : Fetched) : bool :=
  bool_decide (before x ≠ JList (desired x)).

End WithEnv.
End TagImmutability.

(** ** A reference registry

    Modelled from the spec: the registry is the external collaborator of
    §6, reached only through its HTTP API; its code is not part of the
    repository.  The spec assumes it synchronously consistent and has it
    echo what was written in the identical shape (§4.1, §4.2).  This is
    such a registry: it stores the payloads it is sent and returns them. *)

Module Harbor.

Record Project : Type := mkProject {
  name : string;
  id : Z;
  retention : option Z }.

Record Rule : Type := mkRule {
  rule_project : Z;
  rule_id : Z;
  rule_body : gmap string json }.

Record State : Type := mkState {
  projects : list Project;
  policies : gmap Z json;        (* retention id ↦ policy as written *)
  schedule : option json;        (* the schedule of scan-all, if any *)
  rules : list Rule;             (* the immutable tag rules, oldest first *)
  next_id : Z }.

Global Instance Project_eq_dec : EqDecision Project.
Proof. solve_decision. Defined.
Global Instance Rule_eq_dec : EqDecision Rule.
Proof. solve_decision. Defined.
Global Instance State_eq_dec : EqDecision State.
Proof. solve_decision. Defined.

Definition project_json (p : Project) : json :=
  dict [("name", JStr (name p));
        ("project_id", JNum (id p));
        ("metadata",
         match retention p with
         | Some r => dict [("public", JStr "false"); ("retention_id", JNum r)]
         | None => dict [("public", JStr "false")]
         end)].

(** A stored rule is returned with its server-assigned identifier. *)
Definition rule_json (r : Rule) : json :=
  JDict (<["id" := JNum (rule_id r)]> (rule_body r)).

(** The length of a non-empty body is not computed: the header holds some
    string other than ["0"]. *)
Definition ok (v : json) : Response :=
  {| status_code := 200; content_length := Some "n"; body := Some v;
     text := "" |}.

Definition no_content (code : Z) : Response :=
  {| status_code := code; content_length := Some "0"; body := None;
     text := "" |}.

Definition error (code : Z) (message : string) : Response :=
  {| status_code := code; content_length := Some "n";
     body := Some (dict [("errors",
                          JList [dict [("message", JStr message)]])]);
     text := message |}.

Definition set_retention (pid rid : Z) (p : Project) : Project :=
  if bool_decide (id p = pid)
  then {| name := name p; id := id p; retention := Some rid |}
  else p.

(** [payload["scope"]["ref"]] of a retention policy. *)
Definition scope_ref (payload : json) : option Z :=
  match Py.getitem payload "scope" with
  | inr scope =>
      match Py.getitem scope "ref" with
      | inr (JNum pid) => Some pid
      | _ => None
      end
  | inl _ => None
  end.

Definition harbor_handle (q : Request) (s : State) : Response * State :=
  match q with
  | GET (ProjectsByName n) =>
      (ok (JList (project_json <$>
                  filter (λ p, name p = n) (projects s))), s)
  | POST Retentions payload =>
      match scope_ref payload with
      | Some pid =>
          if bool_decide (pid ∈ id <$> projects s)
          then (no_content 201,
                {| projects := set_retention pid (next_id s) <$> projects s;
                   policies := <[next_id s := payload]> (policies s);
                   schedule := schedule s;
                   rules := rules s;
                   next_id := next_id s + 1 |})
          else (error 404 "project not found", s)
      | None => (error 400 "bad request", s)
      end
  | GET (Retention (JNum rid)) =>
      match policies s !! rid with
      | Some policy => (ok policy, s)
      | None => (error 404 "retention not found", s)
      end
  | PUT (Retention (JNum rid)) payload =>
      match policies s !! rid with
      | Some _ =>
          (no_content 200,
           {| projects := projects s;
              policies := <[rid := payload]> (policies s);
              schedule := schedule s;
              rules := rules s;
              next_id := next_id s |})
      | None => (error 404 "retention not found", s)
      end
  | GET ScanAllSchedule =>
      match schedule s with
      | Some sch => (ok (dict [("schedule", sch)]), s)
      | None => (no_content 200, s)
      end
  | PUT ScanAllSchedule payload =>
      match Py.getitem payload "schedule" with
      | inr sch =>
          (no_content 200,
           {| projects := projects s;
              policies := policies s;
              schedule := Some sch;
              rules := rules s;
              next_id := next_id s |})
      | inl _ => (error 400 "bad request", s)
      end
  | GET (ImmutableTagRules (JNum pid)) =>
      (ok (JList (rule_json <$>
                  filter (λ r, rule_project r = pid) (rules s))), s)
  | POST (ImmutableTagRules (JNum pid)) (JDict d) =>
      (no_content 201,
       {| projects := projects s;
          policies := policies s;
          schedule := schedule s;
          rules := rules s ++ [mkRule pid (next_id s) d];
          next_id := next_id s + 1 |})
  | DELETE (ImmutableTagRule (JNum pid) (JNum rid)) =>
      (no_content 200,
       {| projects := projects s;
          policies := policies s;
          schedule := schedule s;
          rules := filter (λ r, ¬ (rule_project r = pid ∧ rule_id r = rid))
                          (rules s);
          next_id := next_id s |})
  | _ => (error 404 "not found", s)
  end.

(** Modelled from the spec: [getProjectByName] resolves the name to the
    project, or to [None] when the registry lists no such project. *)
Definition harbor_selectProject (n : string) (resp : Response)
  : Stop + json :=
  match body resp with
  | Some (JList (x :: _)) => inr x
  | _ => inr JNull
  end.

(** Modelled from the spec: [errorHandlingHttpRequest] follows the taxonomy
    of §7, as [errorHandlingPostOrPutRequest] of the retention module. *)
Definition harbor_errorHandling (resp : Response) (result : Result)
  : option Stop :=
  let code := status_code resp in
  if bool_decide (code = 200 ∨ code = 201) then None
  else if bool_decide (code = 401)
  then Some (Fail (MsgText "User need to log in first.") (Some result))
  else if bool_decide (code = 403)
  then Some (Fail (MsgText "User does not have permission of admin role.")
                  (Some result))
  else if bool_decide (code = 500)
  then Some (Fail (MsgText "Unexpected internal errors.") (Some result))
  else Some (Fail (MsgUnknownStatus code (text resp)) None).

Definition env : Env :=
  {| Registry := State;
     handle := harbor_handle;
     requestParse := text;
     selectProject := harbor_selectProject;
     errorHandlingHttpRequest := harbor_errorHandling |}.

End Harbor.

(** ** Two more registries, and the data of the examples *)

(** A registry that accepts every write and stores nothing: it answers as
    the reference registry does and stays in the state it is in. *)
Module Frozen.

Definition frozen_handle (q : Request) (s : Harbor.State)
  : Response * Harbor.State :=
  ((Harbor.harbor_handle q s).1, s).

Definition env : Env :=
  {| Registry := Harbor.State;
     handle := frozen_handle;
     requestParse := text;
     selectProject := Harbor.harbor_selectProject;
     errorHandlingHttpRequest := Harbor.harbor_errorHandling |}.

End Frozen.

(** A registry that turns every request down with status 401 and an error
    body, as Harbor does for wrong credentials. *)
Module Locked.

Definition locked_handle (q : Request) (s : unit) : Response * unit :=
  (Harbor.error 401 "unauthorized", s).

Definition env : Env :=
  {| Registry := unit;
     handle := locked_handle;
     requestParse := text;
     selectProject := Harbor.harbor_selectProject;
     errorHandlingHttpRequest := Harbor.harbor_errorHandling |}.

End Locked.

Module Example.

(** A registry with the project [library] and nothing configured. *)
Definition fresh : Harbor.State :=
  {| Harbor.projects := [Harbor.mkProject "library" 1 None];
     Harbor.policies := ∅;
     Harbor.schedule := None;
     Harbor.rules := [];
     Harbor.next_id := 10 |}.

(** The retention rule of the module's documentation. *)
Definition keep_ten : json :=
  dict [("action", JStr "retain");
        ("params", dict [("latestPushedK", JNum 10)]);
        ("template", JStr "latestPushedK")].

Definition retention (force check_mode : bool) : Retention.Params :=
  {| Retention.project := "library";
     Retention.rules := [keep_ten];
     Retention.schedule_cron := "0 0 0 * * 0";
     Retention.force := force;
     Retention.check_mode := check_mode |}.

(** The policy these parameters ask for, for the project with id 1. *)
Definition policy : json :=
  Retention.createDesiredRetentionPolicy (retention false false) (JNum 1).

(** [library] has the retention policy 10, equal to the desired one. *)
Definition with_policy : Harbor.State :=
  {| Harbor.projects := [Harbor.mkProject "library" 1 (Some 10)];
     Harbor.policies := {[ 10 := policy ]};
     Harbor.schedule := None;
     Harbor.rules := [];
     Harbor.next_id := 11 |}.

(** The same policy, stored with its identifier as a member. *)
Definition policy_with_id : json :=
  match policy with
  | JDict d => JDict (<["id" := JNum 10]> d)
  | v => v
  end.

Definition with_policy_id : Harbor.State :=
  {| Harbor.projects := [Harbor.mkProject "library" 1 (Some 10)];
     Harbor.policies := {[ 10 := policy_with_id ]};
     Harbor.schedule := None;
     Harbor.rules := [];
     Harbor.next_id := 11 |}.

Definition weekly (check_mode : bool) : ScanAll.Params :=
  {| ScanAll.schedule_cron := "0 0 0 * * 0";
     ScanAll.type_arg := None;
     ScanAll.check_mode := check_mode |}.

(** A rule of the task: repositories matching [repo], tags matching
    [tag]. *)
Definition rule (repo tag : string) : json :=
  dict [("repository", dict [("kind", JStr "repoMatches");
                             ("pattern", JStr repo)]);
        ("tag", dict [("kind", JStr "matches"); ("pattern", JStr tag)])].

Definition tags (l : list json) (check_mode : bool)
  : TagImmutability.Params :=
  {| TagImmutability.project := "library";
     TagImmutability.tag_immutability_list := l;
     TagImmutability.check_mode := check_mode |}.

(** The body the registry stores for the rule [rule "**" tag] of
    project 1. *)
Definition stored_rule (tag : string) : gmap string json :=
  match TagImmutability.createDesiredTagImmutability (rule "**" tag)
                                                     (JNum 1) with
  | inr (JDict d) => d
  | _ => ∅
  end.

(** [library] has the one rule for the tag [old]. *)
Definition with_old_rule : Harbor.State :=
  {| Harbor.projects := [Harbor.mkProject "library" 1 None];
     Harbor.policies := ∅;
     Harbor.schedule := None;
     Harbor.rules := [Harbor.mkRule 1 7 (stored_rule "old")];
     Harbor.next_id := 10 |}.

End Example.

(** ** The states of the reference registry, as the statements on two runs
    name them *)

(** The schedule the parameters ask for, as the registry stores it. *)
Definition wanted (p : ScanAll.Params) : json :=
  dict [("cron", JStr (ScanAll.schedule_cron p));
        ("type", JStr (ScanAll.param_type p))].

(** The registry after the PUT of a schedule. *)
Definition set_schedule (sch : json) (s : Harbor.State) : Harbor.State :=
  {| Harbor.projects := Harbor.projects s;
     Harbor.policies := Harbor.policies s;
     Harbor.schedule := Some sch;
     Harbor.rules := Harbor.rules s;
     Harbor.next_id := Harbor.next_id s |}.

(** What the reference registry answers to the read of the schedule. *)
Definition current_schedule (s : Harbor.State) : json :=
  match Harbor.schedule s with
  | Some sch => dict [("schedule", sch)]
  | None => dict []
  end.

(** The project a name resolves to: the first one the registry lists. *)
Definition find_project (n : string) (s : Harbor.State)
  : option Harbor.Project :=
  head (filter (λ p, Harbor.name p = n) (Harbor.projects s)).

(** The policy of a project, when it has one. *)
Definition current_policy (s : Harbor.State) (proj : Harbor.Project)
  : option json :=
  r ← Harbor.retention proj; Harbor.policies s !! r.

(** The registry after the PUT of a policy. *)
Definition put_policy (r : Z) (policy : json) (s : Harbor.State)
  : Harbor.State :=
  {| Harbor.projects := Harbor.projects s;
     Harbor.policies := <[r := policy]> (Harbor.policies s);
     Harbor.schedule := Harbor.schedule s;
     Harbor.rules := Harbor.rules s;
     Harbor.next_id := Harbor.next_id s |}.

(** The registry after the POST of a policy for the project [pid]. *)
Definition create_policy (pid : Z) (policy : json) (s : Harbor.State)
  : Harbor.State :=
  {| Harbor.projects :=
       Harbor.set_retention pid (Harbor.next_id s) <$> Harbor.projects s;
     Harbor.policies := <[Harbor.next_id s := policy]> (Harbor.policies s);
     Harbor.schedule := Harbor.schedule s;
     Harbor.rules := Harbor.rules s;
     Harbor.next_id := Harbor.next_id s + 1 |}.

(** The rules of a project, oldest first. *)
Definition rules_of (pid : Z) (s : Harbor.State) : list Harbor.Rule :=
  filter (λ r, Harbor.rule_project r = pid) (Harbor.rules s).

(** A rule body as [formatGetTagImmutabilityList] leaves it. *)
Definition canon (pid : Z) (d : gmap string json) : json :=
  JDict (<["disabled" := JFalse]>
           (<["priority" := JNum 0]>
              (<["project_id" := JNum pid]> (delete "id" d)))).

(** The canonical rule list of a project and the identifiers beside it. *)
Definition current_rules (pid : Z) (s : Harbor.State) : list json :=
  (λ r, canon pid (Harbor.rule_body r)) <$> rules_of pid s.

(** The identifiers set aside, in the order of the rules. *)
Definition current_ids (pid : Z) (s : Harbor.State) : list json :=
  (λ r, JNum (Harbor.rule_id r)) <$> rules_of pid s.

(** The registry after the POST of a rule. *)
Definition post_rule (pid : Z) (s : Harbor.State) (d : gmap string json)
  : Harbor.State :=
  {| Harbor.projects := Harbor.projects s;
     Harbor.policies := Harbor.policies s;
     Harbor.schedule := Harbor.schedule s;
     Harbor.rules := Harbor.rules s ++ [Harbor.mkRule pid (Harbor.next_id s) d];
     Harbor.next_id := Harbor.next_id s + 1 |}.

(** The registry after the DELETE of a rule. *)
Definition delete_rule (pid : Z) (s : Harbor.State) (rid : Z)
  : Harbor.State :=
  {| Harbor.projects := Harbor.projects s;
     Harbor.policies := Harbor.policies s;
     Harbor.schedule := Harbor.schedule s;
     Harbor.rules :=
       filter (λ r, ¬ (Harbor.rule_project r = pid ∧ Harbor.rule_id r = rid))
              (Harbor.rules s);
     Harbor.next_id := Harbor.next_id s |}.

(** The identifiers of the stored rules are distinct and below the next
    one the registry will assign. *)
Definition wf_rules (s : Harbor.State) : Prop :=
  NoDup (Harbor.rule_id <$> Harbor.rules s) ∧
  Forall (λ r, Harbor.rule_id r < Harbor.next_id s) (Harbor.rules s).

(** ** What a computation adds to the trace *)

Section Traces.
Context `{Env}.

(** The world a run starts in. *)
Definition start (s : Registry) : World := {| registry := s; trace := [] |}.

(** [w'] is [w] after some more requests, each of them satisfying [P]. *)
Definition extends (P : Request → Prop) (w w' : World) : Prop :=
  ∃ t, trace w' = trace w ++ t ∧ Forall P t.

(** Whatever world [m] starts in, it issues only requests satisfying [P]. *)
Definition issues (P : Request → Prop) {A} (m : M A) : Prop :=
  ∀ w, extends P w (m w).2.

(** The read-only requests. *)
Definition reads (q : Request) : Prop := mutating q = false.

(** The world after one more request. *)
Definition after_request (w : World) (q : Request) (s' : Registry) : World :=
  {| registry := s'; trace := trace w ++ [q] |}.

End Traces.

(** ** Vocabulary of the statements on canonical forms and on the differ *)

(** [enumerate(A)] from position [k] on. *)
Definition enumerate_from (k : nat) (A : list json) : list (nat * json) :=
  zip (seq k (length A)) A.

(** A computation came back with a value on which [P] holds. *)
Definition returned `{Env} {A} (P : A → bool) (o : (Stop + A) * World)
  : bool :=
  match o.1 with inr x => P x | inl _ => false end.

(** The change flag a run ends with, when it ends in [exit_json]. *)
Definition changed_of (st : Stop) : option bool :=
  match st with Exit r => Some (changed r) | _ => None end.

(** The value has a top-level member [id]. *)
Definition has_id (v : json) : bool :=
  match v with
  | JDict d => bool_decide (is_Some (d !! "id"))
  | _ => false
  end.

(** What one turn of [formatGetTagImmutabilityList] makes of an item: the
    formatted item and the identifier set aside. *)
Definition canonical_item (project_id : json) (item : json)
  : Py.Exn + (json * json) :=
  popped ← Py.pop item "id";
  item ← Py.setitem popped.2 "project_id" project_id;
  item ← Py.setitem item "priority" (JNum 0);
  item ← Py.setitem item "disabled" JFalse;
  mret (item, popped.1).

(** ** Registries for the error paths *)

(** A registry whose account may read and not write: it answers the reads
    as the reference registry does and turns every write down with
    status 403. *)
Module ReadOnly.

Definition readonly_handle (q : Request) (s : Harbor.State)
  : Response * Harbor.State :=
  if mutating q then (Harbor.error 403 "forbidden", s)
  else Harbor.harbor_handle q s.

Definition env : Env :=
  {| Registry := Harbor.State;
     handle := readonly_handle;
     requestParse := text;
     selectProject := Harbor.harbor_selectProject;
     errorHandlingHttpRequest := Harbor.harbor_errorHandling |}.

End ReadOnly.

(** A registry behind a proxy that sends its answers chunked: status 200,
    the schedule in the body, and no [content-length] header. *)
Module Chunked.

Definition chunked_handle (q : Request) (s : unit) : Response * unit :=
  ({| status_code := 200; content_length := None;
      body := Some (dict [("schedule",
                           dict [("cron", JStr "0 0 0 * * 0");
                                 ("type", JStr "Custom")])]);
      text := "" |}, s).

Definition env : Env :=
  {| Registry := unit;
     handle := chunked_handle;
     requestParse := text;
     selectProject := Harbor.harbor_selectProject;
     errorHandlingHttpRequest := Harbor.harbor_errorHandling |}.

End Chunked.

(** ** Vocabulary of the statements on the write of a run *)

(** The one write a retention run sends when it applies: the PUT of the
    desired policy under the identifier the project names, or the POST of
    it when the project names none. *)
Definition retention_write (x : Retention.Fetched) : Request :=
  match Retention.current x with
  | Some (project_retention_id, _) =>
      PUT (Retention project_retention_id) (Retention.desired x)
  | None => POST Retentions (Retention.desired x)
  end.

(** A registry that refuses a rule it already has: the POST of a rule
    whose body is stored for the project is answered with status 409, and
    everything else as the reference registry answers it. *)
Module Strict.

Definition strict_handle (q : Request) (s : Harbor.State)
  : Response * Harbor.State :=
  match q with
  | POST (ImmutableTagRules (JNum pid)) (JDict d) =>
      if bool_decide (d ∈ Harbor.rule_body <$> rules_of pid s)
      then (Harbor.error 409 "conflict", s)
      else Harbor.harbor_handle q s
  | _ => Harbor.harbor_handle q s
  end.

Definition env : Env :=
  {| Registry := Harbor.State;
     handle := strict_handle;
     requestParse := text;
     selectProject := Harbor.harbor_selectProject;
     errorHandlingHttpRequest := Harbor.harbor_errorHandling |}.

End Strict.

(** ** Vocabulary of the statements on stored rules *)

(** The members [formatGetTagImmutabilityList] takes out of a fetched rule
    or overwrites in it. *)
Definition server_fields : list string :=
  ["id"; "project_id"; "priority"; "disabled"].

(** The four members of a declared rule that
    [createDesiredTagImmutability] reads. *)
Definition declared_fields : list (string * string) :=
  [("repository", "kind"); ("repository", "pattern");
   ("tag", "kind"); ("tag", "pattern")].

(** [library] has the rules for the tags [old] and [new], stored in this
    order. *)
Definition with_two_rules : Harbor.State :=
  {| Harbor.projects := [Harbor.mkProject "library" 1 None];
     Harbor.policies := ∅;
     Harbor.schedule := None;
     Harbor.rules := [Harbor.mkRule 1 7 (Example.stored_rule "old");
                      Harbor.mkRule 1 8 (Example.stored_rule "new")];
     Harbor.next_id := 10 |}.

(** ** Vocabulary of the statements on whole runs *)

Global Instance Retention_Fetched_eq_dec : EqDecision Retention.Fetched.
Proof. solve_decision. Defined.
Global Instance TagImmutability_Fetched_eq_dec :
  EqDecision TagImmutability.Fetched.
Proof. solve_decision. Defined.

(** The run ended in [exit_json]. *)
Definition exited `{Env} (out : Stop * World) : bool :=
  match out.1 with Exit _ => true | _ => false end.

(** The reference registry after a sequence of requests, whatever sent
    them. *)
Definition requests_on (s : Harbor.State) (qs : list Request)
  : Harbor.State :=
  foldl (λ s q, (Harbor.harbor_handle q s).2) s qs.

(** The reference registry before any rule was stored. *)
Definition without_rules (s : Harbor.State) : Harbor.State :=
  {| Harbor.projects := Harbor.projects s;
     Harbor.policies := Harbor.policies s;
     Harbor.schedule := Harbor.schedule s;
     Harbor.rules := [];
     Harbor.next_id := Harbor.next_id s |}.

(** * Properties *)

(** ** The monad and the trace *)

Section TraceFacts.
Context `{Env}.
Implicit Types (P : Request → Prop) (w : World).

Lemma bind_unfold {A B} (m : M A) (k : A → M B) w :
  (m ≫= k) w = match m w with
               | (inl s, w') => (inl s, w')
               | (inr a, w') => k a w'
               end.
Proof. reflexivity. Qed.

Lemma extends_refl P w : extends P w w.
Proof. exists []. by rewrite app_nil_r. Qed.

Lemma extends_trans P w1 w2 w3 :
  extends P w1 w2 → extends P w2 w3 → extends P w1 w3.
Proof.
  intros (t1 & E1 & F1) (t2 & E2 & F2). exists (t1 ++ t2). split.
  - by rewrite E2, E1, app_assoc.
  - by apply Forall_app.
Qed.

Lemma issues_ret P {A} (a : A) : issues P (mret a).
Proof. intros w. apply extends_refl. Qed.

Lemma issues_stop P {A} (s : Stop) : issues P (stop (A:=A) s).
Proof. intros w. apply extends_refl. Qed.

Lemma issues_bind P {A B} (m : M A) (k : A → M B) :
  issues P m → (∀ a, issues P (k a)) → issues P (m ≫= k).
Proof.
  intros Hm Hk w. rewrite bind_unfold. specialize (Hm w).
  destruct (m w) as [[s|a] w']; simpl in *; [done|].
  eapply extends_trans; [exact Hm | apply Hk].
Qed.

Lemma issues_request P q : P q → issues P (request q).
Proof.
  intros Hq w. unfold request. destruct (handle q (registry w)) as [resp s'].
  exists [q]. simpl. split; [done | by constructor].
Qed.

Lemma issues_py P {A} (x : Py.Exn + A) : issues P (py x).
Proof. destruct x; intros w; apply extends_refl. Qed.

Lemma issues_json_of P resp : issues P (json_of resp).
Proof. unfold json_of. destruct (body resp); intros w; apply extends_refl. Qed.

Lemma issues_check P o : issues P (check o).
Proof. destruct o; intros w; apply extends_refl. Qed.

Lemma issues_getProjectByName P name :
  P (GET (ProjectsByName name)) → issues P (getProjectByName name).
Proof.
  intros HP. apply issues_bind; [by apply issues_request|].
  intros resp. destruct (selectProject name resp);
    [apply issues_stop | apply issues_ret].
Qed.

Lemma reads_GET e : reads (GET e).
Proof. reflexivity. Qed.

(** The trace of a whole run. *)
Lemma issues_run P (m : M Empty_set) s :
  issues P m → Forall P (trace (run m s).2).
Proof.
  intros Hm. destruct (Hm (start s)) as (t & E & F). unfold run.
  fold (start s). destruct (m (start s)) as [[st|[]] w]. simpl in *.
  by rewrite E.
Qed.

End TraceFacts.

Create HintDb issues.
Global Hint Resolve issues_ret issues_stop issues_py issues_json_of
  issues_check issues_getProjectByName reads_GET : issues.

(** Breaks a computation down along its binds and branches. *)
Ltac issues_step :=
  lazymatch goal with
  | |- issues _ (mbind _ _) => apply issues_bind; [|intros ?]
  | |- issues _ (if ?b then _ else _) => destruct b eqn:?
  | |- issues _ (match ?x with _ => _ end) => destruct x eqn:?
  | |- issues _ (request _) => apply issues_request; try apply reads_GET
  | |- issues _ (exit_json _) => apply issues_stop
  | |- issues _ (fail_json _ _) => apply issues_stop
  | |- issues _ (raise _) => apply issues_stop
  | |- issues _ _ => solve [eauto with issues]
  end.
Ltac issues_auto := repeat issues_step.

(** ** The three runs, cut at the comparison *)

Section Stages.
Context `{Env}.

Lemma issues_ext P {A} (m m' : M A) :
  (∀ w, m w = m' w) → issues P m' → issues P m.
Proof. intros E Hm w. rewrite E. apply Hm. Qed.

(** A computation that stops where [m] stops and goes on with [k]. *)
Lemma bind_assoc_at {A B C} (m : M A) (k : A → M B) (k' : B → M C) w :
  ((m ≫= k) ≫= k') w = (m ≫= λ a, k a ≫= k') w.
Proof. rewrite !bind_unfold. by destruct (m w) as [[?|?] ?]. Qed.

Lemma bind_ext_at {A B} (m : M A) (k k' : A → M B) w :
  (∀ a w', k a w' = k' a w') → (m ≫= k) w = (m ≫= k') w.
Proof. intros E. rewrite !bind_unfold. by destruct (m w) as [[?|?] ?]. Qed.

Lemma retention_main_fetch_decide p w :
  Retention.main p w = (Retention.fetch p ≫= Retention.decide p) w.
Proof.
  unfold Retention.main, Retention.fetch. rewrite bind_assoc_at.
  apply bind_ext_at; intros project_ w1.
  destruct (negb (Py.truthy project_)).
  { rewrite bind_assoc_at. apply bind_ext_at; intros ? w2.
    by rewrite bind_unfold. }
  rewrite bind_assoc_at. apply bind_ext_at; intros project_id w2.
  rewrite bind_assoc_at. apply bind_ext_at; intros metadata w3.
  rewrite bind_assoc_at. apply bind_ext_at; intros [] w4.
  - rewrite bind_assoc_at. apply bind_ext_at; intros rid w5.
    unfold Retention.compare. rewrite bind_assoc_at.
    apply bind_ext_at; intros before_request w6.
    rewrite bind_assoc_at. apply bind_ext_at; intros before w7.
    by rewrite bind_unfold.
  - by rewrite bind_unfold.
Qed.

Lemma scanall_main_fetch_compare p w :
  ScanAll.main p w =
  (ScanAll.getSchedule ≫= λ before,
     ScanAll.compare p
       (ScanAll.constructDesired (ScanAll.schedule_cron p)
                                 (ScanAll.param_type p))
       before initial_result) w.
Proof. reflexivity. Qed.

Lemma tag_main_fetch_decide p w :
  TagImmutability.main p w =
  (TagImmutability.fetch_all p ≫= TagImmutability.decide p) w.
Proof.
  unfold TagImmutability.main, TagImmutability.fetch_all.
  rewrite bind_assoc_at. apply bind_ext_at; intros project_ w1.
  destruct (negb (Py.truthy project_)).
  { rewrite bind_assoc_at. apply bind_ext_at; intros ? w2.
    by rewrite bind_unfold. }
  rewrite bind_assoc_at. apply bind_ext_at; intros project_id w2.
  rewrite bind_assoc_at. apply bind_ext_at; intros desired w3.
  rewrite bind_assoc_at. apply bind_ext_at; intros before w4.
  by rewrite bind_unfold.
Qed.

(** *** What each stage may issue *)

Lemma issues_getRetentionPolicy rid :
  issues reads (Retention.getRetentionPolicy rid).
Proof. unfold Retention.getRetentionPolicy. issues_auto. Qed.

Lemma issues_errorHandlingPostOrPutRequest P resp result :
  issues P (Retention.errorHandlingPostOrPutRequest resp result).
Proof. unfold Retention.errorHandlingPostOrPutRequest. issues_auto. Qed.

Lemma issues_retention_fetch p : issues reads (Retention.fetch p).
Proof.
  pose proof issues_getRetentionPolicy.
  unfold Retention.fetch. issues_auto.
Qed.

Lemma issues_retention_decide_check p x :
  Retention.check_mode p = true → issues reads (Retention.decide p x).
Proof.
  intros Hc. unfold Retention.decide, Retention.create. rewrite Hc.
  issues_auto.
Qed.

Lemma issues_retention_decide_same p x :
  Retention.delta p x = false → issues reads (Retention.decide p x).
Proof.
  unfold Retention.delta, Retention.decide.
  destruct (Retention.current x) as [[rid before]|]; [|done].
  intros [-> Hb]%orb_false_iff. simpl.
  apply bool_decide_eq_false in Hb. apply dec_stable in Hb.
  rewrite bool_decide_eq_true_2 by done. apply issues_stop.
Qed.

Lemma issues_getSchedule : issues reads ScanAll.getSchedule.
Proof. unfold ScanAll.getSchedule. issues_auto. Qed.

Lemma issues_scanall_compare_check p desired before result :
  ScanAll.check_mode p = true →
  issues reads (ScanAll.compare p desired before result).
Proof. intros Hc. unfold ScanAll.compare. rewrite Hc. issues_auto. Qed.

Lemma issues_scanall_compare_same p desired result :
  issues reads (ScanAll.compare p desired desired result).
Proof.
  unfold ScanAll.compare. rewrite bool_decide_eq_false_2 by tauto.
  apply issues_stop.
Qed.

Lemma issues_getTagImmutabilityList pid :
  issues reads (TagImmutability.getTagImmutabilityList pid).
Proof. unfold TagImmutability.getTagImmutabilityList. issues_auto. Qed.

Lemma issues_tag_fetch pid : issues reads (TagImmutability.fetch pid).
Proof.
  pose proof issues_getTagImmutabilityList.
  unfold TagImmutability.fetch. issues_auto.
Qed.

Lemma issues_tag_fetch_all p : issues reads (TagImmutability.fetch_all p).
Proof.
  pose proof issues_tag_fetch.
  unfold TagImmutability.fetch_all. issues_auto.
Qed.

Lemma issues_tag_decide_check p x :
  TagImmutability.check_mode p = true →
  issues reads (TagImmutability.decide p x).
Proof.
  intros Hc. unfold TagImmutability.decide, TagImmutability.compare.
  rewrite Hc. issues_auto.
Qed.

Lemma issues_tag_decide_same p x :
  TagImmutability.delta x = false →
  issues reads (TagImmutability.decide p x).
Proof.
  unfold TagImmutability.delta, TagImmutability.decide,
    TagImmutability.compare.
  intros Hb. apply bool_decide_eq_false in Hb. apply dec_stable in Hb.
  rewrite bool_decide_eq_true_2 by done. apply issues_stop.
Qed.

End Stages.

(** ** Check mode *)

Section CheckMode.
Context `{Env}.

Lemma run_stop (m : M Empty_set) s st w :
  m (start s) = (inl st, w) → run m s = (st, w).
Proof. unfold run. fold (start s). by intros ->. Qed.

Lemma retention_preview p x w :
  Retention.check_mode p = true → Retention.delta p x = true →
  Retention.decide p x w =
  (inl (Exit match Retention.current x with
             | Some (_, before) =>
                 setChanges before (Retention.desired x) initial_result
             | None =>
                 set_changed true
                   (set_retention_policy (Retention.desired x)
                                         initial_result)
             end), w).
Proof.
  unfold Retention.delta, Retention.decide, Retention.create.
  intros Hc Hd. rewrite Hc.
  destruct (Retention.current x) as [[rid before]|]; [|done].
  destruct (Retention.force p); simpl; [done|].
  simpl in Hd. apply bool_decide_eq_true in Hd.
  by rewrite bool_decide_eq_false_2.
Qed.

Lemma tag_preview p x w :
  TagImmutability.check_mode p = true → TagImmutability.delta x = true →
  TagImmutability.decide p x w =
  (inl (Exit (setChanges (TagImmutability.before x)
                         (JList (TagImmutability.desired x))
                         initial_result)), w).
Proof.
  unfold TagImmutability.delta, TagImmutability.decide,
    TagImmutability.compare.
  intros Hc Hd. rewrite Hc. apply bool_decide_eq_true in Hd.
  by rewrite bool_decide_eq_false_2.
Qed.

Lemma scanall_preview p before w :
  ScanAll.check_mode p = true → ScanAll.delta p before = true →
  ScanAll.compare p
    (ScanAll.constructDesired (ScanAll.schedule_cron p)
                              (ScanAll.param_type p))
    before initial_result w =
  (inl (Exit (setChanges before
                (ScanAll.constructDesired (ScanAll.schedule_cron p)
                                          (ScanAll.param_type p))
                initial_result)), w).
Proof.
  unfold ScanAll.delta, ScanAll.compare. intros Hc Hd.
  by rewrite Hc, Hd.
Qed.

(** C3, as the code has it.  With the check-mode flag set, none of the
    three reconcilers issues a POST, PUT or DELETE, whatever the input and
    the registry; and when the comparison finds a delta, the run ends right
    after the read, with [changed = true] and the pair of the state read
    and the desired state recorded as [diff].  The one exception is the
    retention run for a project that has no policy yet: it records the
    desired policy as [retention_policy] and no [diff]. *)
Theorem check_mode_issues_no_write
    (pr : Retention.Params) (ps : ScanAll.Params)
    (pt : TagImmutability.Params) (s : Registry) :
  Retention.check_mode pr = true →
  ScanAll.check_mode ps = true →
  TagImmutability.check_mode pt = true →
  (Forall reads (trace (run (Retention.main pr) s).2) ∧
   ∀ x w, Retention.fetch pr (start s) = (inr x, w) →
          Retention.delta pr x = true →
          ∃ r, run (Retention.main pr) s = (Exit r, w) ∧ changed r = true ∧
               match Retention.current x with
               | Some (_, before) =>
                   diff r = Some (before, Retention.desired x)
               | None =>
                   retention_policy r = Some (Retention.desired x) ∧
                   diff r = None
               end) ∧
  (Forall reads (trace (run (ScanAll.main ps) s).2) ∧
   ∀ before w, ScanAll.getSchedule (start s) = (inr before, w) →
               ScanAll.delta ps before = true →
               ∃ r, run (ScanAll.main ps) s = (Exit r, w) ∧
                    changed r = true ∧
                    diff r = Some (before,
                               ScanAll.constructDesired
                                 (ScanAll.schedule_cron ps)
                                 (ScanAll.param_type ps))) ∧
  (Forall reads (trace (run (TagImmutability.main pt) s).2) ∧
   ∀ x w, TagImmutability.fetch_all pt (start s) = (inr x, w) →
          TagImmutability.delta x = true →
          ∃ r, run (TagImmutability.main pt) s = (Exit r, w) ∧
               changed r = true ∧
               diff r = Some (TagImmutability.before x,
                              JList (TagImmutability.desired x))).
Proof.
  intros Hr Hs Ht. repeat split.
  - apply issues_run.
    eapply issues_ext; [apply retention_main_fetch_decide|].
    apply issues_bind; [apply issues_retention_fetch|].
    intros x. by apply issues_retention_decide_check.
  - intros x w Hf Hd. eexists. split.
    + apply run_stop. rewrite retention_main_fetch_decide, bind_unfold, Hf.
      by apply retention_preview.
    + by destruct (Retention.current x) as [[rid before]|].
  - apply issues_run.
    eapply issues_ext; [apply scanall_main_fetch_compare|].
    apply issues_bind; [apply issues_getSchedule|].
    intros before. by apply issues_scanall_compare_check.
  - intros before w Hf Hd. eexists. split.
    + apply run_stop. rewrite scanall_main_fetch_compare, bind_unfold, Hf.
      by apply scanall_preview.
    + done.
  - apply issues_run.
    eapply issues_ext; [apply tag_main_fetch_decide|].
    apply issues_bind; [apply issues_tag_fetch_all|].
    intros x. by apply issues_tag_decide_check.
  - intros x w Hf Hd. eexists. split.
    + apply run_stop. rewrite tag_main_fetch_decide, bind_unfold, Hf.
      by apply tag_preview.
    + done.
Qed.

End CheckMode.

(** ** Writes need a delta *)

Section Writes.
Context `{Env}.

Lemma reads_not_mutating (t : list Request) :
  Forall reads t → Exists (λ q, mutating q = true) t → False.
Proof.
  intros F E. apply Exists_exists in E as (q & Hq & Hm).
  rewrite Forall_forall in F. specialize (F q Hq). unfold reads in F.
  congruence.
Qed.

(** A run that reads, compares and only then acts: a write in its trace
    means that the read succeeded and the comparison found a delta. *)
Lemma write_needs_delta {A} (main : M Empty_set) (fetch : M A)
    (decide : A → M Empty_set) (delta : A → bool) s :
  (∀ w, main w = (fetch ≫= decide) w) →
  issues reads fetch →
  (∀ x, delta x = false → issues reads (decide x)) →
  Exists (λ q, mutating q = true) (trace (run main s).2) →
  ∃ x w, fetch (start s) = (inr x, w) ∧ delta x = true.
Proof.
  intros Hmain Hfetch Hdecide Hex.
  unfold run in Hex. fold (start s) in Hex.
  rewrite Hmain, bind_unfold in Hex.
  pose proof (Hfetch (start s)) as Hs.
  destruct (fetch (start s)) as [[st|x] w] eqn:Hf; simpl in *.
  - exfalso. destruct Hs as (t & E & F). rewrite E in Hex.
    by eapply reads_not_mutating.
  - destruct (delta x) eqn:Hd; [by eauto|]. exfalso.
    pose proof (Hdecide x Hd w) as Hw.
    destruct (decide x w) as [[st|[]] w'].
    destruct (extends_trans _ _ _ _ Hs Hw) as (t & E & F).
    simpl in *. rewrite E in Hex. by eapply reads_not_mutating.
Qed.

End Writes.

(** ** One request at a time *)

Section Requests.
Context `{Env}.

Lemma request_at q w resp s' :
  handle q (registry w) = (resp, s') →
  request q w = (inr resp, after_request w q s').
Proof. unfold request. by intros ->. Qed.

Lemma getRetentionPolicy_ok rid w resp s' :
  handle (GET (Retention rid)) (registry w) = (resp, s') →
  status_code resp = 200 →
  Retention.getRetentionPolicy rid w =
  (inr resp, after_request w (GET (Retention rid)) s').
Proof.
  intros Hh Hs. unfold Retention.getRetentionPolicy.
  rewrite bind_unfold, (request_at _ _ _ _ Hh).
  by rewrite bool_decide_eq_true_2.
Qed.

Lemma getRetentionPolicy_fail rid w resp s' :
  handle (GET (Retention rid)) (registry w) = (resp, s') →
  status_code resp ≠ 200 →
  Retention.getRetentionPolicy rid w =
  (inl (Fail (MsgParsed (requestParse resp)) None),
   after_request w (GET (Retention rid)) s').
Proof.
  intros Hh Hs. unfold Retention.getRetentionPolicy.
  rewrite bind_unfold, (request_at _ _ _ _ Hh).
  by rewrite bool_decide_eq_false_2.
Qed.

Lemma getTagImmutabilityList_ok pid w resp s' :
  handle (GET (ImmutableTagRules pid)) (registry w) = (resp, s') →
  status_code resp = 200 →
  TagImmutability.getTagImmutabilityList pid w =
  (inr resp, after_request w (GET (ImmutableTagRules pid)) s').
Proof.
  intros Hh Hs. unfold TagImmutability.getTagImmutabilityList.
  rewrite bind_unfold, (request_at _ _ _ _ Hh).
  by rewrite bool_decide_eq_true_2.
Qed.

Lemma getTagImmutabilityList_fail pid w resp s' :
  handle (GET (ImmutableTagRules pid)) (registry w) = (resp, s') →
  status_code resp ≠ 200 →
  TagImmutability.getTagImmutabilityList pid w =
  (inl (Fail (MsgParsed (requestParse resp)) None),
   after_request w (GET (ImmutableTagRules pid)) s').
Proof.
  intros Hh Hs. unfold TagImmutability.getTagImmutabilityList.
  rewrite bind_unfold, (request_at _ _ _ _ Hh).
  by rewrite bool_decide_eq_false_2.
Qed.

Lemma errorHandlingPostOrPutRequest_ok resp result w :
  status_code resp = 200 ∨ status_code resp = 201 →
  Retention.errorHandlingPostOrPutRequest resp result w = (inr (), w).
Proof.
  intros Hs. unfold Retention.errorHandlingPostOrPutRequest.
  by rewrite bool_decide_eq_true_2.
Qed.

Lemma json_of_ok resp v w :
  body resp = Some v → json_of resp w = (inr v, w).
Proof. unfold json_of. by intros ->. Qed.

(** The retention update when the PUT is accepted and the policy can be
    read again: the result depends on the two readings alone. *)
Lemma retention_apply_change_eq rid before desired result w
    set_resp s1 after_resp s2 after :
  handle (PUT (Retention rid) desired) (registry w) = (set_resp, s1) →
  status_code set_resp = 200 ∨ status_code set_resp = 201 →
  handle (GET (Retention rid)) s1 = (after_resp, s2) →
  status_code after_resp = 200 →
  body after_resp = Some after →
  Retention.apply_change rid before desired result w =
  (inl (Exit (if bool_decide (before ≠ after)
              then setChanges before after result else result)),
   after_request (after_request w (PUT (Retention rid) desired) s1)
                 (GET (Retention rid)) s2).
Proof.
  intros Hput Hok Hget H200 Hbody. unfold Retention.apply_change.
  rewrite bind_unfold, (request_at _ _ _ _ Hput).
  rewrite bind_unfold, errorHandlingPostOrPutRequest_ok by done.
  rewrite bind_unfold, (getRetentionPolicy_ok _ _ after_resp s2) by done.
  rewrite bind_unfold, (json_of_ok _ after) by done.
  by destruct (bool_decide (before ≠ after)).
Qed.

End Requests.

(** ** The differ of the tag-immutability rules *)

Section Differ.
Implicit Types (A B : list json) (ids : list json).

Lemma filterM_filter {X} (f : X → Py.Exn + bool) (P : X → Prop)
    `{∀ x, Decision (P x)} (l : list X) :
  (∀ x, x ∈ l → f x = inr (bool_decide (P x))) →
  filterM f l = inr (filter P l).
Proof.
  induction l as [|x l IH]; intros Hf; [done|]. simpl.
  rewrite Hf by (apply elem_of_cons; by left). simpl.
  rewrite IH by (intros; apply Hf, elem_of_cons; by right).
  simpl. rewrite filter_cons.
  by case_decide; [rewrite bool_decide_eq_true_2
                  |rewrite bool_decide_eq_false_2].
Qed.

Lemma mapM_fmap {X Y} (f : X → Py.Exn + Y) (g : X → Y) (l : list X) :
  (∀ x, x ∈ l → f x = inr (g x)) → mapM f l = inr (g <$> l).
Proof.
  induction l as [|x l IH]; intros Hf; [done|]. simpl.
  rewrite Hf by (apply elem_of_cons; by left). simpl.
  by rewrite IH by (intros; apply Hf, elem_of_cons; by right).
Qed.

(** The items to create are the desired items the current list lacks. *)
Lemma to_add_list A B :
  TagImmutability.to_add B (JList A) = inr (filter (λ d, d ∉ A) B).
Proof.
  unfold TagImmutability.to_add. apply filterM_filter. intros x _. simpl.
  by rewrite bool_decide_not.
Qed.

Lemma to_delete_keys_from A B (pre : list json) :
  filterM (λ x, item ← Py.getitem_int (JList (pre ++ A)) x;
                negb <$> Py.contains item (JList B))
          (seq (length pre) (length A)) =
  inr ((filter (λ ic, ic.2 ∉ B) (enumerate_from (length pre) A)).*1).
Proof.
  revert pre. induction A as [|a A IH]; intros pre; [done|].
  unfold enumerate_from. simpl.
  rewrite lookup_app_r, Nat.sub_diag by lia. simpl.
  replace (pre ++ a :: A) with ((pre ++ [a]) ++ A) by by rewrite <-app_assoc.
  specialize (IH (pre ++ [a])). rewrite length_app in IH. simpl in IH.
  rewrite Nat.add_1_r in IH. rewrite IH. simpl.
  rewrite filter_cons. simpl. unfold enumerate_from.
  case_decide.
  - rewrite bool_decide_eq_false_2 by done. done.
  - rewrite bool_decide_eq_true_2; [done|].
    by destruct (decide (a ∈ B)).
Qed.

(** The positions to delete are those of the current items the desired
    list lacks. *)
Lemma to_delete_keys_list A B :
  TagImmutability.to_delete_keys B (JList A) =
  inr ((filter (λ ic, ic.2 ∉ B) (enumerate_from 0 A)).*1).
Proof. apply (to_delete_keys_from A B []). Qed.

Lemma to_delete_ids_from A B ids (preids : list json) :
  length ids = length A →
  TagImmutability.to_delete_ids (preids ++ ids)
    ((filter (λ ic, ic.2 ∉ B) (enumerate_from (length preids) A)).*1) =
  inr ((filter (λ ci, ci.1 ∉ B) (zip A ids)).*2).
Proof.
  revert ids preids. induction A as [|a A IH]; intros ids preids Hlen.
  { by destruct ids. }
  destruct ids as [|i ids]; [done|]. simpl in Hlen.
  unfold enumerate_from. simpl. rewrite !filter_cons. simpl.
  specialize (IH ids (preids ++ [i])). rewrite length_app in IH.
  simpl in IH. rewrite Nat.add_1_r, <-app_assoc in IH.
  unfold enumerate_from in IH. simpl in IH.
  unfold TagImmutability.to_delete_ids in *. case_decide.
  - rewrite fmap_cons. cbn [mapM fst].
    rewrite lookup_app_r, Nat.sub_diag by lia. simpl.
    by rewrite IH by lia.
  - by rewrite IH by lia.
Qed.

(** The identifiers to delete are those kept aside for these positions. *)
Lemma to_delete_ids_list A B ids :
  length ids = length A →
  TagImmutability.to_delete_ids ids
    ((filter (λ ic, ic.2 ∉ B) (enumerate_from 0 A)).*1) =
  inr ((filter (λ ci, ci.1 ∉ B) (zip A ids)).*2).
Proof. apply (to_delete_ids_from A B ids []). Qed.

Lemma elem_of_enumerate_from k A i c :
  (i, c) ∈ enumerate_from k A ↔ (k ≤ i)%nat ∧ A !! (i - k)%nat = Some c.
Proof.
  unfold enumerate_from. revert k. induction A as [|a A IH]; intros k; simpl.
  { rewrite elem_of_nil, lookup_nil. split; [done | by intros [_ ?]]. }
  rewrite elem_of_cons, IH. split.
  - intros [Heq|[Hk Hl]].
    + simplify_eq. by rewrite Nat.sub_diag.
    + split; [lia|]. by replace (i - k)%nat with (S (i - S k)) by lia.
  - intros [Hk Hl]. destruct (decide (i = k)) as [->|Hne].
    + rewrite Nat.sub_diag in Hl. left. by simplify_eq/=.
    + right. split; [lia|].
      by replace (i - k)%nat with (S (i - S k)) in Hl by lia.
Qed.

Lemma elem_of_delete_keys A B i :
  i ∈ (filter (λ ic, ic.2 ∉ B) (enumerate_from 0 A)).*1 ↔
  ∃ c, A !! i = Some c ∧ c ∉ B.
Proof.
  rewrite list_elem_of_fmap. split.
  - intros ([i' c] & -> & [Hc Hin]%list_elem_of_filter).
    apply elem_of_enumerate_from in Hin as [_ Hl].
    rewrite Nat.sub_0_r in Hl. eauto.
  - intros (c & Hl & Hc). exists (i, c). split; [done|].
    apply list_elem_of_filter. split; [done|].
    apply elem_of_enumerate_from. rewrite Nat.sub_0_r. split; [lia|done].
Qed.

(** C2.  For a current rule list [A] and a desired rule list [B], the
    differ computes as items to create exactly the items of [B] that are not
    in [A], as positions to delete exactly those of the items of [A] that
    are not in [B], and as identifiers to delete the identifiers kept aside
    for these positions; what is left of [A] together with the items to
    create has the same members as [B].  Membership is equality of the
    canonical items: the identifiers play no part in it. *)
Theorem tag_set_diff A B :
  ∃ adds keys,
    TagImmutability.to_add B (JList A) = inr adds ∧
    TagImmutability.to_delete_keys B (JList A) = inr keys ∧
    adds = filter (λ d, d ∉ A) B ∧
    (∀ i, i ∈ keys ↔ ∃ c, A !! i = Some c ∧ c ∉ B) ∧
    (∀ ids, length ids = length A →
       TagImmutability.to_delete_ids ids keys =
       inr ((filter (λ ci, ci.1 ∉ B) (zip A ids)).*2)) ∧
    (∀ x, x ∈ B ↔ x ∈ adds ∨ (∃ i, A !! i = Some x ∧ i ∉ keys)).
Proof.
  eexists _, _. split; [apply to_add_list|].
  split; [apply to_delete_keys_list|]. split; [done|].
  split; [apply elem_of_delete_keys|].
  split; [intros ids; apply to_delete_ids_list|].
  intros x. rewrite list_elem_of_filter. split.
  - intros HB. destruct (decide (x ∈ A)) as [HA|HA]; [right|by left].
    apply list_elem_of_lookup in HA as [i Hi]. exists i. split; [done|].
    rewrite elem_of_delete_keys. intros (c & Hc & Hn). by simplify_eq.
  - intros [[_ HB]|(i & Hl & Hi)]; [done|].
    destruct (decide (x ∈ B)) as [|Hn]; [done|]. exfalso. apply Hi.
    apply elem_of_delete_keys. eauto.
Qed.

End Differ.

(** ** The scan-all schedule *)

Section Schedule.
Context `{Env}.

Lemma dict_nil : dict [] = JDict ∅.
Proof. reflexivity. Qed.

Lemma constructDesired_not_empty cron ty :
  ScanAll.constructDesired cron ty ≠ dict [].
Proof.
  unfold ScanAll.constructDesired, dict. intros Heq.
  apply (f_equal (λ v, match v with
                       | JDict d => d !! "schedule"
                       | _ => None
                       end)) in Heq.
  cbn [list_to_map foldr fst snd] in Heq.
  by rewrite lookup_insert_eq, lookup_empty in Heq.
Qed.

Lemma getSchedule_empty w resp s' :
  handle (GET ScanAllSchedule) (registry w) = (resp, s') →
  status_code resp = 200 →
  content_length resp = Some "0" →
  ScanAll.getSchedule w =
  (inr (dict []), after_request w (GET ScanAllSchedule) s').
Proof.
  intros Hh Hs Hl. unfold ScanAll.getSchedule.
  rewrite bind_unfold, (request_at _ _ _ _ Hh).
  by rewrite bool_decide_eq_true_2, Hl.
Qed.

(** What [getSchedule] makes of an answer whose status is not 200: the
    status is not looked at again. *)
Lemma getSchedule_not_200 w resp s' :
  handle (GET ScanAllSchedule) (registry w) = (resp, s') →
  status_code resp ≠ 200 →
  ScanAll.getSchedule w =
  (match body resp with
   | None => inl (Crash Py.JSONDecodeError)
   | Some v =>
       match Py.getitem v "schedule" with
       | inl e => inl (Crash e)
       | inr sch => inr (dict [("schedule", sch)])
       end
   end, after_request w (GET ScanAllSchedule) s').
Proof.
  intros Hh Hs. unfold ScanAll.getSchedule.
  rewrite bind_unfold, (request_at _ _ _ _ Hh).
  rewrite bool_decide_eq_false_2 by done.
  rewrite !bind_unfold. unfold mret, M_ret, ret, json_of.
  destruct (body resp) as [v|]; [|done]. simpl.
  rewrite !bind_unfold. unfold ret. rewrite bind_unfold.
  by destruct (Py.getitem v "schedule").
Qed.

(** C9.  When the GET of the current schedule is answered with status 200
    and a content length of zero, the current state is the empty mapping;
    no desired schedule equals it, whatever the cron expression and the
    type (a type left out standing for "Custom"); so the comparison fails
    and the write path is taken: the preview records the pair and reports
    a change, the apply issues the PUT of the desired schedule. *)
Theorem empty_schedule_forces_write (p : ScanAll.Params) (s : Registry)
    resp s' :
  handle (GET ScanAllSchedule) s = (resp, s') →
  status_code resp = 200 →
  content_length resp = Some "0" →
  let desired := ScanAll.constructDesired (ScanAll.schedule_cron p)
                                          (ScanAll.param_type p) in
  ScanAll.getSchedule (start s) =
    (inr (JDict ∅), after_request (start s) (GET ScanAllSchedule) s') ∧
  (∀ cron ty, ScanAll.constructDesired cron ty ≠ JDict ∅) ∧
  (ScanAll.type_arg p = None →
   desired = ScanAll.constructDesired (ScanAll.schedule_cron p) "Custom") ∧
  (ScanAll.check_mode p = true →
   run (ScanAll.main p) s =
   (Exit (setChanges (JDict ∅) desired initial_result),
    after_request (start s) (GET ScanAllSchedule) s')) ∧
  (ScanAll.check_mode p = false →
   ∃ t, trace (run (ScanAll.main p) s).2 =
        [GET ScanAllSchedule; PUT ScanAllSchedule desired] ++ t).
Proof.
  intros Hh Hs Hl desired.
  pose proof (getSchedule_empty (start s) resp s' Hh Hs Hl) as Hget.
  rewrite dict_nil in Hget.
  assert (Hne : ∀ cron ty, ScanAll.constructDesired cron ty ≠ JDict ∅)
    by apply constructDesired_not_empty.
  split; [done|]. split; [done|]. split.
  { intros Ht. unfold desired, ScanAll.param_type. by rewrite Ht. }
  split.
  - intros Hc. apply run_stop.
    rewrite scanall_main_fetch_compare, bind_unfold, Hget.
    unfold ScanAll.compare. fold desired.
    by rewrite bool_decide_eq_true_2, Hc by apply Hne.
  - intros Hc. unfold run. fold (start s).
    rewrite scanall_main_fetch_compare, bind_unfold, Hget.
    unfold ScanAll.compare. fold desired.
    rewrite bool_decide_eq_true_2, Hc by apply Hne.
    rewrite bind_unfold. unfold ScanAll.putSchedule.
    rewrite bind_unfold.
    destruct (handle (PUT ScanAllSchedule desired) s') as [presp s2] eqn:Hp.
    rewrite (request_at _ _ presp s2) by done.
    case_bool_decide; simpl; [|by exists []].
    rewrite bind_unfold.
    match goal with
    | |- context [ScanAll.getSchedule ?w] =>
        destruct (issues_getSchedule w) as (t & E & _);
        destruct (ScanAll.getSchedule w) as [[st|after] w3]
    end; simpl in *; exists t; by rewrite E.
Qed.

End Schedule.

(** ** Failures of the reads *)

Section ReadFailures.
Context `{Env}.

(** C5.  A GET of the retention policy or of the rule list that is not
    answered with status 200 ends the run at once, with the message made
    from the response.  The GET of the scan-all schedule does not: whatever
    the status, [getSchedule] goes on to decode the body and to take its
    [schedule] member; it never fails with a message, and when the body has
    such a member it returns it as the current state. *)
Theorem getSchedule_skips_status_check (w : World) rid pid :
  (∀ resp s', handle (GET (Retention rid)) (registry w) = (resp, s') →
     status_code resp ≠ 200 →
     Retention.getRetentionPolicy rid w =
     (inl (Fail (MsgParsed (requestParse resp)) None),
      after_request w (GET (Retention rid)) s')) ∧
  (∀ resp s', handle (GET (ImmutableTagRules pid)) (registry w) = (resp, s') →
     status_code resp ≠ 200 →
     TagImmutability.getTagImmutabilityList pid w =
     (inl (Fail (MsgParsed (requestParse resp)) None),
      after_request w (GET (ImmutableTagRules pid)) s')) ∧
  (∀ resp s', handle (GET ScanAllSchedule) (registry w) = (resp, s') →
     status_code resp ≠ 200 →
     (∀ m r, (ScanAll.getSchedule w).1 ≠ inl (Fail m r)) ∧
     (∀ v, body resp = Some v →
           match Py.getitem v "schedule" with
           | inl e => (ScanAll.getSchedule w).1 = inl (Crash e)
           | inr sch =>
               (ScanAll.getSchedule w).1 = inr (dict [("schedule", sch)])
           end)).
Proof.
  split; [|split].
  - intros resp s'. apply getRetentionPolicy_fail.
  - intros resp s'. apply getTagImmutabilityList_fail.
  - intros resp s' Hh Hs. rewrite (getSchedule_not_200 w resp s' Hh Hs).
    split.
    + intros m r. simpl. destruct (body resp) as [v|]; [|done].
      by destruct (Py.getitem v "schedule").
    + intros v ->. simpl. by destruct (Py.getitem v "schedule").
Qed.

Lemma getProjectByName_at name w resp s' v :
  handle (GET (ProjectsByName name)) (registry w) = (resp, s') →
  selectProject name resp = inr v →
  getProjectByName name w =
  (inr v, after_request w (GET (ProjectsByName name)) s').
Proof.
  intros Hh Hv. unfold getProjectByName.
  by rewrite bind_unfold, (request_at _ _ _ _ Hh), Hv.
Qed.

(** C6.  A run of the retention or of the tag-immutability module whose
    project lookup comes back empty ends with an uncaught [AttributeError]:
    [self.self] is looked up while the arguments of [fail_json] are
    evaluated, and the instance has no such attribute.  The message
    "Project not found" is not handed over. *)
Theorem project_not_found_raises
    (pr : Retention.Params) (pt : TagImmutability.Params) (s : Registry)
    name resp s' v :
  Retention.project pr = name →
  TagImmutability.project pt = name →
  handle (GET (ProjectsByName name)) s = (resp, s') →
  selectProject name resp = inr v →
  Py.truthy v = false →
  run (Retention.main pr) s =
    (Crash (Py.AttributeError "self"),
     after_request (start s) (GET (ProjectsByName name)) s') ∧
  run (TagImmutability.main pt) s =
    (Crash (Py.AttributeError "self"),
     after_request (start s) (GET (ProjectsByName name)) s').
Proof.
  intros Hr Ht Hh Hv Hf. split; apply run_stop.
  - unfold Retention.main. rewrite Hr, bind_unfold.
    rewrite (getProjectByName_at name (start s) resp s' v) by done.
    by rewrite Hf.
  - unfold TagImmutability.main. rewrite Ht, bind_unfold.
    rewrite (getProjectByName_at name (start s) resp s' v) by done.
    by rewrite Hf.
Qed.

End ReadFailures.

(** ** The change flag after an apply *)

Section Apply.
Context `{Env}.

Lemma check_None w : check None w = (inr (), w).
Proof. reflexivity. Qed.

(** The POSTs of a list of rules, when none of them stops the run. *)
Lemma createTagImmutabilities_trace l pid result w u w' :
  TagImmutability.createTagImmutabilities l pid result w = (inr u, w') →
  trace w' = trace w ++ (POST (ImmutableTagRules pid) <$> l).
Proof.
  revert w. induction l as [|x l IH]; intros w; simpl.
  { intros [= _ <-]. by rewrite app_nil_r. }
  rewrite bind_unfold. unfold request at 1.
  destruct (handle _ (registry w)) as [resp s1]. rewrite bind_unfold.
  destruct (check _ _) as [[st|[]] w1] eqn:Hc; [done|].
  intros Hrest. apply IH in Hrest. rewrite Hrest.
  unfold check in Hc.
  destruct (errorHandlingHttpRequest resp result); [done|].
  injection Hc as <-. simpl. by rewrite <-app_assoc.
Qed.



(** The apply of the rule list when no POST and no DELETE stops the run and
    the rules can be read again. *)
Lemma tag_apply_change_eq A B ids pid result w w1 w2 after w3 :
  length ids = length A →
  TagImmutability.createTagImmutabilities
    (filter (λ d, d ∉ A) B) pid result w = (inr (), w1) →
  TagImmutability.deleteTagImmutabilities
    ((filter (λ ci, ci.1 ∉ B) (zip A ids)).*2) pid result w1 = (inr (), w2) →
  TagImmutability.fetch pid w2 = (inr after, w3) →
  TagImmutability.apply_change B (JList A) ids pid result w =
  (inl (Exit (if bool_decide (JList A ≠ after.1)
              then setChanges (JList A) after.1 result
              else set_changed false result)), w3).
Proof.
  intros Hlen Hc Hd Hf. unfold TagImmutability.apply_change.
  rewrite to_add_list. rewrite bind_unfold. simpl.
  rewrite bind_unfold, Hc.
  rewrite to_delete_keys_list. rewrite bind_unfold. simpl.
  rewrite to_delete_ids_list by done. rewrite bind_unfold. simpl.
  rewrite bind_unfold, Hd. rewrite bind_unfold, Hf.
  by destruct (bool_decide (JList A ≠ after.1)).
Qed.

End Apply.

(** ** Force mode of the retention module *)

Section Force.
Context `{Env}.

Lemma retention_apply_change_puts rid before desired result w :
  ∃ t, trace (Retention.apply_change rid before desired result w).2 =
       trace w ++ PUT (Retention rid) desired :: t.
Proof.
  unfold Retention.apply_change. rewrite bind_unfold. unfold request at 1.
  destruct (handle _ (registry w)) as [set_resp s1].
  match goal with
  | |- context [(?m ≫= ?k) ?w1] =>
      assert (issues reads (m ≫= k)) as Hrest
  end.
  { pose proof issues_errorHandlingPostOrPutRequest.
    pose proof issues_getRetentionPolicy. issues_auto. }
  match goal with
  | |- context [(?m ≫= ?k) ?w1] =>
      destruct (Hrest w1) as (t & E & _); exists t;
      destruct ((m ≫= k) w1) as [[st|[]] w2]
  end.
  simpl in *. by rewrite E, <-app_assoc.
Qed.

End Force.

(** ** Canonical forms *)

Section Canonical.

(** The item as [formatGetTagImmutabilityList] leaves it. *)
Lemma canonical_item_inv pid x y i :
  canonical_item pid x = inr (y, i) →
  ∃ d, x = JDict d ∧ d !! "id" = Some i ∧
       y = JDict (<["disabled" := JFalse]>
                    (<["priority" := JNum 0]>
                       (<["project_id" := pid]> (delete "id" d)))).
Proof.
  unfold canonical_item. destruct x as [| | | |d]; try done. simpl.
  destruct (d !! "id") as [i'|] eqn:Hid; [|done]. simpl.
  intros [= <- <-]. eauto.
Qed.

(** One turn of the loop on a list: the item at [key] is replaced by its
    formatted form and its identifier is put into slot [key]. *)
Lemma formatStep_list pid (pre todo : list json) a ids :
  (length pre < length ids)%nat →
  TagImmutability.formatStep pid (JList (pre ++ a :: todo), ids)
                             (length pre) =
  r ← canonical_item pid a;
  inr (JList (pre ++ r.1 :: todo), <[length pre := r.2]> ids).
Proof.
  intros Hids. unfold TagImmutability.formatStep, canonical_item. simpl.
  rewrite lookup_app_r, Nat.sub_diag by lia. simpl.
  destruct (Py.pop a "id") as [e|[i a']] eqn:Hpop; [done|]. simpl.
  destruct a as [| | | |d]; try done. simpl in Hpop.
  destruct (d !! "id"); [|done]. injection Hpop as <- <-.
  rewrite (decide_True (P := (length pre < length ids)%nat)) by done. simpl.
  rewrite decide_True by (rewrite length_app; simpl; lia). simpl.
  by rewrite insert_app_r_alt, Nat.sub_diag by lia.
Qed.

Lemma formatLoop_list pid (todo pre idsd : list json) :
  length idsd = length pre →
  foldM (TagImmutability.formatStep pid)
        (seq (length pre) (length todo))
        (JList (pre ++ todo), idsd ++ replicate (length todo) JNull) =
  r ← mapM (canonical_item pid) todo;
  inr (JList (pre ++ r.*1), idsd ++ r.*2).
Proof.
  revert pre idsd. induction todo as [|a todo IH]; intros pre idsd Hlen.
  { done. }
  cbn [length seq replicate foldM].
  rewrite formatStep_list by (rewrite length_app; simpl; lia).
  cbn [mapM].
  destruct (canonical_item pid a) as [e|[y i]]; [done|].
  cbn [mapM mbind Exn_bind fst snd].
  rewrite insert_app_r_alt, Hlen, Nat.sub_diag by lia. simpl.
  specialize (IH (pre ++ [y]) (idsd ++ [i])).
  rewrite !length_app in IH. simpl in IH.
  rewrite !Nat.add_1_r, <-!app_assoc in IH. simpl in IH.
  rewrite IH by lia.
  destruct (mapM (canonical_item pid) todo) as [e|r]; [done|]. simpl.
  by rewrite <-!app_assoc.
Qed.

(** The canonical form of a rule list: every item formatted, the
    identifiers in the order of the items. *)
Lemma canonical_list pid (items : list json) :
  TagImmutability.canonical (JList items) pid =
  r ← mapM (canonical_item pid) items; inr (JList r.*1, r.*2).
Proof.
  unfold TagImmutability.canonical,
    TagImmutability.formatGetTagImmutabilityList. simpl.
  apply (formatLoop_list pid items [] []). done.
Qed.

Lemma mapM_inv {X Y} (f : X → Py.Exn + Y) (l : list X) r :
  mapM f l = inr r → Forall2 (λ x y, f x = inr y) l r.
Proof.
  revert r. induction l as [|x l IH]; intros r; simpl.
  { intros [= <-]. constructor. }
  destruct (f x) as [e|y] eqn:Hx; [done|]. simpl.
  destruct (mapM f l) as [e|r']; [done|]. simpl. intros [= <-].
  constructor; [done|]. by apply IH.
Qed.

(** A body that is no list gets through the formatting only when it is
    empty, and then unchanged. *)
Lemma canonical_not_list body pid l ids :
  TagImmutability.canonical body pid = inr (l, ids) →
  (∃ items, body = JList items) ∨ (l = body ∧ has_id body = false).
Proof.
  unfold TagImmutability.canonical,
    TagImmutability.formatGetTagImmutabilityList.
  destruct body as [| |s|items|d]; try done; simpl.
  - destruct (String.length s) eqn:Hs; simpl; [|by destruct s].
    intros [= <- _]. by right.
  - eauto.
  - destruct (size d) eqn:Hd; simpl; [|done].
    intros [= <- _]. right. split; [done|].
    apply map_size_empty_iff in Hd as ->. done.
Qed.

End Canonical.

(** ** The statements at work on the example registries *)

Section OnHarbor.
Local Existing Instance Harbor.env.

(** C4 as stated fails: the policy of [library] is the desired one, the run
    is forced and applies; the PUT is issued, the policy read afterwards is
    the one read before, and the run reports [changed = false]. *)
Lemma force_reports_unchanged :
  ¬ (∀ (p : Retention.Params) (s : Harbor.State) r w,
       Retention.force p = true →
       run (Retention.main p) s = (Exit r, w) →
       changed r = true).
Proof.
  intros Hclaim.
  assert (changed_of (run (Retention.main (Example.retention true false))
                          Example.with_policy).1 = Some false) as Hobs
    by (vm_compute; reflexivity).
  remember (@run Harbor.env (Retention.main (Example.retention true false))
                 Example.with_policy) as out eqn:Hrun.
  destruct out as [[r|m r|e] w]; [|discriminate Hobs|discriminate Hobs].
  symmetry in Hrun. apply Hclaim in Hrun; [|reflexivity].
  simpl in Hobs. congruence.
Qed.

(** C8 as stated fails for the retention policy: the registry holds the
    policy of [library] with its [id] member, and this is the value the run
    compares with the desired policy. *)
Lemma retention_compares_with_id :
  ¬ (∀ (p : Retention.Params) (s : Harbor.State) x w rid before,
       Retention.fetch p (start s) = (inr x, w) →
       Retention.current x = Some (rid, before) →
       has_id before = false).
Proof.
  intros Hclaim.
  assert (returned (λ x, match Retention.current x with
                         | Some (_, before) => has_id before
                         | None => false
                         end)
            (Retention.fetch (Example.retention false true)
                             (start Example.with_policy_id)) = true) as Hobs
    by (vm_compute; reflexivity).
  remember (@Retention.fetch Harbor.env (Example.retention false true)
              (@start Harbor.env Example.with_policy_id)) as out eqn:Hf.
  destruct out as [[st|x] w]; [discriminate Hobs|].
  unfold returned in Hobs. cbn [fst] in Hobs.
  destruct (Retention.current x) as [[rid before]|] eqn:Hc;
    [|discriminate Hobs].
  symmetry in Hf. specialize (Hclaim _ _ _ _ _ _ Hf Hc). congruence.
Qed.

(** Previews of the three modules against the reference registry: the
    stored policy differs from the desired one, no schedule is set, and
    there is no rule yet. *)
Lemma check_mode_issues_no_write_witness :
  let pr := Example.retention false true in
  let ps := Example.weekly true in
  let pt := Example.tags [Example.rule "**" "new"] true in
  let s := Example.with_policy_id in
  (Retention.check_mode pr = true ∧ ScanAll.check_mode ps = true ∧
   TagImmutability.check_mode pt = true) ∧
  (Forall reads (trace (run (Retention.main pr) s).2) ∧
   changed_of (run (Retention.main pr) s).1 = Some true) ∧
  (Forall reads (trace (run (ScanAll.main ps) s).2) ∧
   changed_of (run (ScanAll.main ps) s).1 = Some true) ∧
  (Forall reads (trace (run (TagImmutability.main pt) s).2) ∧
   changed_of (run (TagImmutability.main pt) s).1 = Some true).
Proof.
  intros pr ps pt s. split; [by repeat split|].
  destruct (@check_mode_issues_no_write Harbor.env pr ps pt s
              eq_refl eq_refl eq_refl)
    as ((Hr & Hrd) & (Hs & Hsd) & (Ht & Htd)).
  split; [|split]; (split; [assumption|]).
  - assert (returned (Retention.delta pr)
              (Retention.fetch pr (start s)) = true) as Hobs
      by (vm_compute; reflexivity).
    remember (@Retention.fetch Harbor.env pr (@start Harbor.env s))
      as out eqn:Hf.
    destruct out as [[st|x] w]; [discriminate Hobs|].
    destruct (Hrd x w eq_refl Hobs) as (r & Hrun & Hch & _).
    rewrite Hrun. simpl. by rewrite Hch.
  - assert (returned (ScanAll.delta ps)
              (ScanAll.getSchedule (start s)) = true) as Hobs
      by (vm_compute; reflexivity).
    remember (@ScanAll.getSchedule Harbor.env (@start Harbor.env s))
      as out eqn:Hf.
    destruct out as [[st|x] w]; [discriminate Hobs|].
    destruct (Hsd x w eq_refl Hobs) as (r & Hrun & Hch & _).
    rewrite Hrun. simpl. by rewrite Hch.
  - assert (returned TagImmutability.delta
              (TagImmutability.fetch_all pt (start s)) = true) as Hobs
      by (vm_compute; reflexivity).
    remember (@TagImmutability.fetch_all Harbor.env pt
                (@start Harbor.env s)) as out eqn:Hf.
    destruct out as [[st|x] w]; [discriminate Hobs|].
    destruct (Htd x w eq_refl Hobs) as (r & Hrun & Hch & _).
    rewrite Hrun. simpl. by rewrite Hch.
Defined.

(** The fresh registry has no schedule: the GET is answered with status
    200 and no content. *)
Lemma empty_schedule_forces_write_witness :
  run (ScanAll.main (Example.weekly true)) Example.fresh =
    (Exit (setChanges (JDict ∅)
             (ScanAll.constructDesired "0 0 0 * * 0" "Custom")
             initial_result),
     after_request (start Example.fresh) (GET ScanAllSchedule)
                   Example.fresh) ∧
  ∃ t, trace (run (ScanAll.main (Example.weekly false)) Example.fresh).2 =
       [GET ScanAllSchedule;
        PUT ScanAllSchedule
            (ScanAll.constructDesired "0 0 0 * * 0" "Custom")] ++ t.
Proof.
  pose proof (@empty_schedule_forces_write Harbor.env (Example.weekly true)
                Example.fresh (Harbor.no_content 200) Example.fresh
                eq_refl eq_refl eq_refl) as (_ & _ & _ & Hpreview & _).
  pose proof (@empty_schedule_forces_write Harbor.env (Example.weekly false)
                Example.fresh (Harbor.no_content 200) Example.fresh
                eq_refl eq_refl eq_refl) as (_ & _ & _ & _ & Happly).
  split; [exact (Hpreview eq_refl) | exact (Happly eq_refl)].
Defined.

(** A project name the registry does not know. *)
Lemma project_not_found_raises_witness :
  let pr := {| Retention.project := "missing"; Retention.rules := [];
               Retention.schedule_cron := "0 0 0 * * 0";
               Retention.force := false; Retention.check_mode := false |} in
  let pt := {| TagImmutability.project := "missing";
               TagImmutability.tag_immutability_list := [];
               TagImmutability.check_mode := false |} in
  Py.truthy JNull = false ∧
  run (Retention.main pr) Example.fresh =
    (Crash (Py.AttributeError "self"),
     after_request (start Example.fresh) (GET (ProjectsByName "missing"))
                   Example.fresh) ∧
  run (TagImmutability.main pt) Example.fresh =
    (Crash (Py.AttributeError "self"),
     after_request (start Example.fresh) (GET (ProjectsByName "missing"))
                   Example.fresh).
Proof.
  intros pr pt. split; [reflexivity|].
  exact (@project_not_found_raises Harbor.env pr pt Example.fresh "missing"
           (Harbor.ok (JList [])) Example.fresh JNull
           eq_refl eq_refl eq_refl eq_refl eq_refl).
Defined.

(** The rule list [old] of the registry against the rule list [new] of
    the task: one item to create, the identifier 7 to delete. *)
Lemma tag_set_diff_witness :
  let A := [JDict (Example.stored_rule "old")] in
  let B := [JDict (Example.stored_rule "new")] in
  ∃ keys, TagImmutability.to_delete_keys B (JList A) = inr keys ∧
          TagImmutability.to_delete_ids [JNum 7] keys =
          inr ((filter (λ ci, ci.1 ∉ B) (zip A [JNum 7])).*2).
Proof.
  intros A B.
  destruct (tag_set_diff A B)
    as (adds & keys & _ & Hkeys & _ & _ & Hids & _).
  exists keys. split; [exact Hkeys|]. apply Hids. reflexivity.
Defined.

End OnHarbor.

Section OnLocked.
Local Existing Instance Locked.env.

(** Harbor's answer to wrong credentials: status 401 and an error body
    without a [schedule] member.  The reads of the policy and of the rules
    fail with the message; the read of the schedule raises [KeyError]. *)
Lemma getSchedule_skips_status_check_witness :
  let w := @start Locked.env () in
  let resp := Harbor.error 401 "unauthorized" in
  Retention.getRetentionPolicy (JNum 10) w =
    (inl (Fail (MsgParsed "unauthorized") None),
     after_request w (GET (Retention (JNum 10))) ()) ∧
  (ScanAll.getSchedule w).1 = inl (Crash (Py.KeyError "schedule")).
Proof.
  intros w resp.
  destruct (@getSchedule_skips_status_check Locked.env w (JNum 10) (JNum 1))
    as (Hret & _ & Hscan).
  split.
  - apply (Hret resp ()); [reflexivity|]. by intros ?.
  - destruct (Hscan resp ()) as [_ Hbody]; [reflexivity|by intros ?|].
    exact (Hbody _ eq_refl).
Defined.

End OnLocked.

(** ** Two runs in a row against the reference registry *)

Section Literals.

Lemma getitem_dict_here k v l : Py.getitem (dict ((k, v) :: l)) k = inr v.
Proof.
  unfold dict, Py.getitem. cbn [list_to_map foldr fst snd].
  by rewrite lookup_insert_eq.
Qed.

Lemma getitem_dict_next k k' v l :
  k ≠ k' → Py.getitem (dict ((k', v) :: l)) k = Py.getitem (dict l) k.
Proof.
  intros Hne. unfold dict, Py.getitem. cbn [list_to_map foldr fst snd].
  by rewrite lookup_insert_ne.
Qed.

Lemma dict_singleton_inj k v v' : dict [(k, v)] = dict [(k, v')] → v = v'.
Proof.
  intros Heq. apply (f_equal (λ x, Py.getitem x k)) in Heq.
  rewrite !getitem_dict_here in Heq. by injection Heq.
Qed.

End Literals.

Section ScheduleTwice.
Local Existing Instance Harbor.env.

Lemma harbor_getSchedule (w : World) :
  ScanAll.getSchedule w =
  (inr (current_schedule (registry w)),
   after_request w (GET ScanAllSchedule) (registry w)).
Proof.
  unfold ScanAll.getSchedule, current_schedule.
  rewrite bind_unfold. unfold request. cbn [handle Harbor.env].
  unfold Harbor.harbor_handle.
  destruct (Harbor.schedule (registry w)) as [sch|]; [|reflexivity].
  rewrite bind_unfold. cbn [status_code content_length Harbor.ok].
  rewrite bool_decide_eq_true_2 by done.
  rewrite bool_decide_eq_false_2 by done.
  unfold mret, M_ret, ret. rewrite bind_unfold. unfold json_of.
  cbn [body Harbor.ok]. unfold ret. rewrite bind_unfold.
  rewrite getitem_dict_here. reflexivity.
Qed.

Lemma harbor_putSchedule p (w : World) :
  ScanAll.putSchedule
    (ScanAll.constructDesired (ScanAll.schedule_cron p)
                              (ScanAll.param_type p)) w =
  (inr (),
   after_request w
     (PUT ScanAllSchedule
          (ScanAll.constructDesired (ScanAll.schedule_cron p)
                                    (ScanAll.param_type p)))
     (set_schedule (wanted p) (registry w))).
Proof.
  unfold ScanAll.putSchedule. rewrite bind_unfold. unfold request.
  cbn [handle Harbor.env]. unfold Harbor.harbor_handle.
  unfold ScanAll.constructDesired at 1. rewrite getitem_dict_here.
  cbn [status_code Harbor.no_content].
  by rewrite bool_decide_eq_true_2.
Qed.

Lemma schedule_delta p s :
  ScanAll.constructDesired (ScanAll.schedule_cron p) (ScanAll.param_type p)
    = current_schedule s ↔ Harbor.schedule s = Some (wanted p).
Proof.
  unfold current_schedule. split.
  - destruct (Harbor.schedule s) as [sch|]; intros Heq.
    + apply dict_singleton_inj in Heq. by rewrite <-Heq.
    + by apply constructDesired_not_empty in Heq.
  - by intros ->.
Qed.

(** One apply of the schedule module: it reports a change exactly when the
    stored schedule was not the wanted one, and leaves the wanted one. *)
Lemma harbor_scanall_apply p (s : Harbor.State) :
  ScanAll.check_mode p = false →
  ∃ r w, run (ScanAll.main p) s = (Exit r, w) ∧
         changed r = bool_decide (Harbor.schedule s ≠ Some (wanted p)) ∧
         Harbor.schedule (registry w) = Some (wanted p).
Proof.
  intros Hc. unfold run. fold (start s).
  rewrite scanall_main_fetch_compare, bind_unfold, harbor_getSchedule.
  unfold ScanAll.compare. rewrite Hc. cbn [registry start].
  destruct (decide (Harbor.schedule s = Some (wanted p))) as [Hs|Hs].
  - rewrite bool_decide_eq_false_2
      by (intros Hne; apply Hne; by apply schedule_delta).
    eexists _, _. split; [reflexivity|]. split; [|done].
    by rewrite bool_decide_eq_false_2 by (intros Hne; by apply Hne).
  - rewrite bool_decide_eq_true_2 by (by rewrite schedule_delta).
    rewrite bind_unfold, harbor_putSchedule.
    rewrite bind_unfold, harbor_getSchedule.
    eexists _, _. split; [reflexivity|]. split; [|done].
    by rewrite bool_decide_eq_true_2.
Qed.

End ScheduleTwice.

Section RetentionTwice.
Local Existing Instance Harbor.env.

Lemma py_inr {A} (a : A) (w : World) : py (inr a) w = (inr a, w).
Proof. reflexivity. Qed.

Lemma truthy_dict_cons kv l : Py.truthy (dict (kv :: l)) = true.
Proof.
  unfold dict, Py.truthy. cbn [list_to_map foldr].
  apply negb_true_iff, Nat.eqb_neq. intros Hsize.
  apply map_size_empty_iff in Hsize. by apply insert_non_empty in Hsize.
Qed.

Lemma harbor_getProjectByName n (w : World) :
  getProjectByName n w =
  (inr (from_option Harbor.project_json JNull (find_project n (registry w))),
   after_request w (GET (ProjectsByName n)) (registry w)).
Proof.
  unfold getProjectByName, find_project. rewrite bind_unfold. unfold request.
  cbn [handle Harbor.env]. unfold Harbor.harbor_handle.
  cbn [selectProject Harbor.env]. unfold Harbor.harbor_selectProject.
  cbn [body Harbor.ok].
  by destruct (filter _ (Harbor.projects (registry w))).
Qed.

Lemma project_json_id proj :
  Py.getitem (Harbor.project_json proj) "project_id"
  = inr (JNum (Harbor.id proj)).
Proof.
  unfold Harbor.project_json.
  rewrite getitem_dict_next by done. apply getitem_dict_here.
Qed.

Lemma project_json_metadata proj :
  ∃ metadata,
    Py.getitem (Harbor.project_json proj) "metadata" = inr metadata ∧
    match Harbor.retention proj with
    | Some r =>
        Py.contains (JStr "retention_id") metadata = inr true ∧
        Py.getitem metadata "retention_id" = inr (JNum r)
    | None => Py.contains (JStr "retention_id") metadata = inr false
    end.
Proof.
  unfold Harbor.project_json. eexists. split.
  { rewrite !getitem_dict_next by done. apply getitem_dict_here. }
  destruct (Harbor.retention proj) as [r|].
  - split.
    + unfold dict, Py.contains. cbn [list_to_map foldr fst snd].
      rewrite bool_decide_eq_true_2; [done|].
      rewrite lookup_insert_ne by done. by rewrite lookup_insert_eq.
    + rewrite getitem_dict_next by done. apply getitem_dict_here.
  - unfold dict, Py.contains. cbn [list_to_map foldr fst snd].
    rewrite bool_decide_eq_false_2; [done|].
    rewrite lookup_insert_ne by done. rewrite lookup_empty. by intros [? ?].
Qed.

Lemma harbor_getRetentionPolicy r policy (w : World) :
  Harbor.policies (registry w) !! r = Some policy →
  Retention.getRetentionPolicy (JNum r) w =
  (inr (Harbor.ok policy),
   after_request w (GET (Retention (JNum r))) (registry w)).
Proof.
  intros Hp. apply getRetentionPolicy_ok; [|done].
  cbn [handle Harbor.env]. unfold Harbor.harbor_handle. by rewrite Hp.
Qed.

Lemma scope_ref_desired p pid :
  Harbor.scope_ref (Retention.createDesiredRetentionPolicy p (JNum pid))
  = Some pid.
Proof.
  unfold Harbor.scope_ref, Retention.createDesiredRetentionPolicy.
  rewrite !getitem_dict_next by done. rewrite getitem_dict_here.
  rewrite !getitem_dict_next by done. by rewrite getitem_dict_here.
Qed.

Lemma find_project_create n pid policy s proj :
  find_project n s = Some proj →
  Harbor.id proj = pid →
  find_project n (create_policy pid policy s) =
  Some {| Harbor.name := Harbor.name proj; Harbor.id := pid;
          Harbor.retention := Some (Harbor.next_id s) |}.
Proof.
  unfold find_project, create_policy. cbn [Harbor.projects].
  intros Hfind Hid. induction (Harbor.projects s) as [|q qs IH]; [done|].
  rewrite fmap_cons, filter_cons.
  rewrite filter_cons in Hfind.
  assert (Harbor.name (Harbor.set_retention pid (Harbor.next_id s) q)
          = Harbor.name q) as Hname.
  { unfold Harbor.set_retention. by case_bool_decide. }
  rewrite Hname. destruct (decide (Harbor.name q = n)); [|by apply IH].
  simpl in *. injection Hfind as ->. unfold Harbor.set_retention.
  by rewrite bool_decide_eq_true_2, Hid.
Qed.

Lemma find_project_elem n s proj :
  find_project n s = Some proj → proj ∈ Harbor.projects s.
Proof.
  unfold find_project. intros Hh. apply head_Some_elem_of in Hh.
  by apply list_elem_of_filter in Hh as [_ ?].
Qed.

(** One apply of the retention module for a project the registry knows,
    whose policy, if it names one, exists: it reports a change exactly when
    the project had no policy or another one than the desired, and leaves
    the project with the desired policy. *)
Lemma harbor_retention_apply p (s : Harbor.State) proj :
  Retention.check_mode p = false →
  find_project (Retention.project p) s = Some proj →
  (∀ r, Harbor.retention proj = Some r →
        is_Some (Harbor.policies s !! r)) →
  let desired :=
    Retention.createDesiredRetentionPolicy p (JNum (Harbor.id proj)) in
  ∃ r1 w1 proj' rid,
    run (Retention.main p) s = (Exit r1, w1) ∧
    changed r1 = bool_decide (current_policy s proj ≠ Some desired) ∧
    find_project (Retention.project p) (registry w1) = Some proj' ∧
    Harbor.id proj' = Harbor.id proj ∧
    Harbor.retention proj' = Some rid ∧
    Harbor.policies (registry w1) !! rid = Some desired.
Proof.
  intros Hc Hfind Hwf desired.
  assert (Harbor.scope_ref desired = Some (Harbor.id proj)) as Hscope
    by apply scope_ref_desired.
  unfold run. fold (start s). unfold Retention.main.
  rewrite bind_unfold, harbor_getProjectByName. cbn [registry start].
  rewrite Hfind. cbn [from_option].
  replace (Py.truthy (Harbor.project_json proj)) with true
    by (symmetry; apply truthy_dict_cons).
  cbn [negb].
  rewrite bind_unfold, project_json_id, py_inr.
  fold desired. clearbody desired.
  destruct (project_json_metadata proj) as (md & Hmd & Hret).
  rewrite bind_unfold, Hmd, py_inr.
  unfold current_policy.
  destruct (Harbor.retention proj) as [r|] eqn:Hr.
  - destruct Hret as [Hin Hget].
    rewrite bind_unfold, Hin, py_inr.
    rewrite bind_unfold, Hget, py_inr.
    destruct (Hwf r eq_refl) as [pol Hpol].
    unfold Retention.compare.
    rewrite bind_unfold, (harbor_getRetentionPolicy r pol) by done.
    rewrite bind_unfold, (json_of_ok _ pol) by done.
    cbn [mbind option_bind]. rewrite Hpol.
    destruct (negb (Retention.force p) && bool_decide (pol = desired))
      eqn:Hb.
    + apply andb_true_iff in Hb as [_ Hb]. apply bool_decide_eq_true in Hb.
      eexists _, _, proj, r.
      split; [reflexivity|]. split; [|by subst].
      rewrite bool_decide_eq_false_2; [done|]. intros Hne. apply Hne.
      by subst.
    + rewrite Hc.
      rewrite (@retention_apply_change_eq Harbor.env _ _ _ _ _
                 (Harbor.no_content 200) (put_policy r desired s)
                 (Harbor.ok desired) (put_policy r desired s) desired).
      * eexists _, _, proj, r. split; [reflexivity|]. split.
        { destruct (decide (pol = desired)) as [->|Hne].
          - by rewrite !bool_decide_eq_false_2
              by (intros Hne; by apply Hne).
          - by rewrite !bool_decide_eq_true_2 by congruence. }
        split; [done|]. split; [done|]. split; [done|].
        cbn [registry after_request put_policy Harbor.policies].
        apply lookup_insert_eq.
      * cbn [handle Harbor.env registry after_request].
        unfold Harbor.harbor_handle. by rewrite Hpol.
      * by left.
      * cbn [handle Harbor.env]. unfold Harbor.harbor_handle.
        cbn [put_policy Harbor.policies]. by rewrite lookup_insert_eq.
      * done.
      * done.
  - rewrite bind_unfold, Hret, py_inr.
    unfold Retention.create. rewrite Hc.
    rewrite bind_unfold.
    rewrite (@request_at Harbor.env _ _ (Harbor.no_content 201)
               (create_policy (Harbor.id proj) desired s)).
    2:{ cbn [handle Harbor.env registry after_request].
        unfold Harbor.harbor_handle.
        rewrite Hscope. rewrite bool_decide_eq_true_2; [done|].
        apply list_elem_of_fmap. exists proj. split; [done|].
        by eapply find_project_elem. }
    rewrite bind_unfold, errorHandlingPostOrPutRequest_ok by (by right).
    rewrite bind_unfold, harbor_getProjectByName.
    cbn [registry after_request].
    rewrite (find_project_create _ _ _ _ proj Hfind eq_refl).
    cbn [from_option].
    match goal with
    | |- context [Harbor.project_json ?q] =>
        destruct (project_json_metadata q) as (md' & Hmd' & [_ Hget'])
    end.
    rewrite bind_unfold, Hmd', py_inr.
    rewrite bind_unfold, Hget', py_inr.
    rewrite bind_unfold, (harbor_getRetentionPolicy _ desired)
      by apply lookup_insert_eq.
    rewrite bind_unfold, (json_of_ok _ desired) by done.
    eexists _, _, _, _. split; [reflexivity|].
    split; [by rewrite bool_decide_eq_true_2|].
    cbn [registry after_request].
    split; [by apply find_project_create|].
    split; [done|]. split; [done|]. apply lookup_insert_eq.
Qed.

End RetentionTwice.

Section RulesTwice.
Local Existing Instance Harbor.env.

Lemma filter_fmap {X Y} (f : X → Y) (P : Y → Prop) `{∀ y, Decision (P y)}
    (l : list X) :
  filter P (f <$> l) = f <$> filter (λ x, P (f x)) l.
Proof.
  induction l as [|x l IH]; [done|].
  rewrite fmap_cons, !filter_cons. case_decide; by rewrite IH.
Qed.

Lemma filter_ext_elem {X} (P Q : X → Prop)
    `{∀ x, Decision (P x), ∀ x, Decision (Q x)} (l : list X) :
  (∀ x, x ∈ l → P x ↔ Q x) → filter P l = filter Q l.
Proof.
  induction l as [|x l IH]; intros HPQ; [done|].
  rewrite !filter_cons.
  assert (filter P l = filter Q l) as ->
    by (apply IH; intros y Hy; apply HPQ, elem_of_cons; by right).
  assert (P x ↔ Q x) as Hx by (apply HPQ, elem_of_cons; by left).
  repeat case_decide; tauto.
Qed.

Lemma filter_all {X} (P : X → Prop) `{∀ x, Decision (P x)} (l : list X) :
  (∀ x, x ∈ l → P x) → filter P l = l.
Proof.
  induction l as [|x l IH]; intros HP; [done|].
  rewrite filter_cons_True by (apply HP, elem_of_cons; by left).
  by rewrite IH by (intros y Hy; apply HP, elem_of_cons; by right).
Qed.

Lemma mapM_compose {X Y Z} (f : Y → Py.Exn + Z) (h : X → Y) (l : list X) :
  mapM f (h <$> l) = mapM (λ x, f (h x)) l.
Proof.
  induction l as [|x l IH]; [done|]. rewrite fmap_cons. cbn [mapM].
  by rewrite IH.
Qed.

(** The canonical form of a stored rule, as the registry returns it. *)
Lemma canonical_item_rule pid r :
  canonical_item (JNum pid) (Harbor.rule_json r) =
  inr (canon pid (Harbor.rule_body r), JNum (Harbor.rule_id r)).
Proof.
  unfold canonical_item, Harbor.rule_json, canon. cbn [Py.pop].
  rewrite lookup_insert_eq. cbn [mbind Exn_bind fst snd Py.setitem].
  by rewrite delete_insert_eq.
Qed.

Lemma harbor_tag_fetch pid (w : World) :
  TagImmutability.fetch (JNum pid) w =
  (inr (JList (current_rules pid (registry w)),
        current_ids pid (registry w)),
   after_request w (GET (ImmutableTagRules (JNum pid))) (registry w)).
Proof.
  unfold TagImmutability.fetch. rewrite bind_unfold.
  rewrite (@getTagImmutabilityList_ok Harbor.env _ _
             (Harbor.ok (JList (Harbor.rule_json <$>
                                rules_of pid (registry w))))
             (registry w)) by done.
  rewrite bind_unfold.
  rewrite (json_of_ok _ (JList (Harbor.rule_json <$>
                                rules_of pid (registry w)))) by done.
  rewrite canonical_list, mapM_compose.
  rewrite (mapM_fmap _ (λ x, (canon pid (Harbor.rule_body x),
                              JNum (Harbor.rule_id x))))
    by (intros x _; apply canonical_item_rule).
  unfold current_rules, current_ids.
  cbn [mbind Exn_bind]. rewrite <-!list_fmap_compose. reflexivity.
Qed.

(** A desired rule is its own canonical form. *)
Lemma desired_item_canon o pid b :
  TagImmutability.createDesiredTagImmutability o (JNum pid) = inr b →
  ∃ d, b = JDict d ∧ canon pid d = JDict d.
Proof.
  unfold TagImmutability.createDesiredTagImmutability.
  destruct (TagImmutability.field o "repository" "kind") as [e|rk].
  { intros [=]. }
  cbn [mbind Exn_bind].
  destruct (TagImmutability.field o "repository" "pattern") as [e|rp].
  { intros [=]. }
  cbn [mbind Exn_bind].
  destruct (TagImmutability.field o "tag" "kind") as [e|tk].
  { intros [=]. }
  cbn [mbind Exn_bind].
  destruct (TagImmutability.field o "tag" "pattern") as [e|tp].
  { intros [=]. }
  cbn [mbind Exn_bind mret Exn_ret]. intros [= <-].
  unfold dict at 1. cbn [list_to_map foldr fst snd].
  eexists. split; [reflexivity|]. unfold canon. apply (f_equal JDict).
  rewrite delete_id
    by (rewrite !lookup_insert_ne by done; apply lookup_empty).
  rewrite (insert_id _ "project_id")
    by (rewrite !lookup_insert_ne by done; apply lookup_insert_eq).
  rewrite (insert_id _ "priority")
    by (rewrite !lookup_insert_ne by done; apply lookup_insert_eq).
  apply insert_id, lookup_insert_eq.
Qed.

Lemma desired_list_canon p pid B :
  TagImmutability.createDesiredTagImmutabilityList p (JNum pid) = inr B →
  ∃ ds, B = JDict <$> ds ∧ Forall (λ d, canon pid d = JDict d) ds.
Proof.
  unfold TagImmutability.createDesiredTagImmutabilityList.
  intros HB. apply mapM_inv in HB.
  induction HB as [|o b os B Hb _ (ds & -> & Hds)].
  { by exists []. }
  apply desired_item_canon in Hb as (d & -> & Hd).
  exists (d :: ds). split; [done|]. by constructor.
Qed.

(** The POSTs of a list of rules against the reference registry. *)
Lemma harbor_create ds pid result (w : World) :
  ∃ w', TagImmutability.createTagImmutabilities
          (JDict <$> ds) (JNum pid) result w = (inr (), w') ∧
        registry w' = foldl (post_rule pid) (registry w) ds.
Proof.
  revert w. induction ds as [|d ds IH]; intros w.
  { by exists w. }
  rewrite fmap_cons. cbn [TagImmutability.createTagImmutabilities].
  rewrite bind_unfold.
  rewrite (@request_at Harbor.env _ _ (Harbor.no_content 201)
             (post_rule pid (registry w) d)) by reflexivity.
  rewrite bind_unfold.
  change (check (errorHandlingHttpRequest (Harbor.no_content 201) result))
    with (check None).
  rewrite check_None. apply IH.
Qed.

(** The DELETEs of a list of identifiers. *)
Lemma harbor_delete rids pid result (w : World) :
  ∃ w', TagImmutability.deleteTagImmutabilities
          (JNum <$> rids) (JNum pid) result w = (inr (), w') ∧
        registry w' = foldl (delete_rule pid) (registry w) rids.
Proof.
  revert w. induction rids as [|rid rids IH]; intros w.
  { by exists w. }
  rewrite fmap_cons. cbn [TagImmutability.deleteTagImmutabilities].
  rewrite bind_unfold.
  rewrite (@request_at Harbor.env _ _ (Harbor.no_content 200)
             (delete_rule pid (registry w) rid)) by reflexivity.
  rewrite bind_unfold.
  change (check (errorHandlingHttpRequest (Harbor.no_content 200) result))
    with (check None).
  rewrite check_None. apply IH.
Qed.

(** The registry after the POSTs: the new rules come last, with the posted
    bodies and with identifiers not used before. *)
Lemma post_rules_spec ds pid s :
  ∃ news,
    Harbor.rules (foldl (post_rule pid) s ds) = Harbor.rules s ++ news ∧
    Harbor.rule_body <$> news = ds ∧
    Forall (λ r, Harbor.rule_project r = pid ∧
                 Harbor.next_id s ≤ Harbor.rule_id r) news.
Proof.
  revert s. induction ds as [|d ds IH]; intros s.
  { exists []. by rewrite app_nil_r. }
  cbn [foldl]. destruct (IH (post_rule pid s d)) as (news & Hr & Hb & Hn).
  exists (Harbor.mkRule pid (Harbor.next_id s) d :: news).
  rewrite Hr. cbn [post_rule Harbor.rules]. rewrite <-app_assoc.
  split; [done|]. split; [by rewrite fmap_cons, Hb|].
  constructor; [done|]. eapply Forall_impl; [exact Hn|].
  cbn [post_rule Harbor.next_id]. intros r [? ?]. split; [done|lia].
Qed.

(** The registry after the DELETEs. *)
Lemma delete_rules_spec rids pid s :
  Harbor.rules (foldl (delete_rule pid) s rids) =
  filter (λ r, ¬ (Harbor.rule_project r = pid ∧ Harbor.rule_id r ∈ rids))
         (Harbor.rules s).
Proof.
  revert s. induction rids as [|rid rids IH]; intros s.
  { cbn [foldl]. symmetry. apply filter_all. intros r _ [_ Hin].
    by apply elem_of_nil in Hin. }
  cbn [foldl]. rewrite IH. cbn [delete_rule Harbor.rules].
  rewrite list_filter_filter. apply list_filter_iff. intros r.
  rewrite elem_of_cons. tauto.
Qed.

Lemma NoDup_fmap_elem_inj {X Y} (f : X → Y) (l : list X) x y :
  NoDup (f <$> l) → x ∈ l → y ∈ l → f x = f y → x = y.
Proof.
  induction l as [|z l IH]; intros Hnd Hx Hy Hf.
  { by apply elem_of_nil in Hx. }
  rewrite fmap_cons in Hnd. apply NoDup_cons in Hnd as [Hz Hnd].
  apply elem_of_cons in Hx as [->|Hx]; apply elem_of_cons in Hy as [->|Hy].
  - done.
  - exfalso. apply Hz. rewrite Hf. apply list_elem_of_fmap. eauto.
  - exfalso. apply Hz. rewrite <-Hf. apply list_elem_of_fmap. eauto.
  - by apply IH.
Qed.

(** The rule list is unchanged by "keep what is desired, append what is
    missing" exactly when nothing is missing and nothing is stale. *)
Lemma settled_iff (A B : list json) :
  A = filter (λ a, a ∈ B) A ++ filter (λ b, b ∉ A) B ↔
  (∀ b, b ∈ B → b ∈ A) ∧ (∀ a, a ∈ A → a ∈ B).
Proof.
  split.
  - intros HA.
    assert (filter (λ b, b ∉ A) B = []) as HG.
    { destruct (filter (λ b, b ∉ A) B) as [|g G] eqn:HG; [done|].
      exfalso.
      assert (g ∈ filter (λ b, b ∉ A) B) as Hg
        by (rewrite HG; apply elem_of_cons; by left).
      apply list_elem_of_filter in Hg as [Hg _]. apply Hg.
      rewrite HA. apply elem_of_app. right. apply elem_of_cons. by left. }
    rewrite HG, app_nil_r in HA. split.
    + intros b Hb. destruct (decide (b ∈ A)) as [|Hn]; [done|]. exfalso.
      assert (b ∈ filter (λ b, b ∉ A) B) as Hin
        by (by apply list_elem_of_filter).
      rewrite HG in Hin. by apply elem_of_nil in Hin.
    + intros a Ha. rewrite HA in Ha.
      by apply list_elem_of_filter in Ha as [? _].
  - intros [HB HA]. rewrite (filter_all (λ a, a ∈ B)) by done.
    assert (filter (λ b, b ∉ A) B = []) as ->.
    { destruct (filter (λ b, b ∉ A) B) as [|g G] eqn:HG; [done|].
      exfalso.
      assert (g ∈ filter (λ b, b ∉ A) B) as Hg
        by (rewrite HG; apply elem_of_cons; by left).
      apply list_elem_of_filter in Hg as [Hg Hin]. by apply Hg, HB. }
    by rewrite app_nil_r.
Qed.

(** The rules of the project after the apply: the current rules that are
    desired, followed by the desired rules that were missing. *)
Lemma rules_after_apply pid s (B : list json) (dadds : list (gmap string json)) :
  wf_rules s →
  current_rules pid
    (foldl (delete_rule pid) (foldl (post_rule pid) s dadds)
       (Harbor.rule_id <$>
        filter (λ r, canon pid (Harbor.rule_body r) ∉ B) (rules_of pid s)))
  = filter (λ a, a ∈ B) (current_rules pid s) ++ (canon pid <$> dadds).
Proof.
  intros [Hnd Hlt].
  set (rs := rules_of pid s).
  set (rids := Harbor.rule_id <$>
               filter (λ r, canon pid (Harbor.rule_body r) ∉ B) rs).
  unfold current_rules at 1. unfold rules_of at 1.
  rewrite delete_rules_spec.
  destruct (post_rules_spec dadds pid s) as (news & -> & Hbody & Hnews).
  rewrite list_filter_filter, filter_app, fmap_app. f_equal.
  - unfold current_rules. fold rs.
    rewrite (filter_fmap _ (λ a, a ∈ B)). f_equal.
    unfold rs, rules_of. rewrite list_filter_filter.
    apply filter_ext_elem. intros r Hr. split.
    + intros [Hp Hq]. split; [|done].
      destruct (decide (canon pid (Harbor.rule_body r) ∈ B)) as [|Hn];
        [done|].
      exfalso. apply Hq. split; [done|]. apply list_elem_of_fmap.
      exists r. split; [done|]. apply list_elem_of_filter. split; [done|].
      by apply list_elem_of_filter.
    + intros [HB Hp]. split; [done|]. intros [_ Hin].
      apply list_elem_of_fmap in Hin as (r' & Hid & Hr').
      apply list_elem_of_filter in Hr' as [Hstale Hr'].
      apply list_elem_of_filter in Hr' as [_ Hr'].
      assert (r = r') as <- by (by eapply NoDup_fmap_elem_inj).
      done.
  - rewrite <-Hbody, <-list_fmap_compose. f_equal.
    apply filter_all. intros r Hr. rewrite Forall_forall in Hnews.
    destruct (Hnews r Hr) as [Hp Hge]. split; [done|]. intros [_ Hin].
    apply list_elem_of_fmap in Hin as (r' & Hid & Hr').
    apply list_elem_of_filter in Hr' as [_ Hr'].
    apply list_elem_of_filter in Hr' as [_ Hr'].
    rewrite Forall_forall in Hlt. specialize (Hlt r' Hr'). lia.
Qed.

Lemma zip_fmap_same {X Y Z} (f : X → Y) (g : X → Z) (l : list X) :
  zip (f <$> l) (g <$> l) = (λ x, (f x, g x)) <$> l.
Proof. induction l as [|x l IH]; [done|]. by rewrite !fmap_cons, <-IH. Qed.

Lemma filter_nil_iff {X} (P : X → Prop) `{∀ x, Decision (P x)} (l : list X) :
  filter P l = [] ↔ ∀ x, x ∈ l → ¬ P x.
Proof.
  split.
  - intros Hnil x Hx HP.
    assert (x ∈ filter P l) as Hin by (by apply list_elem_of_filter).
    rewrite Hnil in Hin. by apply elem_of_nil in Hin.
  - intros Hall. destruct (filter P l) as [|y k] eqn:Hf; [done|]. exfalso.
    assert (y ∈ filter P l) as Hin
      by (rewrite Hf; apply elem_of_cons; by left).
    apply list_elem_of_filter in Hin as [HP Hy]. by apply (Hall y).
Qed.

(** The identifiers the differ hands to the DELETEs, for the rule list as
    the reference registry returns it. *)
Lemma harbor_delete_ids pid s (B : list json) :
  (filter (λ ci, ci.1 ∉ B)
          (zip (current_rules pid s) (current_ids pid s))).*2 =
  JNum <$> (Harbor.rule_id <$>
            filter (λ r, canon pid (Harbor.rule_body r) ∉ B)
                   (rules_of pid s)).
Proof.
  unfold current_rules, current_ids. rewrite zip_fmap_same.
  rewrite (filter_fmap _ (λ ci, ci.1 ∉ B)).
  by rewrite <-!list_fmap_compose.
Qed.

Lemma projects_foldl_post pid ds s :
  Harbor.projects (foldl (post_rule pid) s ds) = Harbor.projects s.
Proof.
  revert s. induction ds as [|d ds IH]; intros s; [done|].
  cbn [foldl]. by rewrite IH.
Qed.

Lemma projects_foldl_delete pid rids s :
  Harbor.projects (foldl (delete_rule pid) s rids) = Harbor.projects s.
Proof.
  revert s. induction rids as [|d rids IH]; intros s; [done|].
  cbn [foldl]. by rewrite IH.
Qed.

(** The apply of the rule list against the reference registry. *)
Lemma harbor_tag_apply_change ds pid result (w : World) :
  Forall (λ d, canon pid d = JDict d) ds →
  wf_rules (registry w) →
  let A := current_rules pid (registry w) in
  let B := JDict <$> ds in
  let A' := filter (λ a, a ∈ B) A ++ filter (λ b, b ∉ A) B in
  ∃ w', TagImmutability.apply_change
          B (JList A) (current_ids pid (registry w)) (JNum pid) result w =
        (inl (Exit (if bool_decide (JList A ≠ JList A')
                    then setChanges (JList A) (JList A') result
                    else set_changed false result)), w') ∧
        current_rules pid (registry w') = A' ∧
        Harbor.projects (registry w') = Harbor.projects (registry w).
Proof.
  intros Hds Hwf A B A'.
  assert (filter (λ b, b ∉ A) B =
          JDict <$> filter (λ d, JDict d ∉ A) ds) as Hadds
    by exact (filter_fmap JDict (λ b, b ∉ A) ds).
  destruct (harbor_create (filter (λ d, JDict d ∉ A) ds) pid result w)
    as (w1 & Hcreate & Hs1).
  destruct (harbor_delete
              (Harbor.rule_id <$>
               filter (λ r, canon pid (Harbor.rule_body r) ∉ B)
                      (rules_of pid (registry w))) pid result w1)
    as (w2 & Hdelete & Hs2).
  assert (current_rules pid (registry w2) = A') as Hafter.
  { rewrite Hs2, Hs1, rules_after_apply by done. unfold A'. f_equal.
    rewrite Hadds. apply Forall_fmap_ext_1, Forall_forall.
    intros d Hd. apply list_elem_of_filter in Hd as [_ Hd].
    rewrite Forall_forall in Hds. by apply Hds. }
  exists (after_request w2 (GET (ImmutableTagRules (JNum pid)))
                        (registry w2)).
  split; [|split].
  - rewrite (tag_apply_change_eq A B _ _ _ w w1 w2
               (JList (current_rules pid (registry w2)),
                current_ids pid (registry w2))
               (after_request w2 (GET (ImmutableTagRules (JNum pid)))
                              (registry w2))).
    + cbn [fst]. by rewrite Hafter.
    + unfold A, current_rules, current_ids. by rewrite !length_fmap.
    + by rewrite Hadds.
    + unfold A. by rewrite harbor_delete_ids.
    + apply harbor_tag_fetch.
  - done.
  - cbn [registry after_request].
    by rewrite Hs2, Hs1, projects_foldl_delete, projects_foldl_post.
Qed.

(** The run of the rule module against the reference registry, up to the
    comparison. *)
Lemma harbor_tag_main p (s : Harbor.State) proj B :
  find_project (TagImmutability.project p) s = Some proj →
  TagImmutability.createDesiredTagImmutabilityList p (JNum (Harbor.id proj))
    = inr B →
  run (TagImmutability.main p) s =
  match TagImmutability.compare p B
          (JList (current_rules (Harbor.id proj) s))
          (current_ids (Harbor.id proj) s) (JNum (Harbor.id proj))
          initial_result
          (after_request
             (after_request (start s)
                (GET (ProjectsByName (TagImmutability.project p))) s)
             (GET (ImmutableTagRules (JNum (Harbor.id proj)))) s)
  with
  | (inl st, w') => (st, w')
  | (inr e, _) => match e with end
  end.
Proof.
  intros Hfind HB. unfold run. fold (start s).
  unfold TagImmutability.main.
  rewrite bind_unfold, harbor_getProjectByName. cbn [registry start].
  rewrite Hfind. cbn [from_option].
  replace (Py.truthy (Harbor.project_json proj)) with true
    by (symmetry; apply truthy_dict_cons).
  cbn [negb].
  rewrite bind_unfold, project_json_id, py_inr.
  rewrite bind_unfold, HB, py_inr.
  rewrite bind_unfold, harbor_tag_fetch. reflexivity.
Qed.

(** One apply of the rule module: it reports a change exactly when a
    desired rule was missing or a current rule was not desired, and leaves
    the project with the desired rules and no others. *)
Lemma harbor_tag_apply p (s : Harbor.State) proj B :
  TagImmutability.check_mode p = false →
  find_project (TagImmutability.project p) s = Some proj →
  TagImmutability.createDesiredTagImmutabilityList p (JNum (Harbor.id proj))
    = inr B →
  wf_rules s →
  let A := current_rules (Harbor.id proj) s in
  ∃ r1 w1,
    run (TagImmutability.main p) s = (Exit r1, w1) ∧
    (changed r1 = true ↔
     filter (λ b, b ∉ A) B ≠ [] ∨ filter (λ a, a ∉ B) A ≠ []) ∧
    find_project (TagImmutability.project p) (registry w1) = Some proj ∧
    (∀ b, b ∈ B → b ∈ current_rules (Harbor.id proj) (registry w1)) ∧
    (∀ a, a ∈ current_rules (Harbor.id proj) (registry w1) → a ∈ B).
Proof.
  intros Hc Hfind HB Hwf A.
  rewrite (harbor_tag_main p s proj B Hfind HB). fold A.
  destruct (desired_list_canon _ _ _ HB) as (ds & -> & Hds).
  unfold TagImmutability.compare.
  destruct (decide (A = JDict <$> ds)) as [HAB|HAB].
  - rewrite bool_decide_eq_true_2 by (by rewrite HAB).
    eexists _, _. split; [reflexivity|]. cbn [registry after_request].
    split; [|split; [done|]].
    + split; [done|]. rewrite <-HAB. intros [Hne|Hne]; exfalso; apply Hne;
        apply filter_nil_iff; intros x Hx Hn; by apply Hn.
    + fold A. rewrite <-HAB. done.
  - rewrite bool_decide_eq_false_2 by (intros [= ?]; done). rewrite Hc.
    match goal with
    | |- context [TagImmutability.apply_change _ _ _ _ _ ?w] =>
        destruct (harbor_tag_apply_change ds (Harbor.id proj)
                    initial_result w Hds Hwf)
          as (w' & Happ & Hcur & Hproj)
    end.
    cbn [registry after_request] in Happ, Hproj. fold A in Happ.
    rewrite Happ. cbn [registry after_request] in Hcur. fold A in Hcur.
    eexists _, _. split; [reflexivity|]. split; [|split; [|split]].
    + case_bool_decide as Hchg.
      * split; [intros _|done].
        destruct (decide (filter (λ b, b ∉ A) (JDict <$> ds) = []))
          as [Hadds|]; [|by left].
        destruct (decide (filter (λ a, a ∉ JDict <$> ds) A = []))
          as [Hdels|]; [|by right].
        exfalso. apply Hchg. f_equal. rewrite Hadds, app_nil_r.
        symmetry. apply filter_all. intros a Ha.
        rewrite filter_nil_iff in Hdels.
        destruct (decide (a ∈ JDict <$> ds)) as [|Hn]; [done|].
        by destruct (Hdels a Ha).
      * split; [done|]. intros Hdelta. exfalso.
        assert (JList A = JList
                  (filter (λ a, a ∈ JDict <$> ds) A ++
                   filter (λ b, b ∉ A) (JDict <$> ds))) as HA
          by (destruct (decide (JList A = JList
                  (filter (λ a, a ∈ JDict <$> ds) A ++
                   filter (λ b, b ∉ A) (JDict <$> ds)))); [done|];
              by destruct Hchg).
        injection HA as HA. apply settled_iff in HA as [HBA HAB'].
        destruct Hdelta as [Hne|Hne]; apply Hne, filter_nil_iff.
        -- intros b Hb Hn. by apply Hn, HBA.
        -- intros a Ha Hn. by apply Hn, HAB'.
    + unfold find_project in *. by rewrite Hproj.
    + intros b Hb. rewrite Hcur. apply elem_of_app.
      destruct (decide (b ∈ A)); [left|right];
        by apply list_elem_of_filter.
    + intros a Ha. rewrite Hcur in Ha.
      apply elem_of_app in Ha as [Ha|Ha];
        apply list_elem_of_filter in Ha; tauto.
Qed.

(** An apply of the rule module against a project that has the desired
    rules and no others writes nothing and reports no change. *)
Lemma harbor_tag_settled p (s : Harbor.State) proj B :
  TagImmutability.check_mode p = false →
  find_project (TagImmutability.project p) s = Some proj →
  TagImmutability.createDesiredTagImmutabilityList p (JNum (Harbor.id proj))
    = inr B →
  (∀ b, b ∈ B → b ∈ current_rules (Harbor.id proj) s) →
  (∀ a, a ∈ current_rules (Harbor.id proj) s → a ∈ B) →
  ∃ r w, run (TagImmutability.main p) s = (Exit r, w) ∧ changed r = false.
Proof.
  intros Hc Hfind HB HBA HAB.
  rewrite (harbor_tag_main p s proj B Hfind HB).
  set (A := current_rules (Harbor.id proj) s) in *.
  unfold TagImmutability.compare.
  case_bool_decide; [by eexists _, _|]. rewrite Hc.
  match goal with
  | |- context [TagImmutability.apply_change _ _ _ _ _ ?w] =>
      rewrite (tag_apply_change_eq A B _ _ _ w w w
                 (JList A, current_ids (Harbor.id proj) s)
                 (after_request w
                    (GET (ImmutableTagRules (JNum (Harbor.id proj)))) s))
  end.
  - eexists _, _. split; [reflexivity|]. cbn [fst].
    by rewrite bool_decide_eq_false_2 by (intros Hne; by apply Hne).
  - unfold A, current_rules, current_ids. by rewrite !length_fmap.
  - replace (filter (λ d, d ∉ A) B) with (@nil json); [done|].
    symmetry. apply filter_nil_iff. intros b Hb Hn. by apply Hn, HBA.
  - unfold A. rewrite harbor_delete_ids.
    replace (filter (λ r, canon (Harbor.id proj) (Harbor.rule_body r) ∉ B)
                    (rules_of (Harbor.id proj) s)) with (@nil Harbor.Rule);
      [done|].
    symmetry. apply filter_nil_iff. intros r Hr Hn. apply Hn, HAB.
    unfold current_rules. apply list_elem_of_fmap. eauto.
  - apply harbor_tag_fetch.
Qed.

End RulesTwice.

(** * Further properties of the three modules *)

(** ** The schedule module *)

Section ScheduleRuns.
Context `{Env}.

(** [getSchedule] issues its one GET, however it ends. *)
Lemma getSchedule_world w :
  ∃ s', (ScanAll.getSchedule w).2
        = after_request w (GET ScanAllSchedule) s'.
Proof.
  unfold ScanAll.getSchedule. rewrite bind_unfold. unfold request.
  destruct (handle _ (registry w)) as [resp s']. exists s'.
  rewrite bind_unfold.
  case_bool_decide.
  - destruct (content_length resp) as [l|]; [|done].
    unfold mret, M_ret, ret. destruct (bool_decide (l = "0")); [done|].
    rewrite bind_unfold. unfold json_of.
    destruct (body resp) as [v|]; [|done]. unfold ret.
    rewrite bind_unfold. by destruct (Py.getitem v "schedule").
  - unfold mret, M_ret, ret. rewrite bind_unfold. unfold json_of.
    destruct (body resp) as [v|]; [|done]. unfold ret.
    rewrite bind_unfold. by destruct (Py.getitem v "schedule").
Qed.

(** X1.  A run of the schedule module issues one, two or three requests and
    no others: the GET of the schedule; then, when it applies a change, the
    PUT of the desired schedule; then, when the PUT was accepted, the GET
    again.  It never sends a POST or a DELETE and addresses no other path
    than the schedule's. *)
Theorem scanall_trace_shapes (p : ScanAll.Params) (s : Registry) :
  let desired := ScanAll.constructDesired (ScanAll.schedule_cron p)
                                          (ScanAll.param_type p) in
  let t := trace (run (ScanAll.main p) s).2 in
  t = [GET ScanAllSchedule] ∨
  (ScanAll.check_mode p = false ∧
   (t = [GET ScanAllSchedule; PUT ScanAllSchedule desired] ∨
    t = [GET ScanAllSchedule; PUT ScanAllSchedule desired;
         GET ScanAllSchedule])).
Proof.
  intros desired t. unfold t, run. fold (start s).
  rewrite scanall_main_fetch_compare, bind_unfold. fold desired.
  destruct (getSchedule_world (start s)) as [s1 Hw1].
  destruct (ScanAll.getSchedule (start s)) as [[st|before] w1];
    simpl in Hw1; subst w1; [by left|].
  unfold ScanAll.compare. case_bool_decide; [|by left].
  destruct (ScanAll.check_mode p); [by left|]. right. split; [done|].
  rewrite bind_unfold. unfold ScanAll.putSchedule. rewrite bind_unfold.
  destruct (handle (PUT ScanAllSchedule desired) s1) as [presp s2] eqn:Hput.
  rewrite (request_at (PUT ScanAllSchedule desired)
             (after_request (start s) (GET ScanAllSchedule) s1) presp s2 Hput).
  case_bool_decide; [|by left]. right.
  unfold mret, M_ret, ret. rewrite bind_unfold.
  match goal with
  | |- context [ScanAll.getSchedule ?w] =>
      destruct (getSchedule_world w) as [s3 Hw3];
      destruct (ScanAll.getSchedule w) as [[st|after] w3]
  end; simpl in Hw3; subst w3; done.
Qed.

(** X2.  Once the schedule module has sent its PUT and the PUT was answered
    with status 200, it reports a change whatever it reads afterwards: the
    result is [changed = true] with the schedule read before and the one
    read after, also when the two are equal. *)
Theorem scanall_apply_reports_change (p : ScanAll.Params) (s : Registry)
    before w presp s1 after w2 :
  let desired := ScanAll.constructDesired (ScanAll.schedule_cron p)
                                          (ScanAll.param_type p) in
  ScanAll.check_mode p = false →
  ScanAll.getSchedule (start s) = (inr before, w) →
  desired ≠ before →
  handle (PUT ScanAllSchedule desired) (registry w) = (presp, s1) →
  status_code presp = 200 →
  ScanAll.getSchedule (after_request w (PUT ScanAllSchedule desired) s1)
    = (inr after, w2) →
  run (ScanAll.main p) s =
  (Exit {| changed := true; diff := Some (before, after);
           retention_policy := None |}, w2).
Proof.
  intros desired Hc Hget Hne Hput H200 Hafter. apply run_stop.
  rewrite scanall_main_fetch_compare, bind_unfold, Hget. fold desired.
  unfold ScanAll.compare. rewrite bool_decide_eq_true_2, Hc by done.
  rewrite bind_unfold. unfold ScanAll.putSchedule.
  rewrite bind_unfold, (request_at _ _ _ _ Hput).
  rewrite bool_decide_eq_true_2 by done. unfold mret, M_ret, ret.
  by rewrite bind_unfold, Hafter.
Qed.

(** X3.  A PUT of the schedule answered with any status other than 200, a
    201 included, ends the run with the message made from the response;
    the schedule is not read again. *)
Theorem scanall_put_rejected (p : ScanAll.Params) (s : Registry)
    before w presp s1 :
  let desired := ScanAll.constructDesired (ScanAll.schedule_cron p)
                                          (ScanAll.param_type p) in
  ScanAll.check_mode p = false →
  ScanAll.getSchedule (start s) = (inr before, w) →
  desired ≠ before →
  handle (PUT ScanAllSchedule desired) (registry w) = (presp, s1) →
  status_code presp ≠ 200 →
  run (ScanAll.main p) s =
  (Fail (MsgParsed (requestParse presp)) None,
   after_request w (PUT ScanAllSchedule desired) s1).
Proof.
  intros desired Hc Hget Hne Hput H200. apply run_stop.
  rewrite scanall_main_fetch_compare, bind_unfold, Hget. fold desired.
  unfold ScanAll.compare. rewrite bool_decide_eq_true_2, Hc by done.
  rewrite bind_unfold. unfold ScanAll.putSchedule.
  rewrite bind_unfold, (request_at _ _ _ _ Hput).
  by rewrite bool_decide_eq_false_2.
Qed.

(** X4.  A schedule answered with status 200 and without a
    [content-length] header ends the run with an uncaught [KeyError]: the
    header is indexed, not looked up with a default.  Nothing is compared
    and nothing is written, in check mode or not. *)
Theorem scanall_missing_header_raises (p : ScanAll.Params) (s : Registry)
    resp s' :
  handle (GET ScanAllSchedule) s = (resp, s') →
  status_code resp = 200 →
  content_length resp = None →
  run (ScanAll.main p) s =
  (Crash (Py.KeyError "content-length"),
   after_request (start s) (GET ScanAllSchedule) s').
Proof.
  intros Hh H200 Hl. apply run_stop.
  rewrite scanall_main_fetch_compare, bind_unfold.
  unfold ScanAll.getSchedule.
  rewrite bind_unfold, (request_at _ (start s) _ _ Hh), bind_unfold.
  by rewrite bool_decide_eq_true_2, Hl.
Qed.

End ScheduleRuns.

(** The registry that stores nothing: no schedule is read before the PUT
    and none after it, and the run reports a change from nothing to
    nothing. *)
Lemma scanall_apply_reports_change_witness :
  let s := (Example.fresh : @Registry Frozen.env) in
  let desired := ScanAll.constructDesired "0 0 0 * * 0" "Custom" in
  let w := after_request (start s) (GET ScanAllSchedule) s in
  let w1 := after_request w (PUT ScanAllSchedule desired) s in
  @run Frozen.env (ScanAll.main (Example.weekly false)) s =
  (Exit {| changed := true; diff := Some (dict [], dict []);
           retention_policy := None |},
   after_request w1 (GET ScanAllSchedule) s).
Proof.
  intros s desired w w1.
  apply (@scanall_apply_reports_change Frozen.env (Example.weekly false) s
           (dict []) w (Harbor.no_content 200) s (dict [])
           (after_request w1 (GET ScanAllSchedule) s)).
  - reflexivity.
  - reflexivity.
  - apply constructDesired_not_empty.
  - reflexivity.
  - reflexivity.
  - reflexivity.
Defined.

(** The account may read and not write: the PUT is answered with 403. *)
Lemma scanall_put_rejected_witness :
  let s := (Example.fresh : @Registry ReadOnly.env) in
  let desired := ScanAll.constructDesired "0 0 0 * * 0" "Custom" in
  let w := after_request (start s) (GET ScanAllSchedule) s in
  @run ReadOnly.env (ScanAll.main (Example.weekly false)) s =
  (Fail (MsgParsed "forbidden") None,
   after_request w (PUT ScanAllSchedule desired) s).
Proof.
  intros s desired w.
  apply (@scanall_put_rejected ReadOnly.env (Example.weekly false) s
           (dict []) w (Harbor.error 403 "forbidden") s).
  - reflexivity.
  - reflexivity.
  - apply constructDesired_not_empty.
  - reflexivity.
  - cbn. lia.
Defined.

(** The answer of the registry behind the proxy. *)
Lemma scanall_missing_header_raises_witness :
  @run Chunked.env (ScanAll.main (Example.weekly true)) () =
  (Crash (Py.KeyError "content-length"),
   @after_request Chunked.env (@start Chunked.env ()) (GET ScanAllSchedule) ()).
Proof.
  apply (@scanall_missing_header_raises Chunked.env (Example.weekly true) ()
           (Chunked.chunked_handle (GET ScanAllSchedule) ()).1 ());
    reflexivity.
Defined.

(** ** The retention module *)

Section RetentionRuns.
Context `{Env}.

Lemma py_value {A} (a : A) (w : World) : py (inr a) w = (inr a, w).
Proof. reflexivity. Qed.

Lemma py_raise {A} (e : Py.Exn) (w : World) :
  py (A := A) (inl e) w = (inl (Crash e), w).
Proof. reflexivity. Qed.

(** What follows the write of the update path issues only reads. *)
Lemma issues_retention_after_put rid before result resp :
  issues (A := Empty_set) reads
    (Retention.errorHandlingPostOrPutRequest resp result;;
     after_request ← Retention.getRetentionPolicy rid;
     after ← json_of after_request;
     if bool_decide (before ≠ after)
     then exit_json (setChanges before after result)
     else exit_json result).
Proof.
  pose proof issues_getRetentionPolicy.
  pose proof (issues_errorHandlingPostOrPutRequest reads).
  issues_auto.
Qed.

(** What follows the write of the create path issues only reads. *)
Lemma issues_retention_after_post p result resp :
  issues (A := Empty_set) reads
    (Retention.errorHandlingPostOrPutRequest resp result;;
     project' ← getProjectByName (Retention.project p);
     metadata ← py (Py.getitem project' "metadata");
     project_retention_id ← py (Py.getitem metadata "retention_id");
     after_request ← Retention.getRetentionPolicy project_retention_id;
     after ← json_of after_request;
     exit_json (set_changed true (set_retention_policy after result))).
Proof.
  pose proof issues_getRetentionPolicy.
  pose proof (issues_errorHandlingPostOrPutRequest reads).
  issues_auto.
Qed.

(** X5.  A retention run sends at most one write.  Either its whole trace
    is reads; or it is not in check mode, the reads up to the comparison
    succeeded, and the trace is these reads, then the one write of the
    desired policy (the PUT under the identifier the project names, or the
    POST when it names none), then reads.  No run sends a DELETE, and none
    writes twice. *)
Theorem retention_one_write (p : Retention.Params) (s : Registry) :
  let t := trace (run (Retention.main p) s).2 in
  Forall reads t ∨
  ∃ x w t2,
    Retention.check_mode p = false ∧
    Retention.fetch p (start s) = (inr x, w) ∧
    Forall reads (trace w) ∧
    t = trace w ++ retention_write x :: t2 ∧
    Forall reads t2.
Proof.
  intros t. unfold t, run. fold (start s).
  rewrite retention_main_fetch_decide, bind_unfold.
  destruct (issues_retention_fetch p (start s)) as (t1 & Ht1 & Hr1).
  destruct (Retention.fetch p (start s)) as [[st|x] w] eqn:Hf;
    cbn [fst snd] in *; simpl in Ht1.
  { left. by rewrite Ht1. }
  destruct (Retention.check_mode p) eqn:Hc.
  { left.
    destruct (issues_retention_decide_check p x Hc w) as (t2 & Ht2 & Hr2).
    destruct (Retention.decide p x w) as [[st|[]] w2]. cbn [fst snd] in *.
    rewrite Ht2, Ht1. by apply Forall_app. }
  destruct (Retention.delta p x) eqn:Hd; cycle 1.
  { left.
    destruct (issues_retention_decide_same p x Hd w) as (t2 & Ht2 & Hr2).
    destruct (Retention.decide p x w) as [[st|[]] w2]. cbn [fst snd] in *.
    rewrite Ht2, Ht1. by apply Forall_app. }
  right. exists x, w.
  assert (∃ t2, trace (Retention.decide p x w).2
                = trace w ++ retention_write x :: t2 ∧ Forall reads t2)
    as (t2 & Ht2 & Hr2).
  { unfold Retention.decide, retention_write, Retention.delta in *.
    destruct (Retention.current x) as [[rid before]|].
    - replace (negb (Retention.force p)
               && bool_decide (before = Retention.desired x)) with false.
      2:{ symmetry. apply orb_true_iff in Hd as [->|Hd]; [done|].
          apply bool_decide_eq_true in Hd.
          rewrite (bool_decide_eq_false_2 _ Hd). apply andb_false_r. }
      rewrite Hc. unfold Retention.apply_change. rewrite bind_unfold.
      unfold request at 1.
      destruct (handle _ (registry w)) as [resp s1].
      match goal with
      | |- context [?m {| registry := s1; trace := ?tr |}] =>
          destruct (issues_retention_after_put rid before initial_result resp
                      {| registry := s1; trace := tr |}) as (t2 & Ht2 & Hr2)
      end.
      exists t2. split; [|done]. rewrite Ht2. cbn [trace].
      by rewrite <- app_assoc.
    - unfold Retention.create. rewrite Hc, bind_unfold.
      unfold request at 1.
      destruct (handle _ (registry w)) as [resp s1].
      match goal with
      | |- context [?m {| registry := s1; trace := ?tr |}] =>
          destruct (issues_retention_after_post p initial_result resp
                      {| registry := s1; trace := tr |}) as (t2 & Ht2 & Hr2)
      end.
      exists t2. split; [|done]. rewrite Ht2. cbn [trace].
      by rewrite <- app_assoc. }
  exists t2. split; [done|]. split; [done|].
  split; [by rewrite Ht1|].
  destruct (Retention.decide p x w) as [[st|[]] w2]. cbn [fst snd] in *.
  by split.
Qed.

(** X6.  A write of the retention module (the PUT of the update path or
    the POST of the create path) answered with a status other than 200 and
    201 ends the run there: no request follows the write, and the failure
    carries the fixed message and the result, with [changed = false], for
    401, 403 and 500, and for every other status the message made of the
    status and the response text, without the result. *)
Theorem retention_write_rejected (p : Retention.Params)
    (x : Retention.Fetched) (w : World) resp s' :
  Retention.check_mode p = false →
  Retention.delta p x = true →
  handle (retention_write x) (registry w) = (resp, s') →
  status_code resp ≠ 200 →
  status_code resp ≠ 201 →
  ∃ m r,
    Retention.decide p x w =
      (inl (Fail m r), after_request w (retention_write x) s') ∧
    (status_code resp = 401 →
     m = MsgText "User need to log in first." ∧ r = Some initial_result) ∧
    (status_code resp = 403 →
     m = MsgText "User does not have permission of admin role." ∧
     r = Some initial_result) ∧
    (status_code resp = 500 →
     m = MsgText "Unexpected internal errors." ∧ r = Some initial_result) ∧
    (status_code resp ∉ [401; 403; 500] →
     m = MsgUnknownStatus (status_code resp) (text resp) ∧ r = None).
Proof.
  intros Hc Hd Hh H200 H201.
  assert (∃ m r,
            Retention.errorHandlingPostOrPutRequest resp initial_result
              (after_request w (retention_write x) s') =
            (inl (Fail m r), after_request w (retention_write x) s') ∧
            (status_code resp = 401 →
             m = MsgText "User need to log in first." ∧
             r = Some initial_result) ∧
            (status_code resp = 403 →
             m = MsgText "User does not have permission of admin role." ∧
             r = Some initial_result) ∧
            (status_code resp = 500 →
             m = MsgText "Unexpected internal errors." ∧
             r = Some initial_result) ∧
            (status_code resp ∉ [401; 403; 500] →
             m = MsgUnknownStatus (status_code resp) (text resp) ∧
             r = None)) as (m & r & He & Hm).
  { unfold Retention.errorHandlingPostOrPutRequest. cbv zeta.
    case_bool_decide as Hok; [destruct Hok; congruence|].
    repeat case_bool_decide; eexists _, _; (split; [reflexivity|]);
      repeat split; intros;
      first [reflexivity | lia | exfalso; set_solver]. }
  exists m, r. split; [|exact Hm].
  unfold Retention.decide, retention_write, Retention.delta in *.
  destruct (Retention.current x) as [[rid before]|].
  - replace (negb (Retention.force p)
             && bool_decide (before = Retention.desired x)) with false.
    2:{ symmetry. apply orb_true_iff in Hd as [->|Hd]; [done|].
        apply bool_decide_eq_true in Hd.
        rewrite (bool_decide_eq_false_2 _ Hd). apply andb_false_r. }
    rewrite Hc. unfold Retention.apply_change.
    by rewrite bind_unfold, (request_at _ _ _ _ Hh), bind_unfold, He.
  - unfold Retention.create.
    by rewrite Hc, bind_unfold, (request_at _ _ _ _ Hh), bind_unfold, He.
Qed.

(** X7.  The create path trusts the registry to have linked the new policy
    to the project.  When the POST was accepted and the project read
    afterwards is gone, or its metadata names no [retention_id], the run
    ends with the uncaught exception of the subscript ([TypeError] on
    [None], [KeyError] on the metadata): the policy was sent, and the run
    reports neither a change nor a failure message. *)
Theorem retention_create_unlinked (p : Retention.Params)
    (x : Retention.Fetched) (w : World) resp s1 presp s2 project' e :
  Retention.check_mode p = false →
  Retention.current x = None →
  handle (POST Retentions (Retention.desired x)) (registry w) = (resp, s1) →
  status_code resp = 200 ∨ status_code resp = 201 →
  handle (GET (ProjectsByName (Retention.project p))) s1 = (presp, s2) →
  selectProject (Retention.project p) presp = inr project' →
  (Py.getitem project' "metadata" ≫= λ metadata,
     Py.getitem metadata "retention_id") = inl e →
  Retention.decide p x w =
  (inl (Crash e),
   after_request
     (after_request w (POST Retentions (Retention.desired x)) s1)
     (GET (ProjectsByName (Retention.project p))) s2).
Proof.
  intros Hc Hcur Hpost Hok Hget Hsel He.
  unfold Retention.decide, Retention.create. rewrite Hcur, Hc.
  rewrite bind_unfold, (request_at _ _ _ _ Hpost).
  rewrite bind_unfold, errorHandlingPostOrPutRequest_ok by done.
  rewrite bind_unfold.
  rewrite (getProjectByName_at (Retention.project p)
             (after_request w (POST Retentions (Retention.desired x)) s1)
             presp s2 project' Hget Hsel).
  rewrite bind_unfold.
  destruct (Py.getitem project' "metadata") as [e1|metadata]; simpl in He.
  { by injection He as ->. }
  rewrite py_value, bind_unfold. by rewrite He.
Qed.

End RetentionRuns.

(** The account may read and not write: the POST of the first policy of
    [library] is answered with 403. *)
Lemma retention_write_rejected_witness :
  let s := (Example.fresh : @Registry ReadOnly.env) in
  let x := {| Retention.desired := Example.policy;
              Retention.current := None |} in
  @Retention.decide ReadOnly.env (Example.retention false false) x
    (@start ReadOnly.env s) =
  (inl (Fail (MsgText "User does not have permission of admin role.")
             (Some initial_result)),
   @after_request ReadOnly.env (@start ReadOnly.env s)
     (POST Retentions Example.policy) s).
Proof.
  intros s x.
  destruct (@retention_write_rejected ReadOnly.env
              (Example.retention false false) x (@start ReadOnly.env s)
              (Harbor.error 403 "forbidden") s eq_refl eq_refl eq_refl)
    as (m & r & Hrun & _ & H403 & _).
  - cbn. lia.
  - cbn. lia.
  - destruct (H403 eq_refl) as [-> ->]. exact Hrun.
Defined.

(** The registry that stores nothing accepts the POST and links no policy
    to [library]: the metadata read afterwards has no [retention_id]. *)
Lemma retention_create_unlinked_witness :
  let s := (Example.fresh : @Registry Frozen.env) in
  let x := {| Retention.desired := Example.policy;
              Retention.current := None |} in
  @Retention.decide Frozen.env (Example.retention false false) x
    (@start Frozen.env s) =
  (inl (Crash (Py.KeyError "retention_id")),
   @after_request Frozen.env
     (@after_request Frozen.env (@start Frozen.env s)
        (POST Retentions Example.policy) s)
     (GET (ProjectsByName "library")) s).
Proof.
  intros s x.
  apply (@retention_create_unlinked Frozen.env
           (Example.retention false false) x (@start Frozen.env s)
           (Harbor.no_content 201) s
           (Harbor.ok (JList [Harbor.project_json
                                (Harbor.mkProject "library" 1 None)])) s
           (Harbor.project_json (Harbor.mkProject "library" 1 None))).
  - reflexivity.
  - reflexivity.
  - compute_done.
  - by right.
  - compute_done.
  - reflexivity.
  - compute_done.
Defined.

Section RetentionCreate.
Local Existing Instance Harbor.env.

(** X8.  Against the reference registry, for a project that has no policy
    yet: the run ends with [changed = true] and the desired policy as
    [retention_policy], no [diff], in check mode and in apply mode alike.
    The preview tells what the apply will report; the preview leaves the
    registry as it is, the apply leaves it with the policy created and
    linked to the project. *)
Theorem retention_create_preview_agrees (p : Retention.Params)
    (s : Harbor.State) proj :
  find_project (Retention.project p) s = Some proj →
  Harbor.retention proj = None →
  let desired :=
    Retention.createDesiredRetentionPolicy p (JNum (Harbor.id proj)) in
  ∃ w,
    run (Retention.main p) s =
      (Exit {| changed := true; diff := None;
               retention_policy := Some desired |}, w) ∧
    registry w = if Retention.check_mode p then s
                 else create_policy (Harbor.id proj) desired s.
Proof.
  intros Hfind Hnone desired.
  assert (Harbor.scope_ref desired = Some (Harbor.id proj)) as Hscope
    by apply scope_ref_desired.
  unfold run. fold (start s). unfold Retention.main.
  rewrite bind_unfold, harbor_getProjectByName. cbn [registry start].
  rewrite Hfind. cbn [from_option].
  replace (Py.truthy (Harbor.project_json proj)) with true
    by (symmetry; apply truthy_dict_cons).
  cbn [negb].
  rewrite bind_unfold, project_json_id, py_inr.
  fold desired. clearbody desired.
  destruct (project_json_metadata proj) as (md & Hmd & Hret).
  rewrite bind_unfold, Hmd, py_inr. rewrite Hnone in Hret.
  rewrite bind_unfold, Hret, py_inr.
  unfold Retention.create.
  destruct (Retention.check_mode p).
  { eexists. split; reflexivity. }
  rewrite bind_unfold.
  rewrite (@request_at Harbor.env _ _ (Harbor.no_content 201)
             (create_policy (Harbor.id proj) desired s)).
  2:{ cbn [handle Harbor.env registry after_request].
      unfold Harbor.harbor_handle.
      rewrite Hscope. rewrite bool_decide_eq_true_2; [done|].
      apply list_elem_of_fmap. exists proj. split; [done|].
      by eapply find_project_elem. }
  rewrite bind_unfold, errorHandlingPostOrPutRequest_ok by (by right).
  rewrite bind_unfold, harbor_getProjectByName.
  cbn [registry after_request].
  rewrite (find_project_create _ _ _ _ proj Hfind eq_refl).
  cbn [from_option].
  match goal with
  | |- context [Harbor.project_json ?q] =>
      destruct (project_json_metadata q) as (md' & Hmd' & [_ Hget'])
  end.
  rewrite bind_unfold, Hmd', py_inr.
  rewrite bind_unfold, Hget', py_inr.
  rewrite bind_unfold, (harbor_getRetentionPolicy _ desired)
    by apply lookup_insert_eq.
  rewrite bind_unfold, (json_of_ok _ desired) by done.
  eexists. split; reflexivity.
Qed.

(** The first policy of [library]. *)
Lemma retention_create_preview_agrees_witness :
  ∃ w1 w2,
    run (Retention.main (Example.retention false true)) Example.fresh =
      (Exit {| changed := true; diff := None;
               retention_policy := Some Example.policy |}, w1) ∧
    registry w1 = Example.fresh ∧
    run (Retention.main (Example.retention false false)) Example.fresh =
      (Exit {| changed := true; diff := None;
               retention_policy := Some Example.policy |}, w2) ∧
    registry w2 = create_policy 1 Example.policy Example.fresh.
Proof.
  destruct (retention_create_preview_agrees (Example.retention false true)
              Example.fresh (Harbor.mkProject "library" 1 None)
              eq_refl eq_refl) as (w1 & Hrun1 & Hreg1).
  destruct (retention_create_preview_agrees (Example.retention false false)
              Example.fresh (Harbor.mkProject "library" 1 None)
              eq_refl eq_refl) as (w2 & Hrun2 & Hreg2).
  exists w1, w2. split; [exact Hrun1|]. split; [exact Hreg1|].
  split; [exact Hrun2|exact Hreg2].
Defined.

End RetentionCreate.

(** ** The tag-immutability module *)

Section Comprehensions.

Lemma filterM_elem {X} (f : X → Py.Exn + bool) (l r : list X) x :
  filterM f l = inr r → x ∈ r → x ∈ l ∧ f x = inr true.
Proof.
  revert r. induction l as [|y l IH]; intros r; simpl.
  { intros [= <-] Hx. by apply elem_of_nil in Hx. }
  destruct (f y) as [e|b] eqn:Hy; [done|]. simpl.
  destruct (filterM f l) as [e|r'] eqn:Hl; [done|]. simpl.
  intros [= <-] Hx.
  destruct b.
  - apply elem_of_cons in Hx as [->|Hx].
    + split; [apply elem_of_cons; by left|done].
    + destruct (IH r' eq_refl Hx). split; [apply elem_of_cons; by right|done].
  - destruct (IH r' eq_refl Hx). split; [apply elem_of_cons; by right|done].
Qed.

Lemma mapM_elem {X Y} (f : X → Py.Exn + Y) (l : list X) (r : list Y) y :
  mapM f l = inr r → y ∈ r → ∃ x, x ∈ l ∧ f x = inr y.
Proof.
  intros Hm%mapM_inv Hy.
  apply list_elem_of_lookup in Hy as [i Hi].
  destruct (Forall2_lookup_r _ _ _ _ _ Hm Hi) as (x & Hx & Hfx).
  exists x. split; [|done]. by eapply list_elem_of_lookup_2.
Qed.

Lemma mapM_stops {X Y} (f : X → Py.Exn + Y) (l1 l2 : list X) x e :
  Forall (λ x', ∃ y, f x' = inr y) l1 →
  f x = inl e →
  mapM f (l1 ++ x :: l2) = inl e.
Proof.
  intros Hl1 Hx. induction Hl1 as [|x' l1 [y Hy] _ IH]; simpl.
  - by rewrite Hx.
  - by rewrite Hy, IH.
Qed.

End Comprehensions.

Section TagLoops.
Context `{Env}.

(** One turn of each loop. *)
Lemma createTagImmutabilities_cons x l pid result w :
  TagImmutability.createTagImmutabilities (x :: l) pid result w =
  let '(resp, s1) := handle (POST (ImmutableTagRules pid) x) (registry w) in
  match errorHandlingHttpRequest resp result with
  | Some st => (inl st, after_request w (POST (ImmutableTagRules pid) x) s1)
  | None =>
      TagImmutability.createTagImmutabilities l pid result
        (after_request w (POST (ImmutableTagRules pid) x) s1)
  end.
Proof.
  cbn [TagImmutability.createTagImmutabilities].
  rewrite bind_unfold. unfold request.
  destruct (handle _ (registry w)) as [resp s1]. rewrite bind_unfold.
  by destruct (errorHandlingHttpRequest resp result).
Qed.

Lemma deleteTagImmutabilities_cons x l pid result w :
  TagImmutability.deleteTagImmutabilities (x :: l) pid result w =
  let '(resp, s1) := handle (DELETE (ImmutableTagRule pid x)) (registry w) in
  match errorHandlingHttpRequest resp result with
  | Some st => (inl st, after_request w (DELETE (ImmutableTagRule pid x)) s1)
  | None =>
      TagImmutability.deleteTagImmutabilities l pid result
        (after_request w (DELETE (ImmutableTagRule pid x)) s1)
  end.
Proof.
  cbn [TagImmutability.deleteTagImmutabilities].
  rewrite bind_unfold. unfold request.
  destruct (handle _ (registry w)) as [resp s1]. rewrite bind_unfold.
  by destruct (errorHandlingHttpRequest resp result).
Qed.

(** The POSTs of [createTagImmutabilities], however the loop ends: the
    rules of a prefix of the list, and of the whole list when the loop
    comes back. *)
Lemma createTagImmutabilities_sent l pid result w :
  ∃ sent,
    trace (TagImmutability.createTagImmutabilities l pid result w).2 =
      trace w ++ (POST (ImmutableTagRules pid) <$> sent) ∧
    sent `prefix_of` l ∧
    (∀ u w', TagImmutability.createTagImmutabilities l pid result w
             = (inr u, w') → sent = l).
Proof.
  revert w. induction l as [|x l IH]; intros w.
  { exists []. simpl. by rewrite app_nil_r. }
  rewrite (createTagImmutabilities_cons x l pid result w).
  destruct (handle _ (registry w)) as [resp s1].
  destruct (errorHandlingHttpRequest resp result) as [st|].
  - exists [x]. cbn. split; [done|]. split; [|done].
    by apply prefix_cons, prefix_nil.
  - destruct (IH (after_request w (POST (ImmutableTagRules pid) x) s1))
      as (sent & Htr & Hpre & Hfull).
    exists (x :: sent). split; [|split].
    + rewrite Htr. cbn [trace after_request]. by rewrite <- app_assoc.
    + by apply prefix_cons.
    + intros u w' Hrun. by rewrite (Hfull u w' Hrun).
Qed.

Lemma deleteTagImmutabilities_sent l pid result w :
  ∃ sent,
    trace (TagImmutability.deleteTagImmutabilities l pid result w).2 =
      trace w ++ (DELETE ∘ ImmutableTagRule pid <$> sent) ∧
    sent `prefix_of` l ∧
    (∀ u w', TagImmutability.deleteTagImmutabilities l pid result w
             = (inr u, w') → sent = l).
Proof.
  revert w. induction l as [|x l IH]; intros w.
  { exists []. simpl. by rewrite app_nil_r. }
  rewrite (deleteTagImmutabilities_cons x l pid result w).
  destruct (handle _ (registry w)) as [resp s1].
  destruct (errorHandlingHttpRequest resp result) as [st|].
  - exists [x]. cbn. split; [done|]. split; [|done].
    by apply prefix_cons, prefix_nil.
  - destruct (IH (after_request w (DELETE (ImmutableTagRule pid x)) s1))
      as (sent & Htr & Hpre & Hfull).
    exists (x :: sent). split; [|split].
    + rewrite Htr. cbn [trace after_request]. by rewrite <- app_assoc.
    + by apply prefix_cons.
    + intros u w' Hrun. by rewrite (Hfull u w' Hrun).
Qed.

End TagLoops.

Section TagRuns.
Context `{Env}.

(** Closes the clauses on the DELETEs and on the last read of a run that
    stopped before them. *)
Local Ltac no_deletes :=
  split; [intros ? Hi; by apply elem_of_nil in Hi|];
  split; [constructor|];
  split; [intros [Hn|Hn]; by destruct Hn | intros Hn; by destruct Hn].

(** The requests of lines 220-234, however the apply ends. *)
Lemma tag_apply_change_shape desired before ids pid result w :
  ∃ adds dels t3,
    trace (TagImmutability.apply_change desired before ids pid result w).2 =
      trace w ++ (POST (ImmutableTagRules pid) <$> adds)
              ++ (DELETE ∘ ImmutableTagRule pid <$> dels) ++ t3 ∧
    (∀ b, b ∈ adds → b ∈ desired ∧ Py.contains b before = inr false) ∧
    (∀ i, i ∈ dels →
          ∃ key a, ids !! key = Some i ∧
                   Py.getitem_int before key = inr a ∧ a ∉ desired) ∧
    Forall reads t3 ∧
    (dels ≠ [] ∨ t3 ≠ [] →
     TagImmutability.to_add desired before = inr adds) ∧
    (t3 ≠ [] →
     ∃ keys, TagImmutability.to_delete_keys desired before = inr keys ∧
             TagImmutability.to_delete_ids ids keys = inr dels).
Proof.
  assert (∀ all b, TagImmutability.to_add desired before = inr all →
                   b ∈ all →
                   b ∈ desired ∧ Py.contains b before = inr false) as Hadds.
  { intros all b Hall Hb.
    destruct (filterM_elem _ _ _ _ Hall Hb) as [Hin Hf]. split; [done|].
    destruct (Py.contains b before) as [e|[]]; by simplify_eq/=. }
  assert (∀ keys all i,
            TagImmutability.to_delete_keys desired before = inr keys →
            TagImmutability.to_delete_ids ids keys = inr all →
            i ∈ all →
            ∃ key a, ids !! key = Some i ∧
                     Py.getitem_int before key = inr a ∧ a ∉ desired)
    as Hdels.
  { intros keys all i Hkeys Hall Hi.
    destruct (mapM_elem _ _ _ _ Hall Hi) as (key & Hkey & Hlook).
    unfold TagImmutability.to_delete_keys in Hkeys.
    destruct (Py.len before) as [e|n]; [done|]. simpl in Hkeys.
    destruct (filterM_elem _ _ _ _ Hkeys Hkey) as [_ Hf].
    destruct (Py.getitem_int before key) as [e|a] eqn:Hg; simpl in Hf;
      [done|].
    exists key, a. split; [by destruct (ids !! key); simplify_eq|].
    split; [done|]. case_bool_decide; by simplify_eq/=. }
  unfold TagImmutability.apply_change. rewrite bind_unfold.
  destruct (TagImmutability.to_add desired before) as [e|all] eqn:Hall.
  { exists [], [], []. cbn. rewrite app_nil_r. split; [done|].
    split; [intros b Hb; by apply elem_of_nil in Hb|]. no_deletes. }
  rewrite py_value, bind_unfold.
  destruct (createTagImmutabilities_sent all pid result w)
    as (sent & Htr1 & Hpre1 & Hfull1).
  destruct (TagImmutability.createTagImmutabilities all pid result w)
    as [[st|[]] w1] eqn:Hc; cbn [fst snd] in Htr1.
  { exists sent, [], []. cbn [fst snd fmap list_fmap app].
    rewrite app_nil_r. split; [done|].
    split. { intros b Hb. apply (Hadds all b eq_refl).
             destruct Hpre1 as [k ->]. apply elem_of_app. by left. }
    no_deletes. }
  rewrite (Hfull1 _ _ eq_refl) in Htr1. clear sent Hpre1 Hfull1.
  rewrite bind_unfold.
  destruct (TagImmutability.to_delete_keys desired before) as [e|keys]
    eqn:Hkeys.
  { exists all, [], []. cbn [py raise stop fst snd fmap list_fmap app].
    rewrite app_nil_r. split; [done|]. split; [intros b Hb; exact (Hadds _ b eq_refl Hb)|].
    no_deletes. }
  rewrite py_value, bind_unfold.
  destruct (TagImmutability.to_delete_ids ids keys) as [e|delids] eqn:Hids.
  { exists all, [], []. cbn [py raise stop fst snd fmap list_fmap app].
    rewrite app_nil_r. split; [done|]. split; [intros b Hb; exact (Hadds _ b eq_refl Hb)|].
    no_deletes. }
  rewrite py_value, bind_unfold.
  destruct (deleteTagImmutabilities_sent delids pid result w1)
    as (sent & Htr2 & Hpre2 & Hfull2).
  destruct (TagImmutability.deleteTagImmutabilities delids pid result w1)
    as [[st|[]] w2] eqn:Hd; cbn [fst snd] in Htr2.
  { exists all, sent, []. cbn [fst snd]. rewrite app_nil_r.
    split; [by rewrite Htr2, Htr1, <- app_assoc|].
    split; [intros b Hb; exact (Hadds _ b eq_refl Hb)|].
    split. { intros i Hi. apply (Hdels keys delids i eq_refl Hids).
             destruct Hpre2 as [k ->]. apply elem_of_app. by left. }
    split; [done|]. split; [done|]. done. }
  rewrite (Hfull2 _ _ eq_refl) in Htr2. clear sent Hpre2 Hfull2.
  rewrite bind_unfold.
  destruct (issues_tag_fetch pid w2) as (t3 & Htr3 & Hr3).
  exists all, delids, t3.
  split.
  { destruct (TagImmutability.fetch pid w2) as [[st|after] w3];
      cbn [fst snd] in *.
    - by rewrite Htr3, Htr2, Htr1, <- !app_assoc.
    - case_bool_decide; cbn; by rewrite Htr3, Htr2, Htr1, <- !app_assoc. }
  split; [intros b Hb; exact (Hadds _ b eq_refl Hb)|]. split; [intros i Hi; exact (Hdels _ _ i eq_refl Hids Hi)|].
  split; [done|]. split; [done|]. intros _. by exists keys.
Qed.

(** X9.  The writes of a tag-immutability run are the differences it
    computed, in a fixed order.  Either the whole trace is reads; or the run
    is not in check mode, the reads up to the comparison succeeded, and the
    trace is these reads, then POSTs to the project's rule collection, then
    DELETEs of rules of the project, then reads.  Every rule POSTed is a
    desired rule that is not among the rules read; every identifier DELETEd
    was set aside from a rule read that is not among the desired ones.  The
    first DELETE is sent after the last POST, and the rules are read again
    only after every POST and DELETE of the difference was sent.  No run
    sends a PUT. *)
Theorem tag_writes_are_the_diff (p : TagImmutability.Params)
    (s : Registry) :
  let t := trace (run (TagImmutability.main p) s).2 in
  Forall reads t ∨
  ∃ x w adds dels t3,
    TagImmutability.check_mode p = false ∧
    TagImmutability.fetch_all p (start s) = (inr x, w) ∧
    Forall reads (trace w) ∧
    t = trace w
        ++ (POST (ImmutableTagRules (TagImmutability.project_id x)) <$> adds)
        ++ (DELETE ∘ ImmutableTagRule (TagImmutability.project_id x)
              <$> dels)
        ++ t3 ∧
    (∀ b, b ∈ adds →
          b ∈ TagImmutability.desired x ∧
          Py.contains b (TagImmutability.before x) = inr false) ∧
    (∀ i, i ∈ dels →
          ∃ key a, TagImmutability.before_ids x !! key = Some i ∧
                   Py.getitem_int (TagImmutability.before x) key = inr a ∧
                   a ∉ TagImmutability.desired x) ∧
    Forall reads t3 ∧
    (dels ≠ [] ∨ t3 ≠ [] →
     TagImmutability.to_add (TagImmutability.desired x)
                            (TagImmutability.before x) = inr adds) ∧
    (t3 ≠ [] →
     ∃ keys,
       TagImmutability.to_delete_keys (TagImmutability.desired x)
                                      (TagImmutability.before x) = inr keys ∧
       TagImmutability.to_delete_ids (TagImmutability.before_ids x) keys
       = inr dels).
Proof.
  intros t. unfold t, run. fold (start s).
  rewrite tag_main_fetch_decide, bind_unfold.
  destruct (issues_tag_fetch_all p (start s)) as (t1 & Ht1 & Hr1).
  destruct (TagImmutability.fetch_all p (start s)) as [[st|x] w] eqn:Hf;
    cbn [fst snd] in *; simpl in Ht1.
  { left. by rewrite Ht1. }
  destruct (TagImmutability.check_mode p) eqn:Hc.
  { left.
    destruct (issues_tag_decide_check p x Hc w) as (t2 & Ht2 & Hr2).
    destruct (TagImmutability.decide p x w) as [[st|[]] w2].
    cbn [fst snd] in *. rewrite Ht2, Ht1. by apply Forall_app. }
  destruct (TagImmutability.delta x) eqn:Hd; cycle 1.
  { left.
    destruct (issues_tag_decide_same p x Hd w) as (t2 & Ht2 & Hr2).
    destruct (TagImmutability.decide p x w) as [[st|[]] w2].
    cbn [fst snd] in *. rewrite Ht2, Ht1. by apply Forall_app. }
  right. exists x, w.
  destruct (tag_apply_change_shape (TagImmutability.desired x)
              (TagImmutability.before x) (TagImmutability.before_ids x)
              (TagImmutability.project_id x) initial_result w)
    as (adds & dels & t3 & Htr & Hrest).
  exists adds, dels, t3. split; [done|]. split; [done|].
  split; [by rewrite Ht1|]. split; [|exact Hrest].
  unfold TagImmutability.decide, TagImmutability.compare,
    TagImmutability.delta in *.
  apply bool_decide_eq_true in Hd.
  rewrite bool_decide_eq_false_2, Hc by done.
  destruct (TagImmutability.apply_change _ _ _ _ _ w) as [[st|[]] w2].
  exact Htr.
Qed.

End TagRuns.

Section TagPartial.
Context `{Env}.

(** The loop over a list in two parts: the second part starts where the
    first one came back. *)
Lemma createTagImmutabilities_app l1 l2 pid result w w1 :
  TagImmutability.createTagImmutabilities l1 pid result w = (inr (), w1) →
  TagImmutability.createTagImmutabilities (l1 ++ l2) pid result w =
  TagImmutability.createTagImmutabilities l2 pid result w1.
Proof.
  revert w. induction l1 as [|x l1 IH]; intros w.
  { by intros [= ->]. }
  rewrite <- app_comm_cons, !createTagImmutabilities_cons.
  destruct (handle _ (registry w)) as [resp s1].
  destruct (errorHandlingHttpRequest resp result); [done|]. apply IH.
Qed.

(** X10.  The apply of the tag-immutability module is not atomic.  When
    the error handling stops the run at one of the POSTs, the rules before
    it in the list of additions have been created and stay; the rejected
    POST is the last request of the run: no later rule is sent, no rule is
    deleted, the rules are not read again, and the run ends the way the
    error handling says. *)
Theorem tag_apply_stops_at_rejection (p : TagImmutability.Params)
    (x : TagImmutability.Fetched) (w : World) l1 b l2 w1 resp s' st :
  let pid := TagImmutability.project_id x in
  TagImmutability.check_mode p = false →
  TagImmutability.delta x = true →
  TagImmutability.to_add (TagImmutability.desired x)
                         (TagImmutability.before x) = inr (l1 ++ b :: l2) →
  TagImmutability.createTagImmutabilities l1 pid initial_result w
    = (inr (), w1) →
  handle (POST (ImmutableTagRules pid) b) (registry w1) = (resp, s') →
  errorHandlingHttpRequest resp initial_result = Some st →
  TagImmutability.decide p x w =
    (inl st, after_request w1 (POST (ImmutableTagRules pid) b) s') ∧
  trace (TagImmutability.decide p x w).2 =
    trace w ++ (POST (ImmutableTagRules pid) <$> l1 ++ [b]).
Proof.
  intros pid Hc Hd Hadd Hl1 Hh Hst.
  assert (TagImmutability.decide p x w =
          (inl st, after_request w1 (POST (ImmutableTagRules pid) b) s'))
    as Hrun.
  { unfold TagImmutability.decide, TagImmutability.compare,
      TagImmutability.delta in *.
    apply bool_decide_eq_true in Hd.
    rewrite bool_decide_eq_false_2, Hc by done.
    unfold TagImmutability.apply_change.
    rewrite bind_unfold, Hadd, py_value, bind_unfold.
    fold pid. rewrite (createTagImmutabilities_app _ _ _ _ _ _ Hl1).
    rewrite createTagImmutabilities_cons, Hh, Hst. done. }
  split; [exact Hrun|]. rewrite Hrun. cbn [snd after_request trace].
  rewrite (createTagImmutabilities_trace _ _ _ _ _ _ Hl1).
  by rewrite fmap_app, app_assoc.
Qed.

End TagPartial.

(** The rule [new] declared twice for a project without rules: both copies
    are additions, the registry stores the first and refuses the second. *)
Lemma tag_apply_stops_at_rejection_witness :
  let s := (Example.fresh : @Registry Strict.env) in
  let b := JDict (Example.stored_rule "new") in
  let x := {| TagImmutability.project_id := JNum 1;
              TagImmutability.desired := [b; b];
              TagImmutability.before := JList [];
              TagImmutability.before_ids := [] |} in
  let s1 := post_rule 1 Example.fresh (Example.stored_rule "new") in
  let w1 := @after_request Strict.env (@start Strict.env s)
              (POST (ImmutableTagRules (JNum 1)) b) s1 in
  @TagImmutability.decide Strict.env (Example.tags [] false) x
    (@start Strict.env s) =
    (inl (Fail (MsgUnknownStatus 409 "conflict") None),
     @after_request Strict.env w1 (POST (ImmutableTagRules (JNum 1)) b) s1) ∧
  @trace Strict.env
    (@TagImmutability.decide Strict.env (Example.tags [] false) x
       (@start Strict.env s)).2 =
    [POST (ImmutableTagRules (JNum 1)) b;
     POST (ImmutableTagRules (JNum 1)) b].
Proof.
  intros s b x s1 w1.
  apply (@tag_apply_stops_at_rejection Strict.env (Example.tags [] false) x
           (@start Strict.env s) [b] b [] w1
           (Harbor.error 409 "conflict") s1
           (Fail (MsgUnknownStatus 409 "conflict") None)).
  - reflexivity.
  - compute_done.
  - compute_done.
  - compute_done.
  - compute_done.
  - reflexivity.
Defined.

Section DesiredRules.

(** The desired rule is an object with the server fields as the formatting
    sets them, and without an [id]. *)
Lemma createDesiredTagImmutability_fields o pid b :
  TagImmutability.createDesiredTagImmutability o pid = inr b →
  ∃ m, b = JDict m ∧ m !! "id" = None ∧ m !! "project_id" = Some pid ∧
       m !! "priority" = Some (JNum 0) ∧ m !! "disabled" = Some JFalse.
Proof.
  unfold TagImmutability.createDesiredTagImmutability.
  destruct (TagImmutability.field o "repository" "kind") as [?|rk];
    [done|]; simpl.
  destruct (TagImmutability.field o "repository" "pattern") as [?|rp];
    [done|]; simpl.
  destruct (TagImmutability.field o "tag" "kind") as [?|tk]; [done|]; simpl.
  destruct (TagImmutability.field o "tag" "pattern") as [?|tp];
    [done|]; simpl.
  intros [= <-]. unfold dict at 1. cbn [list_to_map foldr fst snd].
  eexists. split; [reflexivity|].
  repeat split;
    repeat first [ rewrite lookup_insert_eq; reflexivity
                 | rewrite lookup_insert_ne by done
                 | apply lookup_empty ].
Qed.

(** One stored rule, formatted. *)
Lemma stored_item_reads_back o pid b stored i :
  TagImmutability.createDesiredTagImmutability o pid = inr b →
  Py.getitem stored "id" = inr i →
  (∀ k, k ∉ server_fields → Py.getitem stored k = Py.getitem b k) →
  canonical_item pid stored = inr (b, i).
Proof.
  intros Hb Hid Hsame.
  destruct (createDesiredTagImmutability_fields _ _ _ Hb)
    as (m & -> & Hmid & Hmpid & Hmprio & Hmdis).
  destruct stored as [| | | |d]; try done. simpl in Hid.
  destruct (d !! "id") as [i'|] eqn:Hdid; [|done]. injection Hid as ->.
  unfold canonical_item. simpl. rewrite Hdid. simpl.
  do 2 f_equal. apply (f_equal JDict). apply map_eq. intros k.
  destruct (decide (k = "disabled")) as [->|H1];
    [by rewrite lookup_insert_eq|rewrite lookup_insert_ne by done].
  destruct (decide (k = "priority")) as [->|H2];
    [by rewrite lookup_insert_eq|rewrite lookup_insert_ne by done].
  destruct (decide (k = "project_id")) as [->|H3];
    [by rewrite lookup_insert_eq|rewrite lookup_insert_ne by done].
  destruct (decide (k = "id")) as [->|H4];
    [by rewrite lookup_delete_eq|rewrite lookup_delete_ne by done].
  assert (k ∉ server_fields) as Hk.
  { unfold server_fields. intros Hk.
    repeat (apply elem_of_cons in Hk as [?|Hk]; [done|]).
    by apply elem_of_nil in Hk. }
  specialize (Hsame k Hk). simpl in Hsame.
  destruct (d !! k), (m !! k); by simplify_eq.
Qed.

(** X11.  What the module sends is what it reads back.  When the registry
    returns the desired rules in their order, each with an [id] of its
    choice, with whatever it likes in [project_id], [priority] and
    [disabled], and with the other members as they were sent, the formatted
    list is the desired list, and the identifiers set aside are the [id]s,
    so that the comparison with the desired list holds. *)
Theorem desired_rules_read_back (p : TagImmutability.Params) (pid : json)
    (B storeds ids : list json) :
  TagImmutability.createDesiredTagImmutabilityList p pid = inr B →
  Forall2 (λ b stored,
             ∀ k, k ∉ server_fields →
                  Py.getitem stored k = Py.getitem b k) B storeds →
  mapM (λ stored, Py.getitem stored "id") storeds = inr ids →
  TagImmutability.canonical (JList storeds) pid = inr (JList B, ids).
Proof.
  unfold TagImmutability.createDesiredTagImmutabilityList.
  intros HB%mapM_inv Hsame Hids%mapM_inv. rewrite canonical_list.
  assert (mapM (canonical_item pid) storeds = inr (zip B ids)) as ->.
  { generalize dependent (TagImmutability.tag_immutability_list p).
    revert ids Hids.
    induction Hsame as [|b stored B storeds Hb Hrest IH];
      intros ids Hids os HB.
    { by inversion Hids. }
    inversion Hids as [|? i ? ids' Hi Hids']; subst.
    apply Forall2_cons_inv_r in HB as (o & os' & Ho & HB' & ->).
    cbn [mapM zip zip_with].
    rewrite (stored_item_reads_back o pid b stored i Ho Hi Hb). simpl.
    by rewrite (IH ids' Hids' os' HB'). }
  simpl. apply Forall2_length in Hsame, Hids.
  rewrite fst_zip, snd_zip by lia. done.
Qed.

End DesiredRules.

(** The rule [new] as a registry returns it: with the identifier 42 and a
    priority of its own. *)
Lemma desired_rules_read_back_witness :
  let b := JDict (Example.stored_rule "new") in
  let stored := JDict (<["id" := JNum 42]>
                         (<["priority" := JNum 5]>
                            (Example.stored_rule "new"))) in
  TagImmutability.canonical (JList [stored]) (JNum 1)
  = inr (JList [b], [JNum 42]).
Proof.
  intros b stored.
  apply (desired_rules_read_back (Example.tags [Example.rule "**" "new"] false)
           (JNum 1) [b] [stored] [JNum 42]).
  - compute_done.
  - constructor; [|constructor]. intros k Hk. unfold stored, b, Py.getitem.
    rewrite !lookup_insert_ne; [done| |].
    + intros <-. apply Hk. unfold server_fields.
      apply elem_of_cons. right. apply elem_of_cons. right.
      apply elem_of_cons. by left.
    + intros <-. apply Hk. unfold server_fields. apply elem_of_cons. by left.
  - compute_done.
Defined.

Section DeclaredRules.
Context `{Env}.

(** X12.  The items of [tag_immutability_list] are not checked before they
    are used.  When one of them lacks a member the desired rule is built
    from, or is no object, and the items before it are well formed, the run
    ends with the uncaught exception of the subscript.  This happens after
    the project was looked up and before the rules are read: the run
    issues the one GET of the project and nothing else, in check mode or
    not. *)
Theorem tag_bad_rule_raises (p : TagImmutability.Params) (s : Registry)
    resp s' project_ pid l1 o l2 e :
  handle (GET (ProjectsByName (TagImmutability.project p))) s = (resp, s') →
  selectProject (TagImmutability.project p) resp = inr project_ →
  Py.truthy project_ = true →
  Py.getitem project_ "project_id" = inr pid →
  TagImmutability.tag_immutability_list p = l1 ++ o :: l2 →
  Forall (λ o', ∃ b, TagImmutability.createDesiredTagImmutability o' pid
                     = inr b) l1 →
  TagImmutability.createDesiredTagImmutability o pid = inl e →
  run (TagImmutability.main p) s =
  (Crash e,
   after_request (start s)
     (GET (ProjectsByName (TagImmutability.project p))) s').
Proof.
  intros Hh Hsel Htruthy Hpid Hlist Hl1 Ho. apply run_stop.
  unfold TagImmutability.main.
  rewrite bind_unfold, (getProjectByName_at _ (start s) _ _ _ Hh Hsel).
  rewrite Htruthy. cbn [negb].
  rewrite bind_unfold, Hpid, py_value, bind_unfold.
  unfold TagImmutability.createDesiredTagImmutabilityList.
  by rewrite Hlist, (mapM_stops _ _ _ _ _ Hl1 Ho).
Qed.

End DeclaredRules.

(** A rule declared without its [tag] member, after a well-formed one. *)
Lemma tag_bad_rule_raises_witness :
  let o := dict [("repository", dict [("kind", JStr "repoMatches");
                                      ("pattern", JStr "**")])] in
  let p := Example.tags [Example.rule "**" "new"; o] false in
  @run Harbor.env (TagImmutability.main p) Example.fresh =
  (Crash (Py.KeyError "tag"),
   @after_request Harbor.env (@start Harbor.env Example.fresh)
     (GET (ProjectsByName "library")) Example.fresh).
Proof.
  intros o p.
  apply (@tag_bad_rule_raises Harbor.env p Example.fresh
           (Harbor.ok (JList [Harbor.project_json
                                (Harbor.mkProject "library" 1 None)]))
           Example.fresh
           (Harbor.project_json (Harbor.mkProject "library" 1 None))
           (JNum 1) [Example.rule "**" "new"] o []).
  - compute_done.
  - reflexivity.
  - compute_done.
  - compute_done.
  - reflexivity.
  - constructor; [|constructor].
    exists (JDict (Example.stored_rule "new")). compute_done.
  - compute_done.
Defined.

Section SameMembers.
Context `{Env}.

(** When the rules read and the desired rules have the same members, what
    follows the comparison sends no write, whatever the comparison says. *)
Lemma tag_same_members_reads p B A ids pid result w :
  (∀ b, b ∈ B → b ∈ A) →
  (∀ a, a ∈ A → a ∈ B) →
  ∃ t, trace (TagImmutability.compare p B (JList A) ids pid result w).2
       = trace w ++ t ∧ Forall reads t.
Proof.
  intros HBA HAB. unfold TagImmutability.compare.
  case_bool_decide; [exists []; by rewrite app_nil_r|].
  destruct (TagImmutability.check_mode p); [exists []; by rewrite app_nil_r|].
  destruct (tag_apply_change_shape B (JList A) ids pid result w)
    as (adds & dels & t3 & Htr & Hadds & Hdels & Hr3 & _).
  destruct adds as [|b adds]; cycle 1.
  { destruct (Hadds b) as [Hb Hnot]; [apply elem_of_cons; by left|].
    simpl in Hnot. injection Hnot as Hnot.
    apply bool_decide_eq_false in Hnot. destruct Hnot. by apply HBA. }
  destruct dels as [|i dels]; cycle 1.
  { destruct (Hdels i) as (key & a & _ & Ha & Hnot);
      [apply elem_of_cons; by left|].
    simpl in Ha. destruct (A !! key) as [a'|] eqn:Hk; [|done].
    injection Ha as ->. destruct Hnot. apply HAB.
    by eapply list_elem_of_lookup_2. }
  exists t3. by split.
Qed.

End SameMembers.

Section Reordering.
Local Existing Instance Harbor.env.

(** X13.  Preview and apply disagree on a difference of order.  Against
    the reference registry, when the rules of the project and the desired
    rules have the same members and are not the same list (another order,
    or a rule declared twice), the preview reports [changed = true] with
    the two lists as the difference, and the apply sends no write and
    reports [changed = false]. *)
Theorem preview_overreports_reordering (p : TagImmutability.Params)
    (s : Harbor.State) proj B :
  let A := current_rules (Harbor.id proj) s in
  let preview := {| TagImmutability.project := TagImmutability.project p;
                    TagImmutability.tag_immutability_list :=
                      TagImmutability.tag_immutability_list p;
                    TagImmutability.check_mode := true |} in
  let apply := {| TagImmutability.project := TagImmutability.project p;
                  TagImmutability.tag_immutability_list :=
                    TagImmutability.tag_immutability_list p;
                  TagImmutability.check_mode := false |} in
  find_project (TagImmutability.project p) s = Some proj →
  TagImmutability.createDesiredTagImmutabilityList p (JNum (Harbor.id proj))
    = inr B →
  (∀ b, b ∈ B → b ∈ A) →
  (∀ a, a ∈ A → a ∈ B) →
  A ≠ B →
  (∃ w, run (TagImmutability.main preview) s =
        (Exit {| changed := true; diff := Some (JList A, JList B);
                 retention_policy := None |}, w)) ∧
  (∃ r w, run (TagImmutability.main apply) s = (Exit r, w) ∧
          changed r = false ∧ Forall reads (trace w)).
Proof.
  intros A preview apply Hfind HB HBA HAB Hne. split.
  - rewrite (harbor_tag_main preview s proj B Hfind HB).
    unfold TagImmutability.compare. fold A.
    rewrite bool_decide_eq_false_2 by congruence.
    cbn [TagImmutability.check_mode preview]. eexists. reflexivity.
  - destruct (harbor_tag_settled apply s proj B eq_refl Hfind HB HBA HAB)
      as (r & w & Hrun & Hch).
    exists r, w. split; [done|]. split; [done|].
    replace w with (run (TagImmutability.main apply) s).2
      by (by rewrite Hrun).
    rewrite (harbor_tag_main apply s proj B Hfind HB). fold A.
    match goal with
    | |- context [TagImmutability.compare apply B (JList A) ?ids ?pid ?res
                    ?w0] =>
        destruct (tag_same_members_reads apply B A ids pid res w0 HBA HAB)
          as (t & Htr & Hr);
        destruct (TagImmutability.compare apply B (JList A) ids pid res w0)
          as [[st|[]] w']
    end.
    cbn [fst snd] in *. rewrite Htr. cbn [trace after_request start].
    apply Forall_app. split; [|done].
    repeat constructor.
Qed.

(** The rules [old] and [new] are stored in this order and declared in the
    other. *)
Lemma preview_overreports_reordering_witness :
  let old := JDict (Example.stored_rule "old") in
  let new := JDict (Example.stored_rule "new") in
  let l := [Example.rule "**" "new"; Example.rule "**" "old"] in
  (∃ w, run (TagImmutability.main (Example.tags l true)) with_two_rules =
        (Exit {| changed := true;
                 diff := Some (JList (current_rules 1 with_two_rules),
                               JList [new; old]);
                 retention_policy := None |}, w)) ∧
  (∃ r w, run (TagImmutability.main (Example.tags l false)) with_two_rules
          = (Exit r, w) ∧
          changed r = false ∧ Forall reads (trace w)).
Proof.
  intros old new l.
  apply (preview_overreports_reordering (Example.tags l false) with_two_rules
           (Harbor.mkProject "library" 1 None) [new; old]).
  - compute_done.
  - compute_done.
  - intros b Hb. apply elem_of_cons in Hb as [->|Hb]; [compute_done|].
    apply elem_of_cons in Hb as [->|Hb]; [compute_done|].
    by apply elem_of_nil in Hb.
  - intros a Ha.
    assert (current_rules 1 with_two_rules = [old; new]) as Hcur
      by compute_done.
    change (a ∈ current_rules 1 with_two_rules) in Ha. rewrite Hcur in Ha.
    apply elem_of_cons in Ha as [->|Ha]; [compute_done|].
    apply elem_of_cons in Ha as [->|Ha]; [compute_done|].
    by apply elem_of_nil in Ha.
  - compute_done.
Defined.

End Reordering.

(** ** The desired forms *)

Section DesiredForms.

(** X14.  The desired forms of the two singleton resources are injective in
    what they are built from: two retention policies are equal exactly when
    the rules, the cron expression and the project identifier are, and two
    schedules exactly when the cron expression and the type are.  The
    comparison with the state read therefore sees every one of these
    parameters, and no other ([force], the check mode and the project name
    do not enter the desired form). *)
Theorem desired_forms_injective :
  (∀ p pid p' pid',
     Retention.createDesiredRetentionPolicy p pid =
     Retention.createDesiredRetentionPolicy p' pid' ↔
     Retention.rules p = Retention.rules p' ∧
     Retention.schedule_cron p = Retention.schedule_cron p' ∧
     pid = pid') ∧
  (∀ cron type cron' type',
     ScanAll.constructDesired cron type = ScanAll.constructDesired cron' type'
     ↔ cron = cron' ∧ type = type').
Proof.
  split.
  - intros p pid p' pid'. unfold Retention.createDesiredRetentionPolicy.
    split; [|intros (Hr & Hc & ->); by rewrite Hr, Hc].
    intros Heq.
    pose proof (f_equal (λ v, Py.getitem v "rules") Heq) as Hrules.
    pose proof (f_equal (λ v, Py.getitem v "scope" ≫= λ x,
                              Py.getitem x "ref") Heq) as Href.
    pose proof (f_equal (λ v, Py.getitem v "trigger" ≫= λ x,
                              Py.getitem x "settings" ≫= λ y,
                              Py.getitem y "cron") Heq) as Hcron.
    cbv beta in *.
    repeat (rewrite ?getitem_dict_here in Hrules;
            rewrite ?getitem_dict_next in Hrules by done).
    repeat (first [ rewrite getitem_dict_here in Href
                  | rewrite getitem_dict_next in Href by done ];
            cbn [mbind Exn_bind] in Href).
    repeat (first [ rewrite getitem_dict_here in Hcron
                  | rewrite getitem_dict_next in Hcron by done ];
            cbn [mbind Exn_bind] in Hcron).
    by simplify_eq.
  - intros cron type cron' type'. split; [|by intros (-> & ->)].
    unfold ScanAll.constructDesired. intros Heq.
    pose proof (f_equal (λ v, Py.getitem v "schedule" ≫= λ x,
                              Py.getitem x "cron") Heq) as Hcron.
    pose proof (f_equal (λ v, Py.getitem v "schedule" ≫= λ x,
                              Py.getitem x "type") Heq) as Htype.
    cbv beta in *.
    repeat (first [ rewrite getitem_dict_here in Hcron
                  | rewrite getitem_dict_next in Hcron by done ];
            cbn [mbind Exn_bind] in Hcron).
    repeat (first [ rewrite getitem_dict_here in Htype
                  | rewrite getitem_dict_next in Htype by done ];
            cbn [mbind Exn_bind] in Htype).
    by simplify_eq.
Qed.

(** X15.  A desired rule is made of the project identifier and the four
    declared fields, and of nothing else: two declared rules give the same
    desired rule exactly when these agree.  Any other member of a declared
    rule (a [disabled] or a [priority] of its own, say) has no effect. *)
Theorem createDesiredTagImmutability_injective o o' pid pid' b b' :
  TagImmutability.createDesiredTagImmutability o pid = inr b →
  TagImmutability.createDesiredTagImmutability o' pid' = inr b' →
  b = b' ↔
  pid = pid' ∧
  ∀ ak, ak ∈ declared_fields →
        TagImmutability.field o ak.1 ak.2 = TagImmutability.field o' ak.1 ak.2.
Proof.
  unfold TagImmutability.createDesiredTagImmutability.
  destruct (TagImmutability.field o "repository" "kind") as [?|rk] eqn:E1;
    [done|].
  destruct (TagImmutability.field o "repository" "pattern") as [?|rp] eqn:E2;
    [done|].
  destruct (TagImmutability.field o "tag" "kind") as [?|tk] eqn:E3; [done|].
  destruct (TagImmutability.field o "tag" "pattern") as [?|tp] eqn:E4;
    [done|].
  destruct (TagImmutability.field o' "repository" "kind") as [?|rk'] eqn:E1';
    [done|].
  destruct (TagImmutability.field o' "repository" "pattern")
    as [?|rp'] eqn:E2'; [done|].
  destruct (TagImmutability.field o' "tag" "kind") as [?|tk'] eqn:E3';
    [done|].
  destruct (TagImmutability.field o' "tag" "pattern") as [?|tp'] eqn:E4';
    [done|].
  cbn [mbind Exn_bind mret Exn_ret]. intros [= <-] [= <-]. split.
  - intros Heq.
    pose proof (f_equal (λ v, Py.getitem v "project_id") Heq) as Hpid.
    pose proof (f_equal (λ v, x ← Py.getitem v "scope_selectors";
                              l ← Py.getitem x "repository";
                              d ← Py.getitem_int l 0;
                              Py.getitem d "decoration") Heq) as Hrk.
    pose proof (f_equal (λ v, x ← Py.getitem v "scope_selectors";
                              l ← Py.getitem x "repository";
                              d ← Py.getitem_int l 0;
                              Py.getitem d "pattern") Heq) as Hrp.
    pose proof (f_equal (λ v, l ← Py.getitem v "tag_selectors";
                              d ← Py.getitem_int l 0;
                              Py.getitem d "decoration") Heq) as Htk.
    pose proof (f_equal (λ v, l ← Py.getitem v "tag_selectors";
                              d ← Py.getitem_int l 0;
                              Py.getitem d "pattern") Heq) as Htp.
    cbv beta in *.
    repeat (first [ rewrite getitem_dict_here in Hpid
                  | rewrite getitem_dict_next in Hpid by done ]).
    repeat (first [ rewrite getitem_dict_here in Hrk
                  | rewrite getitem_dict_next in Hrk by done ];
            cbn [mbind Exn_bind Py.getitem_int lookup list_lookup] in Hrk).
    repeat (first [ rewrite getitem_dict_here in Hrp
                  | rewrite getitem_dict_next in Hrp by done ];
            cbn [mbind Exn_bind Py.getitem_int lookup list_lookup] in Hrp).
    repeat (first [ rewrite getitem_dict_here in Htk
                  | rewrite getitem_dict_next in Htk by done ];
            cbn [mbind Exn_bind Py.getitem_int lookup list_lookup] in Htk).
    repeat (first [ rewrite getitem_dict_here in Htp
                  | rewrite getitem_dict_next in Htp by done ];
            cbn [mbind Exn_bind Py.getitem_int lookup list_lookup] in Htp).
    injection Hpid as ->. injection Hrk as ->. injection Hrp as ->.
    injection Htk as ->. injection Htp as ->.
    split; [done|]. intros [a k] Hin. unfold declared_fields in Hin.
    repeat (apply elem_of_cons in Hin as [[= -> ->]|Hin];
            [cbn [fst snd]; congruence|]).
    by apply elem_of_nil in Hin.
  - intros [-> Hf].
    assert (∀ a k, (a, k) ∈ declared_fields →
                   TagImmutability.field o a k = TagImmutability.field o' a k)
      as Hf' by (intros a k Hin; exact (Hf (a, k) Hin)).
    assert (rk = rk') as ->.
    { specialize (Hf' "repository" "kind"). rewrite E1, E1' in Hf'.
      assert (inr rk = inr (A := Py.Exn) rk') as [= ->]; [|done].
      apply Hf'. unfold declared_fields. apply elem_of_cons. by left. }
    assert (rp = rp') as ->.
    { specialize (Hf' "repository" "pattern"). rewrite E2, E2' in Hf'.
      assert (inr rp = inr (A := Py.Exn) rp') as [= ->]; [|done].
      apply Hf'. unfold declared_fields.
      apply elem_of_cons. right. apply elem_of_cons. by left. }
    assert (tk = tk') as ->.
    { specialize (Hf' "tag" "kind"). rewrite E3, E3' in Hf'.
      assert (inr tk = inr (A := Py.Exn) tk') as [= ->]; [|done].
      apply Hf'. unfold declared_fields.
      do 2 (apply elem_of_cons; right). apply elem_of_cons. by left. }
    assert (tp = tp') as ->.
    { specialize (Hf' "tag" "pattern"). rewrite E4, E4' in Hf'.
      assert (inr tp = inr (A := Py.Exn) tp') as [= ->]; [|done].
      apply Hf'. unfold declared_fields.
      do 3 (apply elem_of_cons; right). apply elem_of_cons. by left. }
    done.
Qed.

(** X16.  The formatting of the rules read stops at the first item it cannot
    take the [id] out of, with the exception of the [pop]: [KeyError] on an
    object without [id], [TypeError] on a list, [AttributeError] on any
    other value.  The items behind it are not looked at. *)
Theorem format_raises_at_first_bad_item pid (pre : list json) a post e :
  Forall (λ v, has_id v = true) pre →
  Py.pop a "id" = inl e →
  TagImmutability.canonical (JList (pre ++ a :: post)) pid = inl e ∧
  e ∈ [Py.KeyError "id"; Py.TypeError; Py.AttributeError "pop"].
Proof.
  intros Hpre Hpop. split.
  - rewrite canonical_list.
    rewrite (mapM_stops (canonical_item pid) pre post a e); [done| |].
    + eapply Forall_impl; [exact Hpre|]. intros v Hv.
      destruct v as [| | | |d]; try done. simpl in Hv.
      apply bool_decide_eq_true in Hv as [i Hi].
      unfold canonical_item. simpl. rewrite Hi. simpl. eauto.
    + unfold canonical_item. by rewrite Hpop.
  - destruct a as [| | | |d]; simpl in Hpop; simplify_eq;
      try (destruct (d !! "id"); simplify_eq);
      rewrite !elem_of_cons; auto.
Qed.

End DesiredForms.

(** A declared rule with a [disabled] member of its own gives the desired
    rule of the same rule without it. *)
Lemma createDesiredTagImmutability_injective_witness :
  let o := Example.rule "**" "new" in
  let o' := match o with
            | JDict d => JDict (<["disabled" := JTrue]> d)
            | v => v
            end in
  JDict (Example.stored_rule "new") = JDict (Example.stored_rule "new") ↔
  JNum 1 = JNum 1 ∧
  ∀ ak, ak ∈ declared_fields →
        TagImmutability.field o ak.1 ak.2 = TagImmutability.field o' ak.1 ak.2.
Proof.
  intros o o'.
  apply (createDesiredTagImmutability_injective o o' (JNum 1) (JNum 1)
           (JDict (Example.stored_rule "new"))
           (JDict (Example.stored_rule "new"))).
  - compute_done.
  - compute_done.
Defined.

(** A list whose second rule has no [id]. *)
Lemma format_raises_at_first_bad_item_witness :
  let good := JDict (<["id" := JNum 7]> (Example.stored_rule "old")) in
  let bad := JDict (Example.stored_rule "new") in
  TagImmutability.canonical (JList ([good] ++ bad :: [good])) (JNum 1)
    = inl (Py.KeyError "id") ∧
  Py.KeyError "id"
    ∈ [Py.KeyError "id"; Py.TypeError; Py.AttributeError "pop"].
Proof.
  intros good bad.
  apply (format_raises_at_first_bad_item (JNum 1) [good] bad [good]
           (Py.KeyError "id")).
  - constructor; [compute_done|constructor].
  - compute_done.
Defined.

(** ** Preview and apply *)

Section PreviewPredicts.
Local Existing Instance Harbor.env.

(** The preview of the retention module against the reference registry. *)
Lemma harbor_retention_preview p (s : Harbor.State) proj :
  Retention.check_mode p = true →
  Retention.force p = false →
  find_project (Retention.project p) s = Some proj →
  (∀ r, Harbor.retention proj = Some r →
        is_Some (Harbor.policies s !! r)) →
  let desired :=
    Retention.createDesiredRetentionPolicy p (JNum (Harbor.id proj)) in
  ∃ r w, run (Retention.main p) s = (Exit r, w) ∧
         changed r = bool_decide (current_policy s proj ≠ Some desired) ∧
         registry w = s.
Proof.
  intros Hc Hforce Hfind Hwf desired.
  unfold run. fold (start s). unfold Retention.main.
  rewrite bind_unfold, harbor_getProjectByName. cbn [registry start].
  rewrite Hfind. cbn [from_option].
  replace (Py.truthy (Harbor.project_json proj)) with true
    by (symmetry; apply truthy_dict_cons).
  cbn [negb].
  rewrite bind_unfold, project_json_id, py_inr.
  fold desired. clearbody desired.
  destruct (project_json_metadata proj) as (md & Hmd & Hret).
  rewrite bind_unfold, Hmd, py_inr.
  unfold current_policy.
  destruct (Harbor.retention proj) as [r|] eqn:Hr.
  - destruct Hret as [Hin Hget].
    rewrite bind_unfold, Hin, py_inr.
    rewrite bind_unfold, Hget, py_inr.
    destruct (Hwf r eq_refl) as [pol Hpol].
    unfold Retention.compare.
    rewrite bind_unfold, (harbor_getRetentionPolicy r pol) by done.
    rewrite bind_unfold, (json_of_ok _ pol) by done.
    cbn [mbind option_bind]. rewrite Hpol, Hforce, Hc. cbn [negb andb].
    destruct (decide (pol = desired)) as [->|Hne].
    + rewrite bool_decide_eq_true_2 by done.
      eexists _, _. split; [reflexivity|]. split; [|done].
      by rewrite bool_decide_eq_false_2 by (intros Hne; by apply Hne).
    + rewrite bool_decide_eq_false_2 by done.
      eexists _, _. split; [reflexivity|]. split; [|done].
      by rewrite bool_decide_eq_true_2 by congruence.
  - rewrite bind_unfold, Hret, py_inr.
    unfold Retention.create. rewrite Hc.
    eexists _, _. split; [reflexivity|]. split; [|done].
    by rewrite bool_decide_eq_true_2.
Qed.

(** X17.  For the two singleton resources the preview predicts the apply.
    Against the reference registry, a run in check mode and a run of the
    same parameters in apply mode, from the same state, report the same
    [changed]; the preview leaves the registry as it is.  For the retention
    policy this holds when the run is not forced. *)
Theorem preview_predicts_apply :
  (∀ (cron : string) (type : option string) (s : Harbor.State),
     ∃ r w r' w',
       run (ScanAll.main (ScanAll.mkParams cron type true)) s = (Exit r, w) ∧
       run (ScanAll.main (ScanAll.mkParams cron type false)) s
         = (Exit r', w') ∧
       changed r = changed r' ∧
       registry w = s) ∧
  (∀ (project : string) (rules : list json) (cron : string)
     (s : Harbor.State) proj,
     find_project project s = Some proj →
     (∀ r, Harbor.retention proj = Some r →
           is_Some (Harbor.policies s !! r)) →
     ∃ r w r' w',
       run (Retention.main (Retention.mkParams project rules cron false true))
           s = (Exit r, w) ∧
       run (Retention.main
              (Retention.mkParams project rules cron false false)) s
         = (Exit r', w') ∧
       changed r = changed r' ∧
       registry w = s).
Proof.
  split.
  - intros cron type s.
    destruct (harbor_scanall_apply (ScanAll.mkParams cron type false) s
                eq_refl) as (r' & w' & Hrun' & Hch' & _).
    set (p := ScanAll.mkParams cron type true).
    assert (∃ r w, run (ScanAll.main p) s = (Exit r, w) ∧
                   changed r
                   = bool_decide (Harbor.schedule s ≠ Some (wanted p)) ∧
                   registry w = s) as (r & w & Hrun & Hch & Hreg).
    { unfold run. fold (start s).
      rewrite scanall_main_fetch_compare, bind_unfold, harbor_getSchedule.
      unfold ScanAll.compare. cbn [registry start ScanAll.check_mode p].
      destruct (decide (Harbor.schedule s = Some (wanted p))) as [Hs|Hs].
      - rewrite bool_decide_eq_false_2
          by (intros Hne; apply Hne; by apply schedule_delta).
        eexists _, _. split; [reflexivity|]. split; [|done].
        by rewrite bool_decide_eq_false_2 by (intros Hne; by apply Hne).
      - rewrite bool_decide_eq_true_2 by (by rewrite schedule_delta).
        eexists _, _. split; [reflexivity|]. split; [|done].
        by rewrite bool_decide_eq_true_2. }
    exists r, w, r', w'. split; [done|]. split; [done|]. split; [|done].
    by rewrite Hch, Hch'.
  - intros project rules cron s proj Hfind Hwf.
    destruct (harbor_retention_preview
                (Retention.mkParams project rules cron false true) s proj
                eq_refl eq_refl Hfind Hwf) as (r & w & Hrun & Hch & Hreg).
    destruct (harbor_retention_apply
                (Retention.mkParams project rules cron false false) s proj
                eq_refl Hfind Hwf) as (r' & w' & _ & _ & Hrun' & Hch' & _).
    exists r, w, r', w'. split; [done|]. split; [done|]. split; [|done].
    by rewrite Hch, Hch'.
Qed.

(** The schedule and the first policy of the fresh registry. *)
Lemma preview_predicts_apply_witness :
  (∃ r w r' w',
     run (ScanAll.main (ScanAll.mkParams "0 0 0 * * 0" None true))
         Example.fresh = (Exit r, w) ∧
     run (ScanAll.main (ScanAll.mkParams "0 0 0 * * 0" None false))
         Example.fresh = (Exit r', w') ∧
     changed r = changed r' ∧ registry w = Example.fresh) ∧
  (∃ r w r' w',
     run (Retention.main
            (Retention.mkParams "library" [Example.keep_ten] "0 0 0 * * 0"
                                false true)) Example.with_policy
       = (Exit r, w) ∧
     run (Retention.main
            (Retention.mkParams "library" [Example.keep_ten] "0 0 0 * * 0"
                                false false)) Example.with_policy
       = (Exit r', w') ∧
     changed r = changed r' ∧ registry w = Example.with_policy).
Proof.
  destruct preview_predicts_apply as [Hs Hr]. split.
  - exact (Hs "0 0 0 * * 0" None Example.fresh).
  - apply (Hr "library" [Example.keep_ten] "0 0 0 * * 0" Example.with_policy
              (Harbor.mkProject "library" 1 (Some 10))).
    + compute_done.
    + intros r [= <-]. exists Example.policy. compute_done.
Defined.

End PreviewPredicts.

(** * The runs as a whole *)

Section WholeRuns.
Context `{Env}.

(** A run is its reads followed by what is decided on them. *)
Lemma run_fetch_decide {A} (main : M Empty_set) (fetch : M A)
    (decide : A → M Empty_set) s x w0 :
  (∀ w, main w = (fetch ≫= decide) w) →
  fetch (start s) = (inr x, w0) →
  run main s = match decide x w0 with
               | (inl st, w) => (st, w)
               | (inr e, _) => match e with end
               end.
Proof.
  intros Hmain Hf. unfold run. fold (start s).
  by rewrite Hmain, bind_unfold, Hf.
Qed.

(** What the reads of the retention run have returned. *)
Lemma retention_fetch_inv p w x w' :
  Retention.fetch p w = (inr x, w') →
  ∃ project_ w1 project_id metadata,
    getProjectByName (Retention.project p) w = (inr project_, w1) ∧
    Py.getitem project_ "project_id" = inr project_id ∧
    Retention.desired x = Retention.createDesiredRetentionPolicy p project_id ∧
    Py.getitem project_ "metadata" = inr metadata ∧
    match Retention.current x with
    | None =>
        Py.contains (JStr "retention_id") metadata = inr false ∧ w' = w1
    | Some (rid, before) =>
        Py.getitem metadata "retention_id" = inr rid ∧
        ∃ resp s', handle (GET (Retention rid)) (registry w1) = (resp, s') ∧
                   status_code resp = 200 ∧
                   body resp = Some before ∧
                   w' = after_request w1 (GET (Retention rid)) s'
    end.
Proof.
  unfold Retention.fetch. rewrite bind_unfold.
  destruct (getProjectByName (Retention.project p) w)
    as [[st|project_] w1] eqn:Hproj; [done|].
  destruct (negb (Py.truthy project_)).
  { rewrite bind_unfold.
    by destruct (py (getattr Retention.attributes "self") w1)
      as [[?|?] ?]. }
  rewrite bind_unfold.
  destruct (Py.getitem project_ "project_id") as [e|project_id] eqn:Hpid;
    [done|].
  rewrite py_value, bind_unfold.
  destruct (Py.getitem project_ "metadata") as [e|metadata] eqn:Hmd; [done|].
  rewrite py_value, bind_unfold.
  destruct (Py.contains (JStr "retention_id") metadata) as [e|[]] eqn:Hhas;
    [done| |].
  - rewrite py_value, bind_unfold.
    destruct (Py.getitem metadata "retention_id") as [e|rid] eqn:Hrid;
      [done|].
    rewrite py_value, bind_unfold.
    unfold Retention.getRetentionPolicy. rewrite bind_unfold.
    unfold request.
    destruct (handle (GET (Retention rid)) (registry w1)) as [resp s'] eqn:Hh.
    case_bool_decide as H200; [|done].
    unfold mret, M_ret, ret. rewrite bind_unfold. unfold json_of.
    destruct (body resp) as [before|] eqn:Hbody; [|done].
    unfold ret. intros [= <- <-].
    exists project_, w1, project_id, metadata. cbn.
    split; [done|]. split; [done|]. split; [done|]. split; [done|].
    split; [done|]. exists resp, s'. by rewrite Hh.
  - rewrite py_value. unfold mret, M_ret, ret. intros [= <- <-].
    exists project_, w1, project_id, metadata. cbn.
    split; [done|]. split; [done|]. split; [done|]. by split.
Qed.


End WholeRuns.

Section ForcedRuns.
Context `{Env}.

(** C4, as the code has it.  With [force] requested, the run of the
    retention module passes over the comparison of the policy read with the
    desired one and takes the write path.  In check mode it ends right
    after the reads, with the pair recorded and [changed = true].  In apply
    mode the PUT of the desired policy is the next request after the reads,
    whatever the policy read; and when the PUT is accepted and the policy
    can be read again, the run reports a change exactly when the policy
    read after the PUT differs from the one read before it. *)
Theorem force_takes_write_path (p : Retention.Params) (s : Registry)
    x w0 rid before :
  Retention.force p = true →
  Retention.fetch p (start s) = (inr x, w0) →
  Retention.current x = Some (rid, before) →
  (Retention.check_mode p = true →
   run (Retention.main p) s =
   (Exit (setChanges before (Retention.desired x) initial_result), w0)) ∧
  (Retention.check_mode p = false →
   (∃ t, trace (run (Retention.main p) s).2 =
         trace w0 ++ PUT (Retention rid) (Retention.desired x) :: t) ∧
   ∀ set_resp s1 after_resp s2 after,
     handle (PUT (Retention rid) (Retention.desired x)) (registry w0)
       = (set_resp, s1) →
     status_code set_resp = 200 ∨ status_code set_resp = 201 →
     handle (GET (Retention rid)) s1 = (after_resp, s2) →
     status_code after_resp = 200 →
     body after_resp = Some after →
     ∃ r w', run (Retention.main p) s = (Exit r, w') ∧
             changed r = bool_decide (before ≠ after)).
Proof.
  intros Hf Hfetch Hcur.
  rewrite (run_fetch_decide _ _ _ s x w0
             (retention_main_fetch_decide p) Hfetch).
  unfold Retention.decide. rewrite Hcur, Hf. cbn [negb andb].
  split; intros Hc; rewrite Hc; [done|]. split.
  - destruct (retention_apply_change_puts rid before (Retention.desired x)
                initial_result w0) as [t Ht].
    exists t.
    by destruct (Retention.apply_change rid before (Retention.desired x)
                   initial_result w0) as [[st|[]] w'].
  - intros set_resp s1 after_resp s2 after Hput Hok Hget H200 Hbody.
    rewrite (retention_apply_change_eq _ _ _ _ _ _ _ _ _ _
               Hput Hok Hget H200 Hbody).
    eexists _, _. split; [done|]. by case_bool_decide.
Qed.


End ForcedRuns.

(** A forced run against a policy that is already the desired one, as a
    preview and as an apply. *)
Lemma force_takes_write_path_witness :
  let s := Example.with_policy in
  let x := {| Retention.desired := Example.policy;
              Retention.current := Some (JNum 10, Example.policy) |} in
  let w0 := @after_request Harbor.env
              (@after_request Harbor.env (@start Harbor.env s)
                 (GET (ProjectsByName "library")) s)
              (GET (Retention (JNum 10))) s in
  @run Harbor.env (Retention.main (Example.retention true true)) s =
    (Exit (setChanges Example.policy Example.policy initial_result), w0) ∧
  (∃ t, @trace Harbor.env
          (@run Harbor.env (Retention.main (Example.retention true false)) s).2
        = @trace Harbor.env w0
          ++ PUT (Retention (JNum 10)) Example.policy :: t) ∧
  ∃ r w', @run Harbor.env (Retention.main (Example.retention true false)) s
          = (Exit r, w') ∧ changed r = false.
Proof.
  intros s x w0.
  assert (@Retention.fetch Harbor.env (Example.retention true true)
            (@start Harbor.env s) = (inr x, w0)) as Hpreview by compute_done.
  assert (@Retention.fetch Harbor.env (Example.retention true false)
            (@start Harbor.env s) = (inr x, w0)) as Hfetch by compute_done.
  destruct (@force_takes_write_path Harbor.env (Example.retention true true)
              s x w0 (JNum 10) Example.policy eq_refl Hpreview eq_refl)
    as [Hcheck _].
  destruct (@force_takes_write_path Harbor.env (Example.retention true false)
              s x w0 (JNum 10) Example.policy eq_refl Hfetch eq_refl)
    as [_ Happly].
  split; [exact (Hcheck eq_refl)|].
  destruct (Happly eq_refl) as [Hput Hchanged]. split; [exact Hput|].
  destruct (Hchanged (Harbor.no_content 200) s (Harbor.ok Example.policy) s
              Example.policy) as (r & w' & Hrun & Hch).
  - compute_done.
  - by left.
  - compute_done.
  - reflexivity.
  - reflexivity.
  - exists r, w'. split; [exact Hrun|]. rewrite Hch.
    apply bool_decide_eq_false_2. intros Hne. apply Hne. reflexivity.
Defined.


Section WritesOfRuns.
Context `{Env}.

Lemma check_mode_reads {A} (main : M Empty_set) (fetch : M A)
    (decide : A → M Empty_set) s :
  (∀ w, main w = (fetch ≫= decide) w) →
  issues reads fetch →
  (∀ x, issues reads (decide x)) →
  Exists (λ q, mutating q = true) (trace (run main s).2) → False.
Proof.
  intros Hmain Hfetch Hdecide Hex.
  eapply reads_not_mutating; [|exact Hex].
  apply issues_run. eapply issues_ext; [exact Hmain|].
  by apply issues_bind.
Qed.

Lemma Exists_fmap_nil {X} (f : X → Request) (P : Request → Prop) l :
  Exists P (f <$> l) → l ≠ [].
Proof. intros Hex ->. by apply Exists_nil in Hex. Qed.

(** C7.  In every run of every reconciler, a POST, PUT or DELETE in the
    trace means that the run is not in check mode, that the current state
    was read, and that the comparison of desired against current failed
    and left something to write.  For the retention policy: the policy read
    differs from the desired one or the comparison is forced, or the
    project read names no policy, so that there is nothing to compare
    with.  For the schedule: the schedule read differs from the desired
    one.  For the rule list: the list read differs from the desired list,
    and a desired rule is not among the rules read or a rule read is not
    among the desired ones. *)
Theorem writes_only_on_delta
    (pr : Retention.Params) (ps : ScanAll.Params)
    (pt : TagImmutability.Params) (s : Registry) :
  (Exists (λ q, mutating q = true) (trace (run (Retention.main pr) s).2) →
   Retention.check_mode pr = false ∧
   ∃ x w, Retention.fetch pr (start s) = (inr x, w) ∧
          match Retention.current x with
          | Some (_, before) =>
              Retention.force pr = true ∨ before ≠ Retention.desired x
          | None =>
              ∃ project_ metadata,
                getProjectByName (Retention.project pr) (start s)
                  = (inr project_, w) ∧
                Py.getitem project_ "metadata" = inr metadata ∧
                Py.contains (JStr "retention_id") metadata = inr false
          end) ∧
  (Exists (λ q, mutating q = true) (trace (run (ScanAll.main ps) s).2) →
   ScanAll.check_mode ps = false ∧
   ∃ before w, ScanAll.getSchedule (start s) = (inr before, w) ∧
               ScanAll.constructDesired (ScanAll.schedule_cron ps)
                                        (ScanAll.param_type ps) ≠ before) ∧
  (Exists (λ q, mutating q = true)
          (trace (run (TagImmutability.main pt) s).2) →
   TagImmutability.check_mode pt = false ∧
   ∃ x w, TagImmutability.fetch_all pt (start s) = (inr x, w) ∧
          TagImmutability.before x ≠ JList (TagImmutability.desired x) ∧
          ((∃ b, b ∈ TagImmutability.desired x ∧
                 Py.contains b (TagImmutability.before x) = inr false) ∨
           (∃ key a i,
              TagImmutability.before_ids x !! key = Some i ∧
              Py.getitem_int (TagImmutability.before x) key = inr a ∧
              a ∉ TagImmutability.desired x))).
Proof.
  split; [|split].
  - intros Hex. split.
    { destruct (Retention.check_mode pr) eqn:Hc; [exfalso|done].
      apply (check_mode_reads _ _ _ s (retention_main_fetch_decide pr)
               (issues_retention_fetch pr)); [|exact Hex].
      intros x. by apply issues_retention_decide_check. }
    destruct (write_needs_delta _ _ _ (Retention.delta pr) s
                (retention_main_fetch_decide pr)
                (issues_retention_fetch pr)
                (issues_retention_decide_same pr) Hex) as (x & w & Hf & Hd).
    exists x, w. split; [done|]. unfold Retention.delta in Hd.
    destruct (retention_fetch_inv _ _ _ _ Hf)
      as (project_ & w1 & project_id & metadata & Hproj & _ & _ & Hmd & Hcur).
    destruct (Retention.current x) as [[rid before]|].
    + apply orb_true_iff in Hd as [Hd|Hd]; [by left|right].
      by apply bool_decide_eq_true in Hd.
    + destruct Hcur as [Hhas ->]. by exists project_, metadata.
  - intros Hex. split.
    { destruct (ScanAll.check_mode ps) eqn:Hc; [exfalso|done].
      apply (check_mode_reads _ _ _ s (scanall_main_fetch_compare ps)
               issues_getSchedule); [|exact Hex].
      intros before. by apply issues_scanall_compare_check. }
    destruct (write_needs_delta _ _ _ (ScanAll.delta ps) s
                (scanall_main_fetch_compare ps) issues_getSchedule)
      as (x & w & Hf & Hd); [|done|].
    + intros x Hd. apply bool_decide_eq_false in Hd.
      apply dec_stable in Hd. subst x. apply issues_scanall_compare_same.
    + exists x, w. split; [done|]. by apply bool_decide_eq_true in Hd.
  - intros Hex.
    assert (TagImmutability.check_mode pt = false) as Hc.
    { destruct (TagImmutability.check_mode pt) eqn:Hc; [exfalso|done].
      apply (check_mode_reads _ _ _ s (tag_main_fetch_decide pt)
               (issues_tag_fetch_all pt)); [|exact Hex].
      intros x. by apply issues_tag_decide_check. }
    split; [done|].
    destruct (write_needs_delta _ _ _ TagImmutability.delta s
                (tag_main_fetch_decide pt) (issues_tag_fetch_all pt)
                (issues_tag_decide_same pt) Hex) as (x & w & Hf & Hd).
    exists x, w. split; [done|].
    apply bool_decide_eq_true in Hd. split; [done|].
    rewrite (run_fetch_decide _ _ _ s x w (tag_main_fetch_decide pt) Hf)
      in Hex.
    unfold TagImmutability.decide, TagImmutability.compare in Hex.
    rewrite bool_decide_eq_false_2, Hc in Hex by done.
    destruct (tag_apply_change_shape (TagImmutability.desired x)
                (TagImmutability.before x) (TagImmutability.before_ids x)
                (TagImmutability.project_id x) initial_result w)
      as (adds & dels & t3 & Htr & Hadds & Hdels & Hr3 & _).
    destruct (TagImmutability.apply_change _ _ _ _ _ w) as [[st|[]] w'].
    cbn [fst snd] in *. rewrite Htr in Hex.
    destruct (issues_tag_fetch_all pt (start s)) as (t0 & Ht0 & Hr0).
    rewrite Hf in Ht0. cbn [fst snd start trace app] in Ht0.
    apply Exists_app in Hex as [Hex|Hex].
    { exfalso. rewrite Ht0 in Hex. exact (reads_not_mutating _ Hr0 Hex). }
    apply Exists_app in Hex as [Hex|Hex].
    { left. apply Exists_fmap_nil in Hex.
      destruct adds as [|b adds]; [done|]. exists b.
      apply Hadds, elem_of_cons. by left. }
    apply Exists_app in Hex as [Hex|Hex].
    { right. apply Exists_fmap_nil in Hex.
      destruct dels as [|i dels]; [done|].
      destruct (Hdels i) as (key & a & Hi & Ha & Hnot);
        [apply elem_of_cons; by left|].
      by exists key, a, i. }
    exfalso. exact (reads_not_mutating _ Hr3 Hex).
Qed.

End WritesOfRuns.

(** Applies that write.  The retention run against a stored policy that
    differs from the desired one (the PUT), and against a project without
    a policy (the POST); the schedule run against a registry without a
    schedule; the rule run with the rule [new] against the stored rule
    [old]. *)
Lemma writes_only_on_delta_witness :
  let pr := Example.retention false false in
  let ps := Example.weekly false in
  let pt := Example.tags [Example.rule "**" "new"] false in
  (∃ x w rid before,
     @Retention.fetch Harbor.env pr (@start Harbor.env Example.with_policy_id)
       = (inr x, w) ∧
     Retention.current x = Some (rid, before) ∧
     (Retention.force pr = true ∨ before ≠ Retention.desired x)) ∧
  (∃ x w project_ metadata,
     @Retention.fetch Harbor.env pr (@start Harbor.env Example.fresh)
       = (inr x, w) ∧
     Retention.current x = None ∧
     @getProjectByName Harbor.env "library" (@start Harbor.env Example.fresh)
       = (inr project_, w) ∧
     Py.getitem project_ "metadata" = inr metadata ∧
     Py.contains (JStr "retention_id") metadata = inr false) ∧
  (ScanAll.check_mode ps = false ∧
   ∃ before w,
     @ScanAll.getSchedule Harbor.env (@start Harbor.env Example.fresh)
       = (inr before, w) ∧
     ScanAll.constructDesired (ScanAll.schedule_cron ps)
                              (ScanAll.param_type ps) ≠ before) ∧
  (TagImmutability.check_mode pt = false ∧
   ∃ x w,
     @TagImmutability.fetch_all Harbor.env pt
       (@start Harbor.env Example.with_old_rule) = (inr x, w) ∧
     TagImmutability.before x ≠ JList (TagImmutability.desired x) ∧
     ((∃ b, b ∈ TagImmutability.desired x ∧
            Py.contains b (TagImmutability.before x) = inr false) ∨
      (∃ key a i,
         TagImmutability.before_ids x !! key = Some i ∧
         Py.getitem_int (TagImmutability.before x) key = inr a ∧
         a ∉ TagImmutability.desired x))).
Proof.
  intros pr ps pt.
  destruct (@writes_only_on_delta Harbor.env pr ps pt Example.with_policy_id)
    as (Hput & _ & _).
  destruct (@writes_only_on_delta Harbor.env pr ps pt Example.fresh)
    as (Hpost & Hs & _).
  destruct (@writes_only_on_delta Harbor.env pr ps pt Example.with_old_rule)
    as (_ & _ & Ht).
  assert (Exists (λ q, mutating q = true)
            (@trace Harbor.env
               (@run Harbor.env (Retention.main pr)
                     Example.with_policy_id).2)) as Eput by compute_done.
  assert (Exists (λ q, mutating q = true)
            (@trace Harbor.env
               (@run Harbor.env (Retention.main pr) Example.fresh).2))
    as Epost by compute_done.
  assert (Exists (λ q, mutating q = true)
            (@trace Harbor.env
               (@run Harbor.env (ScanAll.main ps) Example.fresh).2))
    as Es by compute_done.
  assert (Exists (λ q, mutating q = true)
            (@trace Harbor.env
               (@run Harbor.env (TagImmutability.main pt)
                     Example.with_old_rule).2)) as Et by compute_done.
  split; [|split; [|split]].
  - destruct (Hput Eput) as (_ & x & w & Hf & Hcur).
    assert (@returned Harbor.env _
              (λ x, bool_decide (is_Some (Retention.current x)))
              (@Retention.fetch Harbor.env pr
                 (@start Harbor.env Example.with_policy_id)) = true) as Hobs
      by (vm_compute; reflexivity).
    rewrite Hf in Hobs. unfold returned in Hobs. cbn [fst] in Hobs.
    destruct (Retention.current x) as [[rid before]|] eqn:Hx.
    + exists x, w, rid, before.
      split; [exact Hf|]. split; [exact Hx|exact Hcur].
    + exfalso. apply bool_decide_eq_true in Hobs. by destruct Hobs.
  - destruct (Hpost Epost) as (_ & x & w & Hf & Hcur).
    assert (@returned Harbor.env _
              (λ x, bool_decide (Retention.current x = None))
              (@Retention.fetch Harbor.env pr
                 (@start Harbor.env Example.fresh)) = true) as Hobs
      by (vm_compute; reflexivity).
    rewrite Hf in Hobs. unfold returned in Hobs. cbn [fst] in Hobs.
    apply bool_decide_eq_true in Hobs. rewrite Hobs in Hcur.
    destruct Hcur as (project_ & metadata & Hproj & Hmd & Hhas).
    exists x, w, project_, metadata.
    split; [exact Hf|]. split; [exact Hobs|]. split; [exact Hproj|].
    split; [exact Hmd|exact Hhas].
  - exact (Hs Es).
  - exact (Ht Et).
Defined.

Section CanonicalOfRuns.
Context `{Env}.

(** What [getSchedule] returns, tied to the response it was made from. *)
Lemma getSchedule_inv w v w' :
  ScanAll.getSchedule w = (inr v, w') →
  ∃ resp s',
    handle (GET ScanAllSchedule) (registry w) = (resp, s') ∧
    w' = after_request w (GET ScanAllSchedule) s' ∧
    ((status_code resp = 200 ∧ content_length resp = Some "0" ∧
      v = JDict ∅) ∨
     (∃ decoded sch, body resp = Some decoded ∧
                  Py.getitem decoded "schedule" = inr sch ∧
                  v = dict [("schedule", sch)])).
Proof.
  unfold ScanAll.getSchedule. rewrite bind_unfold. unfold request.
  destruct (handle (GET ScanAllSchedule) (registry w)) as [resp s'] eqn:Hh.
  intros Hget. exists resp, s'. split; [done|].
  fold (after_request w (GET ScanAllSchedule) s') in Hget.
  rewrite bind_unfold in Hget.
  assert (∀ w1,
             (json_of resp ≫= λ schedule,
                py (Py.getitem schedule "schedule") ≫= λ s0,
                  mret (dict [("schedule", s0)])) w1 = (inr v, w') →
             w' = w1 ∧
             ∃ decoded sch, body resp = Some decoded ∧
                         Py.getitem decoded "schedule" = inr sch ∧
                         v = dict [("schedule", sch)]) as Hbody.
  { intros w1. rewrite bind_unfold. unfold json_of.
    destruct (body resp) as [b|]; [|done]. unfold ret at 1. cbv beta iota.
    rewrite bind_unfold.
    destruct (Py.getitem b "schedule") as [e|sch] eqn:Hsch; [done|].
    rewrite py_value. unfold mret, M_ret, ret. intros [= <- <-].
    split; [done|]. by exists b, sch. }
  case_bool_decide as H200.
  - destruct (content_length resp) as [l|] eqn:Hl; [|done].
    unfold mret at 1, M_ret, ret in Hget. cbv beta iota in Hget.
    case_bool_decide as Hz.
    + unfold mret, M_ret, ret in Hget. injection Hget as <- <-.
      split; [done|]. left. by subst l.
    + destruct (Hbody _ Hget) as [-> Hb]. split; [done|]. by right.
  - unfold mret at 1, M_ret, ret in Hget. cbv beta iota in Hget.
    destruct (Hbody _ Hget) as [-> Hb]. split; [done|]. by right.
Qed.

(** C8, as the code has it.  The canonical form of the rule list has no
    [id] member, nor has any of its items: each fetched rule loses its [id],
    which is kept aside in the order of the rules, and has [project_id],
    [priority] and [disabled] overwritten; its other members stay.  The
    canonical schedule is the empty mapping, for the answer 200 without
    content, or else the [schedule] member of the decoded body alone, so it
    has no [id] member either.  The retention policy the run compares with
    the desired one is the decoded body of the answer to the GET of the
    policy, as it is: nothing is taken out of it. *)
Theorem canonical_forms :
  (∀ body pid l ids,
     TagImmutability.canonical body pid = inr (l, ids) →
     has_id l = false ∧
     (∀ xs, l = JList xs → Forall (λ x, has_id x = false) xs) ∧
     (∀ items, body = JList items →
        ∃ ds : list (gmap string json),
          items = JDict <$> ds ∧
          l = JList ((λ d, JDict (<["disabled" := JFalse]>
                                    (<["priority" := JNum 0]>
                                       (<["project_id" := pid]>
                                          (delete "id" d))))) <$> ds) ∧
          Some <$> ids = (λ d, d !! "id") <$> ds)) ∧
  (∀ w v w', ScanAll.getSchedule w = (inr v, w') →
     has_id v = false ∧
     ∃ resp s',
       handle (GET ScanAllSchedule) (registry w) = (resp, s') ∧
       ((status_code resp = 200 ∧ content_length resp = Some "0" ∧
         v = JDict ∅) ∨
        (∃ decoded sch, body resp = Some decoded ∧
                     Py.getitem decoded "schedule" = inr sch ∧
                     v = dict [("schedule", sch)]))) ∧
  (∀ (p : Retention.Params) (s : Registry) x w rid before,
     Retention.fetch p (start s) = (inr x, w) →
     Retention.current x = Some (rid, before) →
     (∃ w1 resp,
        handle (GET (Retention rid)) (registry w1) = (resp, registry w) ∧
        trace w = trace w1 ++ [GET (Retention rid)] ∧
        status_code resp = 200 ∧
        body resp = Some before) ∧
     (Retention.force p = false →
      Retention.check_mode p = true →
      run (Retention.main p) s =
      (Exit (if bool_decide (before = Retention.desired x)
             then set_changed false initial_result
             else setChanges before (Retention.desired x) initial_result),
       w))).
Proof.
  split; [|split].
  - intros body pid l ids Hcan.
    assert (∀ items, body = JList items →
        ∃ ds : list (gmap string json),
          items = JDict <$> ds ∧
          l = JList ((λ d, JDict (<["disabled" := JFalse]>
                                    (<["priority" := JNum 0]>
                                       (<["project_id" := pid]>
                                          (delete "id" d))))) <$> ds) ∧
          Some <$> ids = (λ d, d !! "id") <$> ds) as Hlist.
    { intros items ->. rewrite canonical_list in Hcan.
      destruct (mapM (canonical_item pid) items) as [e|r] eqn:Hr; [done|].
      simpl in Hcan. injection Hcan as <- <-.
      apply mapM_inv in Hr. clear -Hr.
      induction Hr as [|x [y i] items r Hx _ IH].
      { by exists []. }
      destruct IH as (ds & -> & [= Hl] & Hids).
      apply canonical_item_inv in Hx as (d & -> & Hid & ->).
      exists (d :: ds). rewrite !fmap_cons. cbn [fst snd].
      by rewrite Hl, Hids, Hid. }
    assert (∀ xs, l = JList xs → Forall (λ x, has_id x = false) xs) as Hxs.
    { intros xs ->.
      destruct (canonical_not_list _ _ _ _ Hcan) as [[items ->]|[<- _]].
      - destruct (Hlist items eq_refl) as (ds & _ & [= ->] & _).
        apply Forall_fmap, Forall_forall. intros d _. simpl.
        apply bool_decide_eq_false_2. rewrite !lookup_insert_ne by done.
        rewrite lookup_delete_eq. by intros [? ?].
      - destruct (Hlist xs eq_refl) as (ds & _ & [= ->] & _).
        apply Forall_fmap, Forall_forall. intros d _. simpl.
        apply bool_decide_eq_false_2. rewrite !lookup_insert_ne by done.
        rewrite lookup_delete_eq. by intros [? ?]. }
    split; [|done].
    destruct (canonical_not_list _ _ _ _ Hcan) as [[items ->]|[-> Hno]];
      [|done].
    by destruct (Hlist items eq_refl) as (ds & _ & -> & _).
  - intros w v w' Hget.
    destruct (getSchedule_inv w v w' Hget) as (resp & s' & Hh & _ & Hv).
    split.
    + destruct Hv as [(_ & _ & ->)|(b & sch & _ & _ & ->)]; [done|].
      unfold dict, has_id. cbn [list_to_map foldr fst snd].
      apply bool_decide_eq_false_2. rewrite lookup_insert_ne by done.
      rewrite lookup_empty. by intros [? ?].
    + by exists resp, s'.
  - intros p s x w rid before Hfetch Hcur.
    destruct (retention_fetch_inv _ _ _ _ Hfetch)
      as (project_ & w1 & project_id & metadata & _ & _ & _ & _ & Hx).
    rewrite Hcur in Hx. destruct Hx as (_ & resp & s' & Hh & H200 & Hb & ->).
    split.
    + exists w1, resp. by rewrite Hh.
    + intros Hforce Hc.
      rewrite (run_fetch_decide _ _ _ s x _
                 (retention_main_fetch_decide p) Hfetch).
      unfold Retention.decide. rewrite Hcur, Hforce, Hc. cbn [negb andb].
      by destruct (bool_decide (before = Retention.desired x)).
Qed.

End CanonicalOfRuns.

(** The one rule the registry returns for [library], with its [id]; the
    schedule of a registry that has one; and the policy of [library] as the
    registry returns it, with its [id]. *)
Lemma canonical_forms_witness :
  let rules := JList [Harbor.rule_json
                        (Harbor.mkRule 1 7 (Example.stored_rule "old"))] in
  let l := JList [JDict (Example.stored_rule "old")] in
  let sch := dict [("cron", JStr "0 0 0 * * 0"); ("type", JStr "Custom")] in
  let s := set_schedule sch Example.fresh in
  (TagImmutability.canonical rules (JNum 1) = inr (l, [JNum 7]) ∧
   has_id l = false ∧
   Forall (λ x, has_id x = false) [JDict (Example.stored_rule "old")]) ∧
  (@ScanAll.getSchedule Harbor.env (@start Harbor.env s)
     = (inr (dict [("schedule", sch)]),
        @after_request Harbor.env (@start Harbor.env s)
          (GET ScanAllSchedule) s) ∧
   has_id (dict [("schedule", sch)]) = false) ∧
  (∃ w1 resp,
     @handle Harbor.env (GET (Retention (JNum 10)))
       (@registry Harbor.env w1) = (resp, Example.with_policy_id) ∧
     status_code resp = 200 ∧
     body resp = Some Example.policy_with_id ∧
     has_id Example.policy_with_id = true).
Proof.
  intros rules l sch s.
  destruct (@canonical_forms Harbor.env) as (Htag & Hsched & Hret).
  split; [|split].
  - assert (TagImmutability.canonical rules (JNum 1) = inr (l, [JNum 7]))
      as Hcan by compute_done.
    split; [exact Hcan|].
    destruct (Htag rules (JNum 1) l [JNum 7] Hcan) as (Hl & Hitems & _).
    split; [exact Hl|]. by apply Hitems.
  - assert (@ScanAll.getSchedule Harbor.env (@start Harbor.env s)
            = (inr (dict [("schedule", sch)]),
               @after_request Harbor.env (@start Harbor.env s)
                 (GET ScanAllSchedule) s)) as Hget by compute_done.
    split; [exact Hget|].
    exact (proj1 (Hsched _ _ _ Hget)).
  - set (x := {| Retention.desired := Example.policy;
                 Retention.current :=
                   Some (JNum 10, Example.policy_with_id) |}).
    set (w := @after_request Harbor.env
                (@after_request Harbor.env
                   (@start Harbor.env Example.with_policy_id)
                   (GET (ProjectsByName "library")) Example.with_policy_id)
                (GET (Retention (JNum 10))) Example.with_policy_id).
    assert (@Retention.fetch Harbor.env (Example.retention false true)
              (@start Harbor.env Example.with_policy_id) = (inr x, w))
      as Hfetch by compute_done.
    destruct (Hret (Example.retention false true) Example.with_policy_id
                x w (JNum 10) Example.policy_with_id Hfetch eq_refl)
      as [(w1 & resp & Hh & _ & H200 & Hb) _].
    exists w1, resp.
    split; [exact Hh|]. split; [exact H200|]. split; [exact Hb|].
    compute_done.
Defined.

Section RegistryStates.

(** The identifiers of the reference registry stay distinct and below the
    next one, whatever is requested of it. *)
Lemma wf_rules_without_rules s : wf_rules (without_rules s).
Proof. split; [apply NoDup_nil_2|apply Forall_nil_2]. Qed.

Lemma wf_rules_next s (s' : Harbor.State) :
  Harbor.rules s' = Harbor.rules s →
  Harbor.next_id s ≤ Harbor.next_id s' →
  wf_rules s → wf_rules s'.
Proof.
  intros Hr Hn [Hnd Hlt]. unfold wf_rules. rewrite Hr. split; [done|].
  eapply Forall_impl; [exact Hlt|]. intros r Hlt'. simpl in Hlt'. lia.
Qed.

Lemma NoDup_fmap_filter {X Y} (f : X → Y) (P : X → Prop)
    `{∀ x, Decision (P x)} (l : list X) :
  NoDup (f <$> l) → NoDup (f <$> filter P l).
Proof.
  induction l as [|x l IH]; [done|].
  rewrite fmap_cons, filter_cons. intros [Hx Hnd]%NoDup_cons.
  case_decide; [|by apply IH].
  rewrite fmap_cons. apply NoDup_cons. split; [|by apply IH].
  intros Hin. apply Hx. apply list_elem_of_fmap in Hin as (y & -> & Hy).
  apply list_elem_of_filter in Hy as [_ Hy].
  apply list_elem_of_fmap. eauto.
Qed.

Lemma wf_rules_handle q s :
  wf_rules s → wf_rules (Harbor.harbor_handle q s).2.
Proof.
  intros Hwf. unfold Harbor.harbor_handle.
  repeat case_match; subst; cbn [snd]; try exact Hwf;
    try (eapply wf_rules_next; [| |exact Hwf]; cbn; [reflexivity|lia]).
  - destruct Hwf as [Hnd Hlt]. split; cbn.
    + rewrite fmap_app. apply NoDup_app. split; [done|]. split.
      * intros i Hi Hi'. cbn in Hi'. apply list_elem_of_singleton in Hi'.
        subst i. apply list_elem_of_fmap in Hi as (r & Hr & Hin).
        rewrite Forall_forall in Hlt. specialize (Hlt r Hin). lia.
      * cbn. apply NoDup_singleton.
    + apply Forall_app. split.
      * eapply Forall_impl; [exact Hlt|]. intros r Hr. simpl in Hr. lia.
      * repeat constructor. cbn. lia.
  - destruct Hwf as [Hnd Hlt]. split; cbn.
    + by apply NoDup_fmap_filter.
    + apply Forall_forall. intros r [_ Hr]%list_elem_of_filter.
      rewrite Forall_forall in Hlt. by apply Hlt.
Qed.

Lemma wf_rules_requests_on s qs : wf_rules s → wf_rules (requests_on s qs).
Proof.
  revert s. induction qs as [|q qs IH]; intros s Hwf; [done|].
  cbn. apply IH. by apply wf_rules_handle.
Qed.

End RegistryStates.

Section TwiceOnRuns.
Local Existing Instance Harbor.env.

Lemma filter_not_nil_iff {X} (P : X → Prop) `{∀ x, Decision (P x)}
    (l : list X) :
  filter P l ≠ [] ↔ ∃ x, x ∈ l ∧ P x.
Proof.
  split.
  - destruct (filter P l) as [|y k] eqn:Hf; [done|]. intros _. exists y.
    assert (y ∈ filter P l) as Hin
      by (rewrite Hf; apply elem_of_cons; by left).
    apply list_elem_of_filter in Hin as [HP Hy]. by split.
  - intros (x & Hx & HP) Hnil.
    assert (x ∈ filter P l) as Hin by (by apply list_elem_of_filter).
    rewrite Hnil in Hin. by apply elem_of_nil in Hin.
Qed.

Lemma getattr_self_retention :
  getattr Retention.attributes "self" = inl (Py.AttributeError "self").
Proof. vm_compute. reflexivity. Qed.

Lemma getattr_self_tag :
  getattr TagImmutability.attributes "self"
  = inl (Py.AttributeError "self").
Proof. vm_compute. reflexivity. Qed.

(** The reads of the retention run against the reference registry. *)
Lemma harbor_retention_fetch p (s : Harbor.State) :
  match find_project (Retention.project p) s with
  | None =>
      ∃ e w, Retention.fetch p (start s) = (inl (Crash e), w)
  | Some proj =>
      match Harbor.retention proj with
      | None =>
          Retention.fetch p (start s) =
          (inr {| Retention.desired :=
                    Retention.createDesiredRetentionPolicy
                      p (JNum (Harbor.id proj));
                  Retention.current := None |},
           after_request (start s)
             (GET (ProjectsByName (Retention.project p))) s)
      | Some r =>
          match Harbor.policies s !! r with
          | Some pol =>
              Retention.fetch p (start s) =
              (inr {| Retention.desired :=
                        Retention.createDesiredRetentionPolicy
                          p (JNum (Harbor.id proj));
                      Retention.current := Some (JNum r, pol) |},
               after_request
                 (after_request (start s)
                    (GET (ProjectsByName (Retention.project p))) s)
                 (GET (Retention (JNum r))) s)
          | None =>
              ∃ m w, Retention.fetch p (start s) = (inl (Fail m None), w)
          end
      end
  end.
Proof.
  unfold Retention.fetch.
  rewrite bind_unfold, harbor_getProjectByName. cbn [registry start].
  destruct (find_project (Retention.project p) s) as [proj|];
    cbn [from_option].
  2:{ cbn [Py.truthy negb]. rewrite bind_unfold, getattr_self_retention.
      by eexists _, _. }
  replace (Py.truthy (Harbor.project_json proj)) with true
    by (symmetry; apply truthy_dict_cons).
  cbn [negb].
  rewrite bind_unfold, project_json_id, py_inr.
  destruct (project_json_metadata proj) as (md & Hmd & Hret).
  rewrite bind_unfold, Hmd, py_inr.
  destruct (Harbor.retention proj) as [r|].
  - destruct Hret as [Hin Hget].
    rewrite bind_unfold, Hin, py_inr.
    rewrite bind_unfold, Hget, py_inr.
    destruct (Harbor.policies s !! r) as [pol|] eqn:Hpol.
    + rewrite bind_unfold, (harbor_getRetentionPolicy r pol) by done.
      by rewrite bind_unfold, (json_of_ok _ pol) by done.
    + rewrite bind_unfold.
      rewrite (@getRetentionPolicy_fail Harbor.env (JNum r) _
                 (Harbor.error 404 "retention not found") s).
      * by eexists _, _.
      * cbn [handle Harbor.env registry after_request].
        unfold Harbor.harbor_handle. by rewrite Hpol.
      * done.
  - by rewrite bind_unfold, Hret, py_inr.
Qed.

(** A retention run that ends in [exit_json] has found the project and,
    when the project names a policy, the policy. *)
Lemma harbor_retention_exited p (s : Harbor.State) :
  exited (run (Retention.main p) s) = true →
  ∃ proj, find_project (Retention.project p) s = Some proj ∧
          (∀ r, Harbor.retention proj = Some r →
                is_Some (Harbor.policies s !! r)).
Proof.
  unfold exited, run. fold (start s).
  rewrite retention_main_fetch_decide, bind_unfold.
  pose proof (harbor_retention_fetch p s) as Hf.
  destruct (find_project (Retention.project p) s) as [proj|].
  2:{ destruct Hf as (e & w & ->). done. }
  intros Hex. exists proj. split; [done|]. intros r Hr. rewrite Hr in Hf.
  destruct (Harbor.policies s !! r) as [pol|]; [by eexists|].
  destruct Hf as (m & w & Hf). by rewrite Hf in Hex.
Qed.

(** The reads of the rule run against the reference registry. *)
Lemma harbor_tag_fetch_all p (s : Harbor.State) :
  match find_project (TagImmutability.project p) s with
  | None =>
      ∃ e w, TagImmutability.fetch_all p (start s) = (inl (Crash e), w)
  | Some proj =>
      match TagImmutability.createDesiredTagImmutabilityList
              p (JNum (Harbor.id proj)) with
      | inl e =>
          ∃ w, TagImmutability.fetch_all p (start s) = (inl (Crash e), w)
      | inr B =>
          TagImmutability.fetch_all p (start s) =
          (inr {| TagImmutability.project_id := JNum (Harbor.id proj);
                  TagImmutability.desired := B;
                  TagImmutability.before :=
                    JList (current_rules (Harbor.id proj) s);
                  TagImmutability.before_ids :=
                    current_ids (Harbor.id proj) s |},
           after_request
             (after_request (start s)
                (GET (ProjectsByName (TagImmutability.project p))) s)
             (GET (ImmutableTagRules (JNum (Harbor.id proj)))) s)
      end
  end.
Proof.
  unfold TagImmutability.fetch_all.
  rewrite bind_unfold, harbor_getProjectByName. cbn [registry start].
  destruct (find_project (TagImmutability.project p) s) as [proj|];
    cbn [from_option].
  2:{ cbn [Py.truthy negb]. rewrite bind_unfold, getattr_self_tag.
      by eexists _, _. }
  replace (Py.truthy (Harbor.project_json proj)) with true
    by (symmetry; apply truthy_dict_cons).
  cbn [negb].
  rewrite bind_unfold, project_json_id, py_inr. rewrite bind_unfold.
  destruct (TagImmutability.createDesiredTagImmutabilityList
              p (JNum (Harbor.id proj))) as [e|B].
  { by eexists. }
  rewrite py_inr.
  by rewrite bind_unfold, harbor_tag_fetch.
Qed.

Lemma harbor_tag_exited p (s : Harbor.State) :
  exited (run (TagImmutability.main p) s) = true →
  ∃ proj B,
    find_project (TagImmutability.project p) s = Some proj ∧
    TagImmutability.createDesiredTagImmutabilityList
      p (JNum (Harbor.id proj)) = inr B.
Proof.
  unfold exited, run. fold (start s).
  rewrite tag_main_fetch_decide, bind_unfold.
  pose proof (harbor_tag_fetch_all p s) as Hf.
  destruct (find_project (TagImmutability.project p) s) as [proj|].
  2:{ destruct Hf as (e & w & ->). done. }
  destruct (TagImmutability.createDesiredTagImmutabilityList
              p (JNum (Harbor.id proj))) as [e|B] eqn:HB.
  { destruct Hf as (w & ->). done. }
  intros _. by exists proj, B.
Qed.

End TwiceOnRuns.

Section Twice2.
Local Existing Instance Harbor.env.

(** C1, as the code has it.  Two applies in a row, against the reference
    registry, which stores what it is sent and answers with it.  The first
    apply that ends in [exit_json] reports [changed = false] when it found
    no delta, and when it found one it reports [changed = true] unless
    what it reads after its writes is what it read before them: for the
    retention policy unless the delta is the [force] flag alone, the policy
    read being the desired one; for the rule list unless the rules read
    and the desired rules have the same members, in another order or
    number; for the schedule always.  The second apply, with the same
    input on the registry the first one left, ends in [exit_json] with
    [changed = false].  The rule identifiers of the registry are those it
    has assigned itself: its state is one reached by requests from a
    registry without rules. *)
Theorem apply_twice_settles :
  (∀ (p : ScanAll.Params) (s : Harbor.State),
     ScanAll.check_mode p = false →
     ∃ before w0 r1 w1 r2 w2,
       ScanAll.getSchedule (start s) = (inr before, w0) ∧
       run (ScanAll.main p) s = (Exit r1, w1) ∧
       changed r1 = ScanAll.delta p before ∧
       run (ScanAll.main p) (registry w1) = (Exit r2, w2) ∧
       changed r2 = false) ∧
  (∀ (p : Retention.Params) (s : Harbor.State),
     Retention.check_mode p = false →
     exited (run (Retention.main p) s) = true →
     ∃ x w0 r1 w1 r2 w2,
       Retention.fetch p (start s) = (inr x, w0) ∧
       run (Retention.main p) s = (Exit r1, w1) ∧
       (Retention.delta p x = false → changed r1 = false) ∧
       (Retention.delta p x = true →
        (changed r1 = true ↔
         ∀ rid, Retention.current x ≠ Some (rid, Retention.desired x))) ∧
       run (Retention.main p) (registry w1) = (Exit r2, w2) ∧
       changed r2 = false) ∧
  (∀ (p : TagImmutability.Params) (s0 : Harbor.State) (qs : list Request),
     let s := requests_on (without_rules s0) qs in
     TagImmutability.check_mode p = false →
     exited (run (TagImmutability.main p) s) = true →
     ∃ x w0 A r1 w1 r2 w2,
       TagImmutability.fetch_all p (start s) = (inr x, w0) ∧
       TagImmutability.before x = JList A ∧
       run (TagImmutability.main p) s = (Exit r1, w1) ∧
       (TagImmutability.delta x = false → changed r1 = false) ∧
       (TagImmutability.delta x = true →
        (changed r1 = true ↔
         (∃ b, b ∈ TagImmutability.desired x ∧ b ∉ A) ∨
         (∃ a, a ∈ A ∧ a ∉ TagImmutability.desired x))) ∧
       run (TagImmutability.main p) (registry w1) = (Exit r2, w2) ∧
       changed r2 = false).
Proof.
  split; [|split].
  - intros p s Hc.
    destruct (harbor_scanall_apply p s Hc) as (r1 & w1 & Hrun1 & Hch1 & Hs1).
    destruct (harbor_scanall_apply p (registry w1) Hc)
      as (r2 & w2 & Hrun2 & Hch2 & _).
    eexists _, _, r1, w1, r2, w2.
    split; [apply (harbor_getSchedule (@start Harbor.env s))|].
    split; [done|]. split; [|split; [done|]].
    + rewrite Hch1. unfold ScanAll.delta. cbn [registry start].
      apply bool_decide_ext. rewrite <- (schedule_delta p s). tauto.
    + rewrite Hch2. apply bool_decide_eq_false_2. intros Hne. by apply Hne.
  - intros p s Hc Hex.
    destruct (harbor_retention_exited p s Hex) as (proj & Hfind & Hwf).
    destruct (harbor_retention_apply p s proj Hc Hfind Hwf)
      as (r1 & w1 & proj' & rid & Hrun1 & Hch1 & Hfind' & Hid & Hret & Hpol).
    destruct (harbor_retention_apply p (registry w1) proj' Hc Hfind')
      as (r2 & w2 & _ & _ & Hrun2 & Hch2 & _).
    { intros r Hr. rewrite Hret in Hr. injection Hr as <-. by eexists. }
    pose proof (harbor_retention_fetch p s) as Hf. rewrite Hfind in Hf.
    set (desired := Retention.createDesiredRetentionPolicy
                      p (JNum (Harbor.id proj))) in *.
    assert (changed r2 = false) as Hsettled.
    { rewrite Hch2. apply bool_decide_eq_false_2. intros Hne. apply Hne.
      unfold current_policy. rewrite Hret. cbn [mbind option_bind].
      by rewrite Hpol, Hid. }
    unfold current_policy in Hch1.
    destruct (Harbor.retention proj) as [r|] eqn:Hr.
    + destruct (Hwf r eq_refl) as [pol Hpol0]. rewrite Hpol0 in Hf.
      cbn [mbind option_bind] in Hch1. rewrite Hpol0 in Hch1.
      eexists _, _, r1, w1, r2, w2. split; [exact Hf|].
      split; [done|]. cbn [Retention.current Retention.desired].
      unfold Retention.delta. cbn [Retention.current Retention.desired].
      split; [|split; [|by split]].
      * intros [_ Hd]%orb_false_iff. apply bool_decide_eq_false in Hd.
        apply dec_stable in Hd. rewrite Hch1.
        apply bool_decide_eq_false_2. intros Hne. apply Hne. by rewrite Hd.
      * intros _. rewrite Hch1, bool_decide_eq_true. split.
        -- intros Hne rid0 [= _ ->]. by apply Hne.
        -- intros Hall [= ->]. by apply (Hall (JNum r)).
    + cbn [mbind option_bind] in Hch1.
      eexists _, _, r1, w1, r2, w2. split; [exact Hf|].
      split; [done|]. cbn [Retention.current Retention.desired].
      unfold Retention.delta. cbn [Retention.current Retention.desired].
      split; [done|]. split; [|by split].
      intros _. rewrite Hch1, bool_decide_eq_true. by split.
  - intros p s0 qs s Hc Hex.
    assert (wf_rules s) as Hwf
      by apply wf_rules_requests_on, wf_rules_without_rules.
    destruct (harbor_tag_exited p s Hex) as (proj & B & Hfind & HB).
    destruct (harbor_tag_apply p s proj B Hc Hfind HB Hwf)
      as (r1 & w1 & Hrun1 & Hch1 & Hfind' & HBA & HAB).
    destruct (harbor_tag_settled p (registry w1) proj B Hc Hfind' HB HBA HAB)
      as (r2 & w2 & Hrun2 & Hch2).
    pose proof (harbor_tag_fetch_all p s) as Hf. rewrite Hfind, HB in Hf.
    eexists _, _, (current_rules (Harbor.id proj) s), r1, w1, r2, w2.
    split; [exact Hf|]. split; [reflexivity|]. split; [done|].
    unfold TagImmutability.delta.
    cbn [TagImmutability.before TagImmutability.desired].
    assert (changed r1 = true ↔
            (∃ b, b ∈ B ∧ b ∉ current_rules (Harbor.id proj) s) ∨
            (∃ a, a ∈ current_rules (Harbor.id proj) s ∧ a ∉ B)) as Hiff.
    { rewrite Hch1.
      by rewrite (filter_not_nil_iff (λ b, b ∉ current_rules _ s) B),
                 (filter_not_nil_iff (λ a, a ∉ B) (current_rules _ s)). }
    split; [|split; [|by split]].
    + intros Hd. apply bool_decide_eq_false in Hd. apply dec_stable in Hd.
      injection Hd as Hd.
      destruct (changed r1); [exfalso|done].
      destruct (proj1 Hiff eq_refl) as [(b & Hb & Hnb)|(a & Ha & Hna)].
      * apply Hnb. by rewrite Hd.
      * apply Hna. by rewrite <- Hd.
    + by intros _.
Qed.

End Twice2.

(** C1 as stated fails in apply mode.  Against the reference registry a
    first apply that found a delta reports [changed = false] when its
    writes change nothing: the forced apply of the policy that [library]
    already has, and the apply of the rules [new] and [old] to a project
    that has them in the other order.  Against a registry that accepts
    what it is sent without storing it, the second apply of a schedule
    reports a change again.  And an apply for a project the registry does
    not know reports no change flag at all: it does not end in
    [exit_json]. *)
Lemma first_apply_reports_unchanged :
  ¬ (∀ (p : Retention.Params) (s : Harbor.State) x w0 r1 w1,
       Retention.check_mode p = false →
       @Retention.fetch Harbor.env p (@start Harbor.env s) = (inr x, w0) →
       Retention.delta p x = true →
       @run Harbor.env (Retention.main p) s = (Exit r1, w1) →
       changed r1 = true) ∧
  ¬ (∀ (p : TagImmutability.Params) (s : Harbor.State) x w0 r1 w1,
       TagImmutability.check_mode p = false →
       @TagImmutability.fetch_all Harbor.env p (@start Harbor.env s)
         = (inr x, w0) →
       TagImmutability.delta x = true →
       @run Harbor.env (TagImmutability.main p) s = (Exit r1, w1) →
       changed r1 = true) ∧
  ¬ (∀ (p : ScanAll.Params) (s : Harbor.State) r1 w1 r2 w2,
       ScanAll.check_mode p = false →
       @run Frozen.env (ScanAll.main p) s = (Exit r1, w1) →
       @run Frozen.env (ScanAll.main p) (@registry Frozen.env w1)
         = (Exit r2, w2) →
       changed r2 = false) ∧
  ¬ (∀ (p : Retention.Params) (s : Harbor.State),
       Retention.check_mode p = false →
       @exited Harbor.env (@run Harbor.env (Retention.main p) s) = true).
Proof.
  split; [|split; [|split]].
  - intros Hclaim.
    set (p := Example.retention true false).
    assert (@returned Harbor.env _ (Retention.delta p)
              (@Retention.fetch Harbor.env p
                 (@start Harbor.env Example.with_policy)) = true) as Hd
      by (vm_compute; reflexivity).
    assert (changed_of (@run Harbor.env (Retention.main p)
                          Example.with_policy).1 = Some false) as Hobs
      by (vm_compute; reflexivity).
    remember (@Retention.fetch Harbor.env p
                (@start Harbor.env Example.with_policy)) as out eqn:Hf.
    destruct out as [[st|x] w0]; [discriminate Hd|].
    remember (@run Harbor.env (Retention.main p) Example.with_policy)
      as out1 eqn:Hrun.
    destruct out1 as [[r1|m r|e] w1]; [|discriminate Hobs|discriminate Hobs].
    symmetry in Hf, Hrun.
    specialize (Hclaim p Example.with_policy x w0 r1 w1 eq_refl Hf Hd Hrun).
    simpl in Hobs. congruence.
  - intros Hclaim.
    set (p := Example.tags [Example.rule "**" "new"; Example.rule "**" "old"]
                           false).
    assert (@returned Harbor.env _ TagImmutability.delta
              (@TagImmutability.fetch_all Harbor.env p
                 (@start Harbor.env with_two_rules)) = true) as Hd
      by (vm_compute; reflexivity).
    assert (changed_of (@run Harbor.env (TagImmutability.main p)
                          with_two_rules).1 = Some false) as Hobs
      by (vm_compute; reflexivity).
    remember (@TagImmutability.fetch_all Harbor.env p
                (@start Harbor.env with_two_rules)) as out eqn:Hf.
    destruct out as [[st|x] w0]; [discriminate Hd|].
    remember (@run Harbor.env (TagImmutability.main p) with_two_rules)
      as out1 eqn:Hrun.
    destruct out1 as [[r1|m r|e] w1]; [|discriminate Hobs|discriminate Hobs].
    symmetry in Hf, Hrun.
    specialize (Hclaim p with_two_rules x w0 r1 w1 eq_refl Hf Hd Hrun).
    simpl in Hobs. congruence.
  - intros Hclaim.
    set (p := Example.weekly false).
    assert (changed_of
              (@run Frozen.env (ScanAll.main p)
                 (@registry Frozen.env
                    (@run Frozen.env (ScanAll.main p) Example.fresh).2)).1
            = Some true) as Hobs
      by (vm_compute; reflexivity).
    assert (@exited Frozen.env
              (@run Frozen.env (ScanAll.main p) Example.fresh) = true)
      as Hex by (vm_compute; reflexivity).
    remember (@run Frozen.env (ScanAll.main p) Example.fresh)
      as out1 eqn:Hrun1.
    destruct out1 as [[r1|m r|e] w1];
      [|discriminate Hex|discriminate Hex].
    cbn [snd] in Hobs.
    remember (@run Frozen.env (ScanAll.main p) (@registry Frozen.env w1))
      as out2 eqn:Hrun2.
    destruct out2 as [[r2|m r2|e] w2]; [|discriminate Hobs|discriminate Hobs].
    symmetry in Hrun1, Hrun2.
    specialize (Hclaim p Example.fresh r1 w1 r2 w2 eq_refl Hrun1 Hrun2).
    simpl in Hobs. congruence.
  - intros Hclaim.
    set (p := {| Retention.project := "missing"; Retention.rules := [];
                 Retention.schedule_cron := "0 0 0 * * 0";
                 Retention.force := false;
                 Retention.check_mode := false |}).
    assert (@exited Harbor.env
              (@run Harbor.env (Retention.main p) Example.fresh) = false)
      as Hobs by (vm_compute; reflexivity).
    specialize (Hclaim p Example.fresh eq_refl). congruence.
Qed.

(** Two applies in a row of the three modules: against a registry without
    a schedule, for the project [library] without a policy, and with the
    rule [new] against a registry that was sent the rule [old]. *)
Lemma apply_twice_settles_witness :
  let s := requests_on (without_rules Example.fresh)
             [POST (ImmutableTagRules (JNum 1))
                   (JDict (Example.stored_rule "old"))] in
  (∃ r1 w1 r2 w2,
     @run Harbor.env (ScanAll.main (Example.weekly false)) Example.fresh
       = (Exit r1, w1) ∧
     changed r1 = true ∧
     @run Harbor.env (ScanAll.main (Example.weekly false))
       (@registry Harbor.env w1) = (Exit r2, w2) ∧
     changed r2 = false) ∧
  (∃ r1 w1 r2 w2,
     @run Harbor.env (Retention.main (Example.retention false false))
       Example.fresh = (Exit r1, w1) ∧
     @run Harbor.env (Retention.main (Example.retention false false))
       (@registry Harbor.env w1) = (Exit r2, w2) ∧
     changed r2 = false) ∧
  (∃ r1 w1 r2 w2,
     @run Harbor.env
       (TagImmutability.main (Example.tags [Example.rule "**" "new"] false))
       s = (Exit r1, w1) ∧
     @run Harbor.env
       (TagImmutability.main (Example.tags [Example.rule "**" "new"] false))
       (@registry Harbor.env w1) = (Exit r2, w2) ∧
     changed r2 = false).
Proof.
  intros s.
  destruct apply_twice_settles as (Hscan & Hret & Htag).
  split; [|split].
  - destruct (Hscan (Example.weekly false) Example.fresh eq_refl)
      as (before & w0 & r1 & w1 & r2 & w2 & Hget & Hrun1 & Hch1 & Hrun2
          & Hch2).
    exists r1, w1, r2, w2. split; [exact Hrun1|].
    split; [|split; [exact Hrun2 | exact Hch2]].
    rewrite Hch1.
    assert (@returned Harbor.env _ (ScanAll.delta (Example.weekly false))
              (@ScanAll.getSchedule Harbor.env
                 (@start Harbor.env Example.fresh)) = true) as Hobs
      by (vm_compute; reflexivity).
    rewrite Hget in Hobs. exact Hobs.
  - destruct (Hret (Example.retention false false) Example.fresh eq_refl)
      as (x & w0 & r1 & w1 & r2 & w2 & _ & Hrun1 & _ & _ & Hrun2 & Hch2).
    { vm_compute. reflexivity. }
    exists r1, w1, r2, w2.
    split; [exact Hrun1|]. split; [exact Hrun2 | exact Hch2].
  - destruct (Htag (Example.tags [Example.rule "**" "new"] false)
                Example.fresh
                [POST (ImmutableTagRules (JNum 1))
                      (JDict (Example.stored_rule "old"))] eq_refl)
      as (x & w0 & A & r1 & w1 & r2 & w2 & _ & _ & Hrun1 & _ & _ & Hrun2
          & Hch2).
    { vm_compute. reflexivity. }
    exists r1, w1, r2, w2.
    split; [exact Hrun1|]. split; [exact Hrun2 | exact Hch2].
Defined.

(** C3 as stated fails for a project without a retention policy: the
    preview finds a delta and reports [changed = true], and records no
    before/after pair. *)
Lemma create_preview_records_no_diff :
  ¬ (∀ (p : Retention.Params) (s : Harbor.State) x w r w',
       Retention.check_mode p = true →
       @Retention.fetch Harbor.env p (@start Harbor.env s) = (inr x, w) →
       Retention.delta p x = true →
       @run Harbor.env (Retention.main p) s = (Exit r, w') →
       ∃ before after, diff r = Some (before, after)).
Proof.
  intros Hclaim.
  set (p := Example.retention false true).
  assert (@returned Harbor.env _ (Retention.delta p)
            (@Retention.fetch Harbor.env p
               (@start Harbor.env Example.fresh)) = true) as Hd
    by (vm_compute; reflexivity).
  assert (match (@run Harbor.env (Retention.main p) Example.fresh).1 with
          | Exit r => match diff r with None => true | Some _ => false end
          | _ => false
          end = true) as Hobs
    by (vm_compute; reflexivity).
  remember (@Retention.fetch Harbor.env p (@start Harbor.env Example.fresh))
    as out eqn:Hf.
  destruct out as [[st|x] w0]; [discriminate Hd|].
  remember (@run Harbor.env (Retention.main p) Example.fresh)
    as out1 eqn:Hrun.
  destruct out1 as [[r1|m r|e] w1]; [|discriminate Hobs|discriminate Hobs].
  symmetry in Hf, Hrun.
  destruct (Hclaim p Example.fresh x w0 r1 w1 eq_refl Hf Hd Hrun)
    as (before & after & Hdiff).
  cbn [fst] in Hobs. rewrite Hdiff in Hobs. discriminate Hobs.
Qed.
